(** * Natural-language-to-SQL core: schema graph, analyzer, join resolver,
      synthesizer, safety gate and bounded cache.

    A shallow embedding of [database/schema_analyzer.py],
    [database/ai_query_generator.py] and [database/advanced_query_builder.py].

    Conventions of the embedding.
    - Python [str] is [string]; the model covers ASCII text: [upper] and
      [lower] map the 26 letters and leave every other byte unchanged,
      whitespace is what [str.isspace] accepts below code point 128.
    - A Python [dict] is an insertion-ordered association list ([PyDict]),
      because iteration order is observable ([min] over the cache keys,
      the neighbour lists of the relationship graph).
    - A raised exception is a value: [option] or a sum, handled where the
      source has its [try]/[except].
    - Wall-clock readings ([time.time()]) are [Z] ticks; only their order
      is used. The running confidence of an analysis is a Python [float]:
      a binary64 number ([PrimFloat.float]) with IEEE addition. The
      confidence of an entity is a literal that is never computed with and
      is kept as the decimal fraction written in the source. *)

From Stdlib Require Import PrimFloat.
From Stdlib Require Import ZArith QArith Lia Ascii String List Bool DecimalString.
From stdpp Require Import base list strings gmap.

Import ListNotations.
Local Open Scope string_scope.
Local Open Scope list_scope.

(* The decimal literals 0.2 and 1.0999999999999999 stand for the nearest
   binary64 numbers, as they do in Python. *)
Set Warnings "-inexact-float".

(** ** Python string primitives *)

Module PyStr.

Definition code (c : ascii) : N := N_of_ascii c.

(** [str.isspace] on one ASCII character: TAB, LF, VT, FF, CR, the four
    separators FS GS RS US, and the blank. *)
Definition is_space (c : ascii) : bool :=
  let n := code c in
  ((9 <=? n) && (n <=? 13) || (28 <=? n) && (n <=? 32))%N.

Definition upper_char (c : ascii) : ascii :=
  let n := code c in
  if ((97 <=? n) && (n <=? 122))%N then ascii_of_N (n - 32) else c.

Definition lower_char (c : ascii) : ascii :=
  let n := code c in
  if ((65 <=? n) && (n <=? 90))%N then ascii_of_N (n + 32) else c.

Fixpoint map_str (f : ascii -> ascii) (s : string) : string :=
  match s with
  | EmptyString => EmptyString
  | String c s' => String (f c) (map_str f s')
  end.

(** [s.upper()], [s.lower()] *)
Definition upper (s : string) : string := map_str upper_char s.
Definition lower (s : string) : string := map_str lower_char s.

(** [s.startswith(p)] *)
Fixpoint startswith (s p : string) {struct p} : bool :=
  match p, s with
  | EmptyString, _ => true
  | String _ _, EmptyString => false
  | String a p', String b s' => if Ascii.eqb a b then startswith s' p' else false
  end.

(** [k in s] *)
Fixpoint str_in (k s : string) : bool :=
  startswith s k ||
  match s with
  | EmptyString => false
  | String _ s' => str_in k s'
  end.

(** [s.lstrip()], [s.rstrip()], [s.strip()] *)
Fixpoint lstrip (s : string) : string :=
  match s with
  | EmptyString => EmptyString
  | String c s' => if is_space c then lstrip s' else s
  end.

Fixpoint rstrip (s : string) : string :=
  match s with
  | EmptyString => EmptyString
  | String c s' =>
      match rstrip s' with
      | EmptyString => if is_space c then EmptyString else String c EmptyString
      | r => String c r
      end
  end.

Definition strip (s : string) : string := lstrip (rstrip s).

(** [s[:n]], [s[n:]] and [s[:-n]] for a literal [n > 0] *)
Fixpoint take (n : nat) (s : string) : string :=
  match n, s with
  | S n', String c s' => String c (take n' s')
  | _, _ => EmptyString
  end.

Fixpoint drop (n : nat) (s : string) : string :=
  match n, s with
  | S n', String _ s' => drop n' s'
  | _, _ => s
  end.

Definition drop_last (n : nat) (s : string) : string :=
  take (String.length s - n) s.

(** [s.endswith(p)] *)
Definition endswith (s p : string) : bool :=
  (String.length p <=? String.length s)%nat &&
  String.eqb (drop (String.length s - String.length p) s) p.

(** [sep.join(l)] *)
Fixpoint join (sep : string) (l : list string) : string :=
  match l with
  | [] => EmptyString
  | [x] => x
  | x :: l' => x +:+ sep +:+ join sep l'
  end.

(** [x in l] for a list of strings *)
Definition mem (x : string) (l : list string) : bool :=
  existsb (String.eqb x) l.

End PyStr.

(** ** Python dictionaries: insertion-ordered, keyed by strings *)

Module PyDict.
Section Dict.
Context {V : Type}.

Definition t : Type := list (string * V).

(** [d.get(k)] *)
Fixpoint get (d : t) (k : string) : option V :=
  match d with
  | [] => None
  | (k', v) :: d' => if String.eqb k' k then Some v else get d' k
  end.

(** [k in d] *)
Definition contains (d : t) (k : string) : bool :=
  match get d k with Some _ => true | None => false end.

(** [d[k] = v]: an existing key keeps its position, a new key goes
    last. *)
Fixpoint set (d : t) (k : string) (v : V) : t :=
  match d with
  | [] => [(k, v)]
  | (k', v') :: d' =>
      if String.eqb k' k then (k', v) :: d' else (k', v') :: set d' k v
  end.

(** [del d[k]] for a key that is present *)
Fixpoint del (d : t) (k : string) : t :=
  match d with
  | [] => []
  | (k', v') :: d' =>
      if String.eqb k' k then d' else (k', v') :: del d' k
  end.

(** [list(d.keys())], [len(d)] *)
Definition keys (d : t) : list string := map fst d.
Definition len (d : t) : nat := length d.

(** A dictionary holds each key once. *)
Definition wf (d : t) : Prop := NoDup (keys d).
End Dict.
Arguments t : clear implicits.
End PyDict.

(** ** database/schema_analyzer.py *)

Module SchemaAnalyzer.

(** What the SQLAlchemy inspector reports. *)
Record column := {
  col_name : string;
  col_type : string;          (* str(col['type']) *)
  col_primary_key : bool      (* col.get('primary_key') *)
}.

Record foreign_key := {
  constrained_columns : list string;
  referred_table : string;
  referred_columns : list string
}.

Record inspector := {
  get_table_names : list string;
  get_columns : string -> list column;
  get_foreign_keys : string -> list foreign_key
}.

(** Attributes of an edge of the [networkx.Graph]. *)
Record edge_attrs := {
  relationship_type : string;
  local_columns : list string;
  foreign_columns : list string
}.

(** [nx.Graph]: the adjacency dictionary [_adj], node -> neighbour ->
    edge attributes. *)
Definition graph : Type := PyDict.t (PyDict.t edge_attrs).

Definition empty_graph : graph := [].

Definition adj (g : graph) (n : string) : PyDict.t edge_attrs :=
  match PyDict.get g n with Some nb => nb | None => [] end.

Definition add_node (g : graph) (n : string) : graph :=
  if PyDict.contains g n then g else PyDict.set g n [].

(** [G.add_edge(u, v, **attr)]: both endpoints become nodes, the
    attributes are written under [u][v] and under [v][u]. Every call of
    the analyzer passes the same three attributes, so updating the
    attribute dictionary replaces it. *)
Definition add_edge (g : graph) (u v : string) (a : edge_attrs) : graph :=
  let g1 := add_node (add_node g u) v in
  let g2 := PyDict.set g1 u (PyDict.set (adj g1 u) v a) in
  PyDict.set g2 v (PyDict.set (adj g2 v) u a).

Definition has_edge (g : graph) (u v : string) : bool :=
  match PyDict.get g u with
  | Some nb => PyDict.contains nb v
  | None => false
  end.

Definition get_edge_data (g : graph) (u v : string) : option edge_attrs :=
  match PyDict.get g u with
  | Some nb => PyDict.get nb v
  | None => None
  end.

(** [list(G.neighbors(n))]; [None] is [NetworkXError] (unknown node). *)
Definition neighbors (g : graph) (n : string) : option (list string) :=
  match PyDict.get g n with
  | Some nb => Some (PyDict.keys nb)
  | None => None
  end.

(** *** _build_relationship_graph *)

Definition fk_attrs (fk : foreign_key) : edge_attrs :=
  {| relationship_type := "foreign_key";
     local_columns := constrained_columns fk;
     foreign_columns := referred_columns fk |}.

Definition add_foreign_keys (insp : inspector) (g : graph) (table : string) : graph :=
  fold_left (fun g fk => add_edge g table (referred_table fk) (fk_attrs fk))
            (get_foreign_keys insp table) g.

(** The graph after the node loop and the foreign-key loop. *)
Definition foreign_key_graph (insp : inspector) : graph :=
  let tables := get_table_names insp in
  let g := fold_left add_node tables empty_graph in
  fold_left (add_foreign_keys insp) tables g.

(** *** _detect_implicit_relationships *)

Definition implicit_attrs (col_name : string) : edge_attrs :=
  {| relationship_type := "implicit";
     local_columns := [col_name];
     foreign_columns := ["id"] |}.

Definition potential_tables (potential_table : string) : list (option string) :=
  [ Some potential_table;
    Some (potential_table +:+ "s");
    Some (potential_table +:+ "es");
    if PyStr.endswith potential_table "y"
    then Some (PyStr.drop_last 1 potential_table +:+ "ies") else None ].

(** The [for pot_table in potential_tables] loop with its [break]. *)
Fixpoint link_first_match (tables : list string) (table col_name : string)
         (cands : list (option string)) (g : graph) : graph :=
  match cands with
  | [] => g
  | Some pot_table :: rest =>
      if negb (String.eqb pot_table "") && PyStr.mem pot_table tables
      then (if has_edge g table pot_table then g
            else add_edge g table pot_table (implicit_attrs col_name))
      else link_first_match tables table col_name rest g
  | None :: rest => link_first_match tables table col_name rest g
  end.

Definition detect_column (tables : list string) (table : string)
           (g : graph) (col : column) : graph :=
  let col_name := PyStr.lower (col_name col) in
  if PyStr.endswith col_name "_id"
  then link_first_match tables table col_name
         (potential_tables (PyStr.drop_last 3 col_name)) g
  else g.

Definition detect_table (insp : inspector) (g : graph) (table : string) : graph :=
  fold_left (detect_column (get_table_names insp) table) (get_columns insp table) g.

Definition _detect_implicit_relationships (insp : inspector) (g : graph) : graph :=
  fold_left (detect_table insp) (get_table_names insp) g.

Definition _build_relationship_graph (insp : inspector) : graph :=
  _detect_implicit_relationships insp (foreign_key_graph insp).

(** *** _detect_table_aliases *)

(** The name with its [tbl_] prefix and [_table] suffix removed. *)
Definition clean_name (table : string) : string :=
  let c := PyStr.lower table in
  let c := if PyStr.startswith c "tbl_" then PyStr.drop 4 c else c in
  if PyStr.endswith c "_table" then PyStr.drop_last 6 c else c.

(** [re.split(r'[_\s]+', s)] *)
Definition is_separator (c : ascii) : bool :=
  Ascii.eqb c "_" || PyStr.is_space c.

Fixpoint split_words (s : string) (word : string) (in_run : bool) : list string :=
  match s with
  | EmptyString => [word]
  | String c s' =>
      if is_separator c
      then (if in_run then split_words s' word true
            else word :: split_words s' EmptyString true)
      else split_words s' (word +:+ String c EmptyString) false
  end.

Definition re_split (s : string) : list string := split_words s EmptyString false.

(** [''.join(word[0] for word in words)]; [None] is the [IndexError] of
    [word[0]] on an empty word. *)
Fixpoint initials (words : list string) : option string :=
  match words with
  | [] => Some EmptyString
  | EmptyString :: _ => None
  | String c _ :: rest =>
      match initials rest with
      | Some r => Some (String c r)
      | None => None
      end
  end.

Definition business_aliases : list (string * list string) :=
  [ ("customers", ["cust"; "customer"; "client"]);
    ("products", ["prod"; "product"; "item"]);
    ("orders", ["ord"; "order"; "purchase"]);
    ("employees", ["emp"; "employee"; "staff"]);
    ("transactions", ["trans"; "transaction"; "txn"]);
    ("invoices", ["inv"; "invoice"; "bill"]);
    ("payments", ["pay"; "payment"; "pmt"]);
    ("addresses", ["addr"; "address"; "location"]) ].

Definition abbreviations (clean : string) : option (list string) :=
  if (4 <? String.length clean)%nat
  then
    let words := re_split clean in
    if (1 <? length words)%nat
    then match initials words with
         | Some i => Some [PyStr.take 4 clean; i]
         | None => None
         end
    else Some [PyStr.take 4 clean]
  else Some [].

Definition business (clean : string) : list string :=
  flat_map (fun '(full_name, alias_list) =>
              if PyStr.str_in full_name clean || PyStr.str_in clean full_name
              then alias_list else [])
           business_aliases.

(** The list [aliases] collected for one table, before [set(...)]. *)
Definition collect_aliases (table : string) : option (list string) :=
  let clean := clean_name table in
  match abbreviations clean with
  | Some a => Some (a ++ business clean)
  | None => None
  end.

(** [set(aliases)] for one table. *)
Definition alias_set (table : string) : option (gset string) :=
  match collect_aliases table with
  | Some a => Some (list_to_set a)
  | None => None
  end.

(** The loop over the tables filling [self.table_aliases]. *)
Fixpoint detect_aliases_loop (tables : list string)
         (acc : PyDict.t (list string)) : option (PyDict.t (list string)) :=
  match tables with
  | [] => Some acc
  | table :: rest =>
      match alias_set table with
      | Some s => detect_aliases_loop rest (PyDict.set acc table (elements s))
      | None => None
      end
  end.

Definition _detect_table_aliases (insp : inspector) : option (PyDict.t (list string)) :=
  detect_aliases_loop (get_table_names insp) [].

(** *** find_relationships, _get_path_join_info *)

Record path_join := {
  from_table : string;
  to_table : string;
  join_condition : edge_attrs
}.

Inductive relationship :=
| Direct (path : list string) (join_info : edge_attrs)
| Indirect (path : list string) (join_info : list path_join).

(** What [nx.shortest_path] can do: return a path, raise
    [NetworkXNoPath], or raise something else ([NodeNotFound]). *)
Inductive path_result :=
| PathFound (path : list string)
| NoPath
| PathError.

Fixpoint _get_path_join_info (g : graph) (path : list string) : list path_join :=
  match path with
  | table1 :: ((table2 :: _) as rest) =>
      (if has_edge g table1 table2
       then match get_edge_data g table1 table2 with
            | Some d => [ {| from_table := table1; to_table := table2;
                             join_condition := d |} ]
            | None => []
            end
       else []) ++ _get_path_join_info g rest
  | _ => []
  end.

Section Relationships.
(** [networkx] is not part of the repository: its shortest-path search
    is a parameter. *)
Variable shortest_path : graph -> string -> string -> path_result.

Definition find_relationships (g : graph) (table1 table2 : string) : list relationship :=
  let relationships :=
    if has_edge g table1 table2
    then match get_edge_data g table1 table2 with
         | Some d => [Direct [table1; table2] d]
         | None => []
         end
    else [] in
  match shortest_path g table1 table2 with
  | PathFound path =>
      if (2 <? length path)%nat
      then relationships ++ [Indirect path (_get_path_join_info g path)]
      else relationships
  | NoPath => relationships
  | PathError => relationships
  end.
End Relationships.

(** *** get_related_tables *)

Record related := {
  direct : list string;
  indirect : list string
}.

(** The loop over the direct neighbours; an exception inside it leaves
    what was appended so far. *)
Fixpoint second_level (g : graph) (table : string) (direct_tables : list string)
         (todo : list string) (acc : list string) : list string :=
  match todo with
  | [] => acc
  | neighbor :: rest =>
      match neighbors g neighbor with
      | Some second =>
          second_level g table direct_tables rest
            (acc ++ List.filter (fun second_table =>
                              negb (String.eqb second_table table)
                              && negb (PyStr.mem second_table direct_tables))
                           second)
      | None => acc
      end
  end.

Definition get_related_tables (g : graph) (table : string) (max_depth : Z) : related :=
  match neighbors g table with
  | None => {| direct := []; indirect := [] |}
  | Some nbs =>
      {| direct := nbs;
         indirect := if (1 <? max_depth)%Z
                     then second_level g table nbs nbs []
                     else [] |}
  end.

(** *** suggest_columns_for_query *)

Definition intent_column_mapping : PyDict.t (list string) :=
  [ ("count", ["id"]);
    ("list", ["id"; "name"; "title"; "description"]);
    ("search", ["name"; "title"; "description"; "email"]);
    ("financial", ["amount"; "price"; "cost"; "total"; "value"]);
    ("temporal", ["created_at"; "updated_at"; "date"; "timestamp"]);
    ("status", ["status"; "state"; "active"; "enabled"]) ].

Definition qualified (table name : string) : string := table +:+ "." +:+ name.

Definition suggest_columns_for_query (insp : inspector) (tables : list string)
           (intent : string) : list string :=
  let relevant_patterns :=
    match PyDict.get intent_column_mapping intent with
    | Some l => l
    | None => ["id"; "name"]
    end in
  flat_map (fun table =>
    flat_map (fun col =>
      let lowered := PyStr.lower (col_name col) in
      flat_map (fun pattern =>
                  if PyStr.str_in pattern lowered
                  then [qualified table (col_name col)] else [])
               relevant_patterns)
      (get_columns insp table))
    tables.

(** *** inspector.get_columns on an unknown name *)

(** [inspector.get_columns(table)] answers for the tables the inspector
    lists; asked for any other name it raises [NoSuchTableError(table)],
    whose [str] is the name. [get_columns] of the record is the answer for
    a listed table. The analyzer itself only asks for listed tables; the
    generator also asks for graph neighbours. *)
Definition no_such_table (insp : inspector) (table : string) : bool :=
  negb (PyStr.mem table (get_table_names insp)).

(** *** The analyzer object: what [__init__] leaves in [self] *)

Record t := {
  insp : inspector;
  relationship_graph : graph;
  table_aliases : PyDict.t (list string)
}.

(** [None]: [_analyze_schema] raised. *)
Definition init (i : inspector) : option t :=
  let g := _build_relationship_graph i in
  match _detect_table_aliases i with
  | Some aliases =>
      Some {| insp := i; relationship_graph := g; table_aliases := aliases |}
  | None => None
  end.

(** *** find_table_by_alias *)

(** [alias in [a.lower() for a in aliases]] *)
Definition alias_listed (alias : string) (aliases : list string) : bool :=
  PyStr.mem alias (map PyStr.lower aliases).

Definition find_table_by_alias (sa : t) (alias : string) : option string :=
  let alias := PyStr.strip (PyStr.lower alias) in
  let tables := get_table_names (insp sa) in
  match find (fun table => String.eqb (PyStr.lower table) alias) tables with
  | Some table => Some table
  | None =>
      match find (fun entry : string * list string => alias_listed alias (snd entry))
                 (table_aliases sa) with
      | Some entry => Some (fst entry)
      | None =>
          find (fun table => PyStr.str_in alias (PyStr.lower table)
                             || PyStr.str_in (PyStr.lower table) alias)
               tables
      end
  end.

End SchemaAnalyzer.

(** ** database/ai_query_generator.py *)

Module AIQueryGenerator.
Import SchemaAnalyzer.

(** The keyword lists of [_load_query_patterns], in dictionary order (the
    templates are never read). *)
Definition query_patterns : list (string * list string) :=
  [ ("count", ["how many"; "count"; "total"; "number of"]);
    ("list", ["show"; "list"; "get"; "display"; "find"]);
    ("aggregate", ["sum"; "average"; "max"; "min"; "total"]);
    ("group_by", ["by"; "group"; "each"; "per"]);
    ("join", ["with"; "and"; "related"; "associated"]) ].

Record entity := {
  e_type : string;
  e_value : string;
  e_original : option string;
  e_table : option string;
  e_confidence : Q
}.

Record analysis := {
  original_query : string;
  intent : string;
  entities : list entity;
  keywords : list string;
  confidence : PrimFloat.float;
  aggregation : option string
}.

Definition with_intent (i : string) (a : analysis) : analysis :=
  {| original_query := original_query a; intent := i; entities := entities a;
     keywords := keywords a; confidence := confidence a;
     aggregation := aggregation a |}.

Definition with_entities (es : list entity) (a : analysis) : analysis :=
  {| original_query := original_query a; intent := intent a; entities := es;
     keywords := keywords a; confidence := confidence a;
     aggregation := aggregation a |}.

Definition with_aggregation (f : string) (a : analysis) : analysis :=
  {| original_query := original_query a; intent := intent a;
     entities := entities a; keywords := keywords a;
     confidence := confidence a; aggregation := Some f |}.

(** One matched keyword: intent, confidence and keyword list change;
    [analysis['confidence'] += 0.2] is a binary64 addition. *)
Definition record_match (i keyword : string) (a : analysis) : analysis :=
  {| original_query := original_query a; intent := i; entities := entities a;
     keywords := keywords a ++ [keyword];
     confidence := PrimFloat.add (confidence a) 0.2%float;
     aggregation := aggregation a |}.

(** *** _analyze_natural_query, stage by stage *)

Definition initial_analysis (query : string) : analysis :=
  {| original_query := query; intent := "list"; entities := [];
     keywords := []; confidence := 0.5%float; aggregation := None |}.

Definition detect_pattern (query_lower : string) (a : analysis)
           (p : string * list string) : analysis :=
  fold_left (fun a keyword =>
               if PyStr.str_in keyword query_lower
               then record_match (fst p) keyword a else a)
            (snd p) a.

Definition detect_intent (query_lower : string) (a : analysis) : analysis :=
  fold_left (detect_pattern query_lower) query_patterns a.

Definition agg_functions : list string :=
  ["count"; "sum"; "avg"; "average"; "max"; "min"].

Definition detect_aggregation (query_lower : string) (a : analysis) : analysis :=
  fold_left (fun a func =>
               if PyStr.str_in func query_lower
               then
                 let a := with_aggregation func a in
                 if PyStr.mem func ["sum"; "avg"; "average"; "max"; "min"]
                 then with_intent "aggregate" a else a
               else a)
            agg_functions a.

Definition detect_grouping (query_lower : string) (a : analysis) : analysis :=
  if existsb (fun word => PyStr.str_in word query_lower)
             ["by"; "group"; "each"; "per"]
  then with_intent "group_by" a else a.

Section Generator.
(** The two [re.findall] scans of [_extract_entities] (quoted literals,
    as pairs of groups, and numeric tokens) and the graph search are
    library calls. *)
Variable findall_quoted : string -> list (string * string).
Variable findall_numbers : string -> list string.
Variable shortest_path : graph -> string -> string -> path_result.

Variable schema : SchemaAnalyzer.t.

Definition table_entities (query_lower table : string) : list entity :=
  (if PyStr.str_in (PyStr.lower table) query_lower
   then [ {| e_type := "table"; e_value := table; e_original := Some table;
             e_table := None; e_confidence := 9 # 10 |} ]
   else [])
  ++
  match PyDict.get (table_aliases schema) table with
  | Some aliases =>
      flat_map (fun alias =>
                  if PyStr.str_in (PyStr.lower alias) query_lower
                  then [ {| e_type := "table"; e_value := table;
                            e_original := Some alias; e_table := None;
                            e_confidence := 8 # 10 |} ]
                  else [])
               aliases
  | None => []
  end.

Definition column_entities (query_lower table : string) : list entity :=
  flat_map (fun col =>
              if PyStr.str_in (PyStr.lower (col_name col)) query_lower
              then [ {| e_type := "column"; e_value := col_name col;
                        e_original := None; e_table := Some table;
                        e_confidence := 7 # 10 |} ]
              else [])
           (get_columns (insp schema) table).

Definition _extract_entities (query : string) : list entity :=
  let query_lower := PyStr.lower query in
  let tables := get_table_names (insp schema) in
  flat_map (table_entities query_lower) tables
  ++ flat_map (column_entities query_lower) tables
  ++ map (fun m : string * string =>
            {| e_type := "value";
               e_value := if String.eqb (fst m) "" then snd m else fst m;
               e_original := None; e_table := None;
               e_confidence := 9 # 10 |})
         (findall_quoted query)
  ++ map (fun num =>
            {| e_type := "number"; e_value := num; e_original := None;
               e_table := None; e_confidence := 8 # 10 |})
         (findall_numbers query).

(** The analysis as it stands after the aggregation loop, before the
    grouping test. *)
Definition aggregation_stage (query : string) : analysis :=
  let query_lower := PyStr.lower query in
  let a := detect_intent query_lower (initial_analysis query) in
  let a := with_entities (_extract_entities query) a in
  detect_aggregation query_lower a.

Definition _analyze_natural_query (query : string) : analysis :=
  detect_grouping (PyStr.lower query) (aggregation_stage query).

(** *** _build_joins *)

Definition left_join (table main_table local_col foreign_col : string) : string :=
  "LEFT JOIN " +:+ table +:+ " ON " +:+ main_table +:+ "." +:+ local_col
  +:+ " = " +:+ table +:+ "." +:+ foreign_col.

(** The clause of one edge; [None] is the [IndexError] of [...[0]] on an
    empty column list. *)
Definition edge_join (from_table to_table : string) (d : edge_attrs) : option string :=
  match local_columns d, foreign_columns d with
  | local_col :: _, foreign_col :: _ =>
      Some (left_join to_table from_table local_col foreign_col)
  | _, _ => None
  end.

(** The loop [for j in range(len(path) - 1)]; [infos] is what is left of
    [rel['join_info']] from index [j] on, and running out of it is the
    [IndexError] of [rel['join_info'][j]]. *)
Fixpoint indirect_joins (path : list string) (infos : list path_join)
  : option (list string) :=
  match path with
  | from_table :: ((to_table :: _) as rest) =>
      match infos with
      | [] => None
      | info :: infos' =>
          match edge_join from_table to_table (join_condition info) with
          | Some clause =>
              match indirect_joins rest infos' with
              | Some more => Some (clause :: more)
              | None => None
              end
          | None => None
          end
      end
  | _ => Some []
  end.

Definition joins_for (main_table table : string) : option (list string) :=
  match find_relationships shortest_path (relationship_graph schema) main_table table with
  | [] => Some []
  | Direct _ join_info :: _ =>
      match edge_join main_table table join_info with
      | Some clause => Some [clause]
      | None => None
      end
  | Indirect path join_info :: _ => indirect_joins path join_info
  end.

Fixpoint joins_loop (main_table : string) (rest : list string) (joins : list string)
  : option (list string) :=
  match rest with
  | [] => Some joins
  | table :: rest' =>
      match joins_for main_table table with
      | Some js => joins_loop main_table rest' (joins ++ js)
      | None => None
      end
  end.

(** [None]: an exception left [_build_joins]. *)
Definition _build_joins (tables : list string) : option (list string) :=
  if (length tables <=? 1)%nat then Some []
  else
    match tables with
    | main_table :: rest => joins_loop main_table rest []
    | [] => Some []
    end.

(** *** _extract_columns *)

Definition mentioned_columns (a : analysis) (tables : list string) : list string :=
  flat_map (fun e =>
              if String.eqb (e_type e) "column"
              then
                let table := match e_table e with
                             | Some t => t
                             | None => match tables with
                                       | t0 :: _ => t0
                                       | [] => ""
                                       end
                             end in
                [qualified table (e_value e)]
              else [])
           (entities a).

Definition is_key_column (col : column) : bool :=
  col_primary_key col || PyStr.mem (PyStr.lower (col_name col)) ["id"; "pk"].

(** The primary-key loop: the first key column of each table is
    inserted in front unless it is already listed. *)
Definition include_primary_keys (tables : list string) (columns : list string)
  : list string :=
  fold_left (fun columns table =>
               match find is_key_column (get_columns (insp schema) table) with
               | Some col =>
                   let pk_col := qualified table (col_name col) in
                   if PyStr.mem pk_col columns then columns
                   else pk_col :: columns
               | None => columns
               end)
            tables columns.

(** The list [columns] just before the final slice. *)
Definition all_columns (a : analysis) (tables : list string) : list string :=
  let columns := mentioned_columns a tables in
  let columns :=
    match columns with
    | [] => suggest_columns_for_query (insp schema) tables (intent a)
    | _ => columns
    end in
  include_primary_keys tables columns.

Definition _extract_columns (a : analysis) (tables : list string) : list string :=
  firstn 10 (all_columns a tables).

(** *** _find_numeric_columns, _construct_sql *)

Definition numeric_types : list string :=
  ["INTEGER"; "FLOAT"; "DECIMAL"; "NUMERIC"; "REAL"].

Definition _find_numeric_columns (tables : list string) : list string :=
  flat_map (fun table =>
              flat_map (fun col =>
                          if PyStr.mem (PyStr.upper (col_type col)) numeric_types
                          then [qualified table (col_name col)] else [])
                       (get_columns (insp schema) table))
           tables.

Definition select_clause (intent : string) (tables columns : list string)
           (a : analysis) : string :=
  if String.eqb intent "count" then "SELECT COUNT(*)"
  else
    match String.eqb intent "aggregate", aggregation a with
    | true, Some agg_func =>
        match _find_numeric_columns tables with
        | numeric_col :: _ =>
            "SELECT " +:+ PyStr.upper agg_func +:+ "(" +:+ numeric_col +:+ ")"
        | [] => "SELECT COUNT(*)"
        end
    | _, _ =>
        match columns with
        | _ :: _ => "SELECT " +:+ PyStr.join ", " columns
        | [] => "SELECT " +:+ hd "" tables +:+ ".*"
        end
    end.

Definition from_clause (tables : list string) : string :=
  "FROM " +:+ hd "" tables.

Definition join_clause (joins : list string) : string :=
  match joins with
  | [] => ""
  | _ => " " +:+ PyStr.join " " joins
  end.

Definition where_clause (conditions : list string) : string :=
  match conditions with
  | [] => ""
  | _ => " WHERE " +:+ PyStr.join " AND " conditions
  end.

Definition limit_clause (intent : string) (a : analysis) : string :=
  if String.eqb intent "list"
     && negb (PyStr.str_in "all" (PyStr.lower (original_query a)))
  then " LIMIT 10" else "".

Definition _construct_sql (intent : string) (tables columns joins conditions : list string)
           (a : analysis) : string :=
  match tables with
  | [] => "SELECT 1"
  | _ =>
      PyStr.strip (select_clause intent tables columns a +:+ " "
                   +:+ from_clause tables +:+ join_clause joins
                   +:+ where_clause conditions +:+ limit_clause intent a)
  end.

(** *** _infer_tables_from_context, _identify_tables *)

(** [list(set(l))]: the order in which a Python set is listed is not fixed
    by the language. What [_semantic_table_matching] answers for the
    lowered query and the table names comes from the sentence model and
    numpy; [None] stands for a generator whose sentence model failed to
    load. Both are parameters. *)
Variable list_of_set : list string -> list string.
Variable semantic_matching : option (string -> list string -> list string).

Definition domain_mappings : list (string * list string) :=
  [ ("customer", ["customers"; "users"; "clients"]);
    ("order", ["orders"; "purchases"; "transactions"]);
    ("product", ["products"; "items"; "inventory"]);
    ("employee", ["employees"; "staff"; "users"]);
    ("sale", ["sales"; "orders"; "transactions"]);
    ("payment", ["payments"; "transactions"; "invoices"]);
    ("invoice", ["invoices"; "bills"; "payments"]) ].

(** The loop over the candidate names of one keyword, with its [break]. *)
Fixpoint first_resolved (tables : list string) (candidates : list string)
  : list string :=
  match candidates with
  | [] => []
  | pot_table :: rest =>
      match find_table_by_alias schema pot_table with
      | Some actual_table =>
          if negb (String.eqb actual_table "") && PyStr.mem actual_table tables
          then [actual_table]
          else first_resolved tables rest
      | None => first_resolved tables rest
      end
  end.

Definition domain_tables (query_lower : string) (tables : list string) : list string :=
  flat_map (fun m : string * list string =>
              if PyStr.str_in (fst m) query_lower
              then first_resolved tables (snd m) else [])
           domain_mappings.

Definition _infer_tables_from_context (a : analysis) : list string :=
  let query_lower := PyStr.lower (original_query a) in
  let tables := get_table_names (insp schema) in
  let inferred_tables := domain_tables query_lower tables in
  let inferred_tables :=
    match inferred_tables, semantic_matching with
    | [], Some matching => matching query_lower tables
    | _, _ => inferred_tables
    end in
  firstn 3 inferred_tables.

Definition mentioned_tables (a : analysis) : list string :=
  flat_map (fun e => if String.eqb (e_type e) "table" then [e_value e] else [])
           (entities a).

Definition _identify_tables (a : analysis) : list string :=
  let relevant_tables := mentioned_tables a in
  let relevant_tables :=
    match relevant_tables with
    | [] => _infer_tables_from_context a
    | _ => relevant_tables
    end in
  let relevant_tables :=
    match relevant_tables with
    | [only] =>
        let related := get_related_tables (relationship_graph schema) only 1 in
        if existsb (fun word => PyStr.str_in word (PyStr.lower (original_query a)))
                   ["with"; "and"; "related"]
        then relevant_tables ++ firstn 2 (direct related)
        else relevant_tables
    | _ => relevant_tables
    end in
  list_of_set relevant_tables.

(** *** _extract_conditions *)

Definition is_digit (c : ascii) : bool :=
  ((48 <=? PyStr.code c) && (PyStr.code c <=? 57))%N.

(** The longest run of digits at the head of the text, and what follows. *)
Fixpoint take_digits (s : string) : string :=
  match s with
  | String c s' => if is_digit c then String c (take_digits s') else EmptyString
  | EmptyString => EmptyString
  end.

Fixpoint drop_digits (s : string) : string :=
  match s with
  | String c s' => if is_digit c then drop_digits s' else s
  | EmptyString => EmptyString
  end.

(** The text behind a literal prefix; [None] if the text does not start
    with it. *)
Fixpoint after (p s : string) {struct p} : option string :=
  match p, s with
  | EmptyString, _ => Some s
  | String a p', String b s' => if Ascii.eqb a b then after p' s' else None
  | String _ _, EmptyString => None
  end.

(** A literal followed by [(\d+)], matched at the head of the text: the
    digits of the group and the rest of the text. *)
Definition literal_number (lit s : string) : option (string * string) :=
  match after lit s with
  | Some r =>
      match take_digits r with
      | EmptyString => None
      | d => Some (d, drop_digits r)
      end
  | None => None
  end.

(** [re.finditer] for a pattern that is tried at every position. Each of
    the four comparison patterns starts with a letter that does not occur
    again in its literal parts, so no match can begin inside another and
    the scan of all positions finds exactly the matches of [finditer]. *)
Fixpoint scan (m : string -> option string) (s : string) : list string :=
  (match m s with Some x => [x] | None => [] end)
  ++ match s with
     | EmptyString => []
     | String _ s' => scan m s'
     end.

(** [greater than (\d+)], [less than (\d+)], [equals? (\d+)] and
    [between (\d+) and (\d+)], each with its formatter. *)
Definition match_greater (s : string) : option string :=
  match literal_number "greater than " s with
  | Some (n, _) => Some (" > " +:+ n)
  | None => None
  end.

Definition match_less (s : string) : option string :=
  match literal_number "less than " s with
  | Some (n, _) => Some (" < " +:+ n)
  | None => None
  end.

Definition match_equals (s : string) : option string :=
  match literal_number "equals " s with
  | Some (n, _) => Some (" = " +:+ n)
  | None =>
      match literal_number "equal " s with
      | Some (n, _) => Some (" = " +:+ n)
      | None => None
      end
  end.

Definition match_between (s : string) : option string :=
  match literal_number "between " s with
  | Some (n, r) =>
      match literal_number " and " r with
      | Some (m, _) => Some (" BETWEEN " +:+ n +:+ " AND " +:+ m)
      | None => None
      end
  | None => None
  end.

Definition comparison_patterns : list (string -> option string) :=
  [match_greater; match_less; match_equals; match_between].

Definition entity_column (tables : list string) (col_entity : entity) : string :=
  let table := match e_table col_entity with
               | Some t => t
               | None => match tables with
                         | t0 :: _ => t0
                         | [] => ""
                         end
               end in
  qualified table (e_value col_entity).

(** The conditions that pair every value with every mentioned column. *)
Definition value_conditions (a : analysis) (tables : list string) : list string :=
  let value_entities :=
    List.filter (fun e => PyStr.mem (e_type e) ["value"; "number"]) (entities a) in
  let column_entities :=
    List.filter (fun e => String.eqb (e_type e) "column") (entities a) in
  flat_map (fun value_entity =>
              map (fun col_entity =>
                     let column := entity_column tables col_entity in
                     if String.eqb (e_type value_entity) "number"
                     then column +:+ " = " +:+ e_value value_entity
                     else column +:+ " LIKE '%" +:+ e_value value_entity +:+ "%'")
                  column_entities)
           value_entities.

(** The conditions read off the comparison phrases. *)
Definition comparison_conditions (a : analysis) (tables : list string) : list string :=
  let query_lower := PyStr.lower (original_query a) in
  flat_map (fun pattern =>
              flat_map (fun formatted =>
                          match _find_numeric_columns tables with
                          | numeric_col :: _ => [numeric_col +:+ formatted]
                          | [] => []
                          end)
                       (scan pattern query_lower))
           comparison_patterns.

Definition _extract_conditions (a : analysis) (tables : list string) : list string :=
  value_conditions a tables ++ comparison_conditions a tables.

(** *** generate_sql *)

(** [_extract_columns] asks the inspector for the columns of every table
    of its list, in list order: in [suggest_columns_for_query] when no
    column was mentioned, and in any case in the primary-key loop. So it
    raises [NoSuchTableError] exactly when a table of the list is unknown
    to the inspector, and the exception names the first such table.
    [_extract_conditions] and [_construct_sql] ask for the same tables
    again, after [_extract_columns] has returned. *)
Definition unknown_table (tables : list string) : option string :=
  find (no_such_table (insp schema)) tables.

(** The dictionary [generate_sql] returns: the generated statement with
    its tables, analysis and confidence, or, after an exception, the entry
    with [sql = None], the message, intent [unknown] and confidence 0.
    Two exceptions can reach the [except]: the [IndexError] of
    [_build_joins] and the [NoSuchTableError] of [_extract_columns]. *)
Inductive generation :=
| Generated (sql : string) (tables : list string) (a : analysis)
            (conf : PrimFloat.float)
| GenerationError (error : string).

Definition generate_sql (natural_query : string) : generation :=
  let a := _analyze_natural_query natural_query in
  let relevant_tables := _identify_tables a in
  match _build_joins relevant_tables with
  | None => GenerationError "list index out of range"
  | Some joins =>
      match unknown_table relevant_tables with
      | Some table => GenerationError table
      | None =>
          let columns := _extract_columns a relevant_tables in
          let where_conditions := _extract_conditions a relevant_tables in
          Generated (_construct_sql (intent a) relevant_tables columns joins
                                    where_conditions a)
                    relevant_tables a (confidence a)
      end
  end.

End Generator.
End AIQueryGenerator.

(** ** database/advanced_query_builder.py *)

Module AdvancedQueryBuilder.

(** *** The execution collaborator *)

(** A Python object that is neither [None] nor a number nor text
    ([Decimal], [date], [bytes], ...). The builder does two things with
    such an object: it takes its [str], and it compares a count with an
    integer ([None]: the comparison raises [TypeError]). *)
Record object := {
  obj_str : string;
  obj_gt : Z -> option bool
}.

(** A cell of a result row. *)
Inductive value :=
| VNone
| VInt (z : Z)
| VFloat (q : Q)
| VStr (s : string)
| VObject (o : object).

(** What [session.execute] returns. *)
Record cursor := {
  fetchall : list (list value);
  cursor_keys : list string;
  rowcount : Z
}.

(** The database answers a statement with a cursor or raises; [inl msg]
    is the exception, [msg] its [str(e)]. *)
Definition database : Type := string -> string + cursor.

(** The statements issued so far, oldest first. *)
Definition issued : Type := list string.

Definition session_execute (db : database) (statement : string) (log : issued)
  : (string + cursor) * issued :=
  (db statement, log ++ [statement]).

(** [result.scalar()] *)
Definition scalar (c : cursor) : value :=
  match fetchall c with
  | (v :: _) :: _ => v
  | _ => VNone
  end.

(** [count > 10000]; [None] is the [TypeError] of comparing [None] or a
    text with an integer; another object answers by its own comparison. *)
Definition exceeds_10000 (v : value) : option bool :=
  match v with
  | VInt z => Some (10000 <? z)%Z
  | VFloat q => Some (match (inject_Z 10000 ?= q)%Q with Lt => true | _ => false end)
  | VNone | VStr _ => None
  | VObject o => obj_gt o 10000
  end.

Inductive execution_result :=
| Failure (error : string) (sql_attempted : option string)
| Data (data : list (list value)) (columns : list string) (row_count : nat)
       (sql_executed : string)
| Modification (affected_rows : Z) (sql_executed : string).

Definition success (r : execution_result) : bool :=
  match r with Failure _ _ => false | _ => true end.

(** *** _is_safe_query *)

Definition dangerous_keywords : list string :=
  ["DROP"; "DELETE"; "UPDATE"; "INSERT"; "ALTER";
   "CREATE"; "TRUNCATE"; "GRANT"; "REVOKE"].

Definition _is_safe_query (sql : string) : bool :=
  let sql_upper := PyStr.strip (PyStr.upper sql) in
  if existsb (fun keyword => PyStr.str_in keyword sql_upper) dangerous_keywords
  then false
  else if negb (PyStr.startswith sql_upper "SELECT") then false
  else true.

(** *** _identify_large_tables, _optimize_query *)

Fixpoint _identify_large_tables (db : database) (tables : list string) (log : issued)
  : list string * issued :=
  match tables with
  | [] => ([], log)
  | table :: rest =>
      let count_query := "SELECT COUNT(*) FROM " +:+ table in
      let '(answer, log) := session_execute db count_query log in
      let large :=
        match answer with
        | inr result =>
            match exceeds_10000 (scalar result) with
            | Some true => [table]
            | _ => []
            end
        | inl _ => []
        end in
      let '(more, log) := _identify_large_tables db rest log in
      (large ++ more, log)
  end.

Definition _add_index_hints (sql : string) (tables : list string) : string := sql.

Definition _optimize_query (db : database) (sql : string) (tables : list string)
           (log : issued) : string * issued :=
  let '(optimized, log) :=
    if negb (PyStr.str_in "LIMIT" (PyStr.upper sql))
       && negb (PyStr.str_in "COUNT(" (PyStr.upper sql))
    then
      let '(large_tables, log) := _identify_large_tables db tables log in
      match large_tables with
      | [] => (sql, log)
      | _ => (sql +:+ " LIMIT 100", log)
      end
    else (sql, log) in
  (_add_index_hints optimized tables, log).

(** *** execute_generated_sql *)

Definition execute_generated_sql (db : database) (sql_query : string)
           (involved_tables : list string) (log : issued)
  : execution_result * issued :=
  if negb (_is_safe_query sql_query)
  then (Failure "Query contains potentially unsafe operations" None, log)
  else
    let '(optimized_sql, log) := _optimize_query db sql_query involved_tables log in
    let '(answer, log) := session_execute db optimized_sql log in
    match answer with
    | inl e => (Failure e (Some sql_query), log)
    | inr result =>
        if PyStr.startswith (PyStr.upper (PyStr.strip optimized_sql)) "SELECT"
        then (Data (fetchall result) (cursor_keys result)
                   (length (fetchall result)) optimized_sql, log)
        else (Modification (rowcount result) optimized_sql, log)
    end.

(** *** _cache_query *)

Record cache_entry := {
  sql : string;
  timestamp : Z;          (* the clock reading, in ticks *)
  success_count : Z
}.

Definition query_cache : Type := PyDict.t cache_entry.

(** [min(keys, key=f)]: the first key with the least [f]. *)
Fixpoint min_from (f : string -> Z) (best : string) (rest : list string) : string :=
  match rest with
  | [] => best
  | k :: rest' => if (f k <? f best)%Z then min_from f k rest' else min_from f best rest'
  end.

Definition py_min (f : string -> Z) (l : list string) : option string :=
  match l with
  | [] => None
  | k :: rest => Some (min_from f k rest)
  end.

(** [self.query_cache[k]['timestamp']] *)
Definition timestamp_of (cache : query_cache) (k : string) : Z :=
  match PyDict.get cache k with
  | Some e => timestamp e
  | None => 0
  end.

Definition cache_key (natural_query : string) : string :=
  PyStr.strip (PyStr.lower natural_query).

(** [now] is what [self._get_timestamp()] returns during the call. *)
Definition _cache_query (natural_query sql_text : string) (now : Z)
           (cache : query_cache) : query_cache :=
  let key := cache_key natural_query in
  let previous :=
    match PyDict.get cache key with
    | Some e => success_count e
    | None => 0%Z
    end in
  let cache :=
    PyDict.set cache key
      {| sql := sql_text; timestamp := now; success_count := (previous + 1)%Z |} in
  if (100 <? PyDict.len cache)%nat
  then match py_min (timestamp_of cache) (PyDict.keys cache) with
       | Some oldest_key => PyDict.del cache oldest_key
       | None => cache
       end
  else cache.

(** *** _format_data_rows, _generate_result_summary, format_query_results *)

(** One cell as it is stored in the row dictionary: [None] and numbers are
    kept, anything else is turned into its [str] (a text is its own
    [str]). *)
Definition format_cell (v : value) : value :=
  match v with
  | VNone => VNone
  | VInt z => VInt z
  | VFloat q => VFloat q
  | VStr s => VStr s
  | VObject o => VStr (obj_str o)
  end.

(** The loop [for i, value in enumerate(row)], from index [i] on. *)
Fixpoint fill_row (columns : list string) (i : nat) (row : list value)
         (row_dict : PyDict.t value) : PyDict.t value :=
  match row with
  | [] => row_dict
  | v :: rest =>
      fill_row columns (S i) rest
        (match nth_error columns i with
         | Some column => PyDict.set row_dict column (format_cell v)
         | None => row_dict
         end)
  end.

Definition _format_data_rows (rows : list (list value)) (columns : list string)
  : list (PyDict.t value) :=
  map (fun row => fill_row columns 0 row []) rows.

Definition decimal (n : nat) : string := NilEmpty.string_of_uint (Nat.to_uint n).

Definition _generate_result_summary (row_count : nat) : string :=
  match row_count with
  | 0%nat => "No results found for your query."
  | 1%nat => "Found 1 result matching your query."
  | _ => "Found " +:+ decimal row_count +:+ " results matching your query."
  end.

(** What the caller of the builder receives. In the two successful forms
    the entries [confidence], [tables_involved] and [analysis] are those of
    the generator's answer [info]. [NotGenerated] is the answer without an
    [sql_attempted] entry. *)
Inductive formatted_result :=
| NotGenerated (error natural_query : string)
| Failed (error natural_query : string) (sql_attempted : option string)
| FormattedData (natural_query sql_executed : string)
                (info : AIQueryGenerator.generation)
                (row_count : nat) (columns : list string)
                (data : list (PyDict.t value)) (summary : string)
| FormattedModification (natural_query sql_executed : string)
                        (info : AIQueryGenerator.generation) (affected_rows : Z).

Definition formatted_success (f : formatted_result) : bool :=
  match f with
  | NotGenerated _ _ | Failed _ _ _ => false
  | _ => true
  end.

Definition format_query_results (execution : execution_result)
           (query_info : AIQueryGenerator.generation) (natural_query : string)
  : formatted_result :=
  match execution with
  | Failure error sql_attempted => Failed error natural_query sql_attempted
  | Data data columns row_count sql_executed =>
      FormattedData natural_query sql_executed query_info row_count columns
                    (_format_data_rows data columns)
                    (_generate_result_summary row_count)
  | Modification affected_rows sql_executed =>
      FormattedModification natural_query sql_executed query_info affected_rows
  end.

(** *** process_natural_query *)

Section Builder.
(** The library calls behind the generator, its schema analyzer, the
    database and the clock reading taken by [_cache_query]. *)
Variable findall_quoted : string -> list (string * string).
Variable findall_numbers : string -> list string.
Variable shortest_path :
  SchemaAnalyzer.graph -> string -> string -> SchemaAnalyzer.path_result.
Variable schema : SchemaAnalyzer.t.
Variable list_of_set : list string -> list string.
Variable semantic_matching : option (string -> list string -> list string).
Variable db : database.

(** The mutable state of the builder and its session: the statements
    issued so far and the query cache. *)
Definition builder_state : Type := issued * query_cache.

Definition process_natural_query (natural_query : string) (now : Z)
           (st : builder_state) : formatted_result * builder_state :=
  let '(log, cache) := st in
  match AIQueryGenerator.generate_sql findall_quoted findall_numbers shortest_path
          schema list_of_set semantic_matching natural_query with
  | AIQueryGenerator.GenerationError error =>
      (NotGenerated error natural_query, (log, cache))
  | AIQueryGenerator.Generated sql_text tables a conf =>
      if String.eqb sql_text ""
      then (NotGenerated "Could not generate SQL" natural_query, (log, cache))
      else
        let '(execution, log) := execute_generated_sql db sql_text tables log in
        let formatted :=
          format_query_results execution
            (AIQueryGenerator.Generated sql_text tables a conf) natural_query in
        if formatted_success formatted
        then (formatted, (log, _cache_query natural_query sql_text now cache))
        else (formatted, (log, cache))
  end.

(** *** _get_table_row_count, _generate_sample_queries, get_schema_suggestions *)

(** The count, or 0 when the probe raised. *)
Definition _get_table_row_count (table : string) (log : issued) : value * issued :=
  let '(answer, log) :=
    session_execute db ("SELECT COUNT(*) FROM " +:+ table) log in
  match answer with
  | inr result => (scalar result, log)
  | inl _ => (VInt 0, log)
  end.

Record table_info := {
  info_name : string;
  info_aliases : list string;
  info_row_count : value
}.

Record column_info := {
  column_name : string;
  column_table : string;
  column_type : string
}.

Definition samples_for (table : string) : list string :=
  [ "Show me all " +:+ table;
    "How many " +:+ table +:+ " are there?";
    "Get the latest " +:+ table ]
  ++ match SchemaAnalyzer.direct
             (SchemaAnalyzer.get_related_tables
                (SchemaAnalyzer.relationship_graph schema) table 2) with
     | related_table :: _ =>
         ["Show " +:+ table +:+ " with their " +:+ related_table]
     | [] => []
     end.

Definition _generate_sample_queries (tables : list table_info) : list string :=
  firstn 10 (flat_map (fun info => samples_for (info_name info)) (firstn 3 tables)).

Record suggestions := {
  suggested_tables : list table_info;
  suggested_columns : list column_info;
  suggested_relationships : option SchemaAnalyzer.related;
  sample_queries : list string
}.

(** The loop that collects the matching tables and probes their size. *)
Fixpoint suggest_tables (partial_lower : string) (tables : list string) (log : issued)
  : list table_info * issued :=
  match tables with
  | [] => ([], log)
  | table :: rest =>
      if PyStr.str_in partial_lower (PyStr.lower table)
         || PyStr.str_in (PyStr.lower table) partial_lower
      then
        let '(count, log) := _get_table_row_count table log in
        let '(more, log) := suggest_tables partial_lower rest log in
        ({| info_name := table;
            info_aliases :=
              match PyDict.get (SchemaAnalyzer.table_aliases schema) table with
              | Some aliases => aliases
              | None => []
              end;
            info_row_count := count |} :: more, log)
      else suggest_tables partial_lower rest log
  end.

Definition get_schema_suggestions (partial_query : string) (log : issued)
  : suggestions * issued :=
  let partial_lower := PyStr.lower partial_query in
  let '(tables, log) :=
    suggest_tables partial_lower
      (SchemaAnalyzer.get_table_names (SchemaAnalyzer.insp schema)) log in
  let columns :=
    flat_map (fun info =>
                map (fun col =>
                       {| column_name := SchemaAnalyzer.col_name col;
                          column_table := info_name info;
                          column_type := SchemaAnalyzer.col_type col |})
                    (firstn 5 (SchemaAnalyzer.get_columns
                                 (SchemaAnalyzer.insp schema) (info_name info))))
             tables in
  let relationships :=
    match tables with
    | main :: _ =>
        Some (SchemaAnalyzer.get_related_tables
                (SchemaAnalyzer.relationship_graph schema) (info_name main) 2)
    | [] => None
    end in
  ({| suggested_tables := tables;
      suggested_columns := columns;
      suggested_relationships := relationships;
      sample_queries := _generate_sample_queries tables |}, log).

End Builder.

End AdvancedQueryBuilder.

(** ** Vocabulary of the statements *)

Module Spec.
Import SchemaAnalyzer AIQueryGenerator AdvancedQueryBuilder.

(** No character of the string is whitespace. *)
Fixpoint no_space (s : string) : bool :=
  match s with
  | EmptyString => true
  | String c s' => negb (PyStr.is_space c) && no_space s'
  end.

(** The word occurs in the text, as written or ignoring case. *)
Definition occurs (word text : string) : Prop :=
  PyStr.str_in word text = true \/ PyStr.str_in word (PyStr.lower text) = true.

(** The (intent, keyword) pairs whose keyword occurs in the input,
    ignoring case, in the order in which the analyzer meets them. *)
Definition matched_pairs (query : string) : list (string * string) :=
  flat_map (fun p : string * list string =>
              map (pair (fst p))
                  (List.filter (fun keyword => PyStr.str_in keyword (PyStr.lower query))
                               (snd p)))
           query_patterns.

(** One matched keyword adds 0.2, in binary64 arithmetic. *)
Definition bump (c : PrimFloat.float) : PrimFloat.float :=
  PrimFloat.add c 0.2%float.

(** The number of (intent, keyword) pairs of the pattern table. *)
Definition pattern_pairs : nat :=
  length (flat_map (fun p : string * list string => map (pair (fst p)) (snd p))
                   query_patterns).

Definition aggregation_words : list string := ["sum"; "avg"; "max"; "min"; "average"].
Definition grouping_words : list string := ["by"; "group"; "each"; "per"].

(** The adjacency reads the same from both endpoints. *)
Definition symmetric (g : graph) : Prop :=
  forall u v, get_edge_data g u v = get_edge_data g v u.

(** The graph is symmetric and still holds every edge of [g0]
    unchanged. *)
Definition keeps (g0 g : graph) : Prop :=
  symmetric g
  /\ forall u v x, get_edge_data g0 u v = Some x -> get_edge_data g u v = Some x.

(** Every edge of [g] is an edge of [g0] or an inferred one. *)
Definition adds_only_implicit (g0 g : graph) : Prop :=
  forall u v x, get_edge_data g u v = Some x ->
                get_edge_data g0 u v = Some x \/ relationship_type x = "implicit".

(** [d] is a relationship edge recorded between [u] and [v], read from
    either side. *)
Definition edge_between (g : graph) (u v : string) (d : edge_attrs) : Prop :=
  get_edge_data g u v = Some d \/ get_edge_data g v u = Some d.

(** The stored timestamps are pairwise distinct. *)
Definition distinct_timestamps (cache : query_cache) : Prop :=
  NoDup (map (fun kv => timestamp (snd kv)) cache).

(** [k] holds an entry with the least stored timestamp. *)
Definition oldest (cache : query_cache) (k : string) : Prop :=
  exists e, PyDict.get cache k = Some e
            /\ forall k' e', PyDict.get cache k' = Some e' ->
                            (timestamp e <= timestamp e')%Z.

(** The statement is a SELECT by the test of [execute_generated_sql]. *)
Definition is_select (statement : string) : Prop :=
  PyStr.startswith (PyStr.upper (PyStr.strip statement)) "SELECT" = true.

(** The size probe of one table. *)
Definition count_probe (table : string) : string := "SELECT COUNT(*) FROM " +:+ table.

(** The database reports more than 10000 rows for the table. *)
Definition reported_large (db : database) (table : string) : bool :=
  match db (count_probe table) with
  | inr result =>
      match exceeds_10000 (scalar result) with
      | Some true => true
      | _ => false
      end
  | inl _ => false
  end.

(** Every neighbour recorded in the graph is itself a node of it. *)
Definition closed (g : graph) : Prop :=
  forall u v, has_edge g u v = true -> PyDict.contains g v = true.

(** The test of the inner loop of [get_related_tables]. *)
Definition is_indirect (table : string) (direct_tables : list string)
           (second_table : string) : bool :=
  negb (String.eqb second_table table) && negb (PyStr.mem second_table direct_tables).

(** The text begins, or ends, with an underscore or a blank. *)
Definition starts_with_separator (s : string) : bool :=
  match s with
  | String c _ => is_separator c
  | EmptyString => false
  end.

Fixpoint ends_with_separator (s : string) : bool :=
  match s with
  | EmptyString => false
  | String c s' =>
      match s' with
      | EmptyString => is_separator c
      | String _ _ => ends_with_separator s'
      end
  end.

(** No character of the text is an underscore or a blank. *)
Fixpoint no_separator (s : string) : bool :=
  match s with
  | EmptyString => true
  | String c s' => negb (is_separator c) && no_separator s'
  end.

(** The name has a [tbl_] prefix or a [_table] suffix, in any letter
    case. *)
Definition has_affix (table : string) : Prop :=
  PyStr.startswith (PyStr.lower table) "tbl_" = true
  \/ PyStr.endswith (PyStr.lower table) "_table" = true.

(** The lower-cased name is the cleaned form with a [tbl_] prefix, a
    [_table] suffix, or both, around it. *)
Definition strips_to (table cleaned : string) : Prop :=
  PyStr.lower table = "tbl_" +:+ cleaned
  \/ PyStr.lower table = cleaned +:+ "_table"
  \/ PyStr.lower table = "tbl_" +:+ cleaned +:+ "_table".

(** The business aliases that are part of the table name they are listed
    under. *)
Definition self_named_aliases : list string :=
  ["cust"; "customer"; "prod"; "product"; "ord"; "order"; "emp"; "employee";
   "trans"; "transaction"; "inv"; "invoice"; "pay"; "payment"; "addr"; "address"].

(** The alias as [find_table_by_alias] compares it. *)
Definition normal_alias (alias : string) : string := PyStr.strip (PyStr.lower alias).

(** A table entity names a table of the schema; a column entity carries a
    table of the schema and names one of its columns; the other entities
    are values and numbers. *)
Definition entity_grounded (schema : SchemaAnalyzer.t) (e : entity) : Prop :=
  (e_type e = "table" /\ In (e_value e) (get_table_names (insp schema)))
  \/ (e_type e = "column"
      /\ exists t col,
           e_table e = Some t /\ In t (get_table_names (insp schema))
           /\ In col (get_columns (insp schema) t) /\ col_name col = e_value e)
  \/ e_type e = "value"
  \/ e_type e = "number".

(** One question put to the builder at a clock reading, and a whole
    session of them. *)
Definition ask fq fn sp schema los sem db
           (st : builder_state) (question : string * Z) : builder_state :=
  snd (process_natural_query fq fn sp schema los sem db
         (fst question) (snd question) st).

Definition session fq fn sp schema los sem db
           (questions : list (string * Z)) (st : builder_state) : builder_state :=
  fold_left (ask fq fn sp schema los sem db) questions st.

(** What is read back for a cell: [None], a number and a text as they
    are, any other object as the text of its [str]. *)
Definition read_back (v : value) : value :=
  match v with
  | VObject o => VStr (obj_str o)
  | _ => v
  end.

(** The value is [None], a number or a text. *)
Definition plain (v : value) : Prop :=
  match v with
  | VObject _ => False
  | _ => True
  end.

(** The table is one the inspector of the analyzer lists. *)
Definition listed (schema : SchemaAnalyzer.t) (table : string) : Prop :=
  In table (get_table_names (insp schema)).

(** Every foreign key of a listed table refers to a listed table. *)
Definition references_listed (i : inspector) : Prop :=
  forall table fk,
    In table (get_table_names i) -> In fk (get_foreign_keys i table) ->
    In (referred_table fk) (get_table_names i).

(** [list(set(l))] lists the members of [l] and nothing else. *)
Definition lists_members (list_of_set : list string -> list string) : Prop :=
  forall l x, In x (list_of_set l) <-> In x l.

(** The sentence model, when there is one, picks among the table names
    it is given. *)
Definition picks_given
           (semantic_matching : option (string -> list string -> list string)) : Prop :=
  forall matching, semantic_matching = Some matching ->
    forall query tables x, In x (matching query tables) -> In x tables.

(** The table test of [get_schema_suggestions]. *)
Definition suggested (partial_lower table : string) : bool :=
  PyStr.str_in partial_lower (PyStr.lower table)
  || PyStr.str_in (PyStr.lower table) partial_lower.

End Spec.
Import Spec.

(** ** Sample data *)

Module Samples.
Import SchemaAnalyzer AIQueryGenerator AdvancedQueryBuilder.

Definition query_name (n : nat) : string :=
  "query " +:+ NilEmpty.string_of_uint (Nat.to_uint n).

Definition numbered_entry (n : nat) : string * cache_entry :=
  (query_name n,
   {| sql := "SELECT 1"; timestamp := 1000 + Z.of_nat n; success_count := 1 |}).

Definition plain_column (name type : string) : column :=
  {| col_name := name; col_type := type; col_primary_key := false |}.

(** Tables [orders] and [customers]; [orders] has a column
    [customer_id]; no foreign key is declared. *)
Definition shop : inspector :=
  {| get_table_names := ["orders"; "customers"];
     get_columns := fun table =>
       if String.eqb table "orders"
       then [plain_column "id" "INTEGER"; plain_column "customer_id" "INTEGER";
             plain_column "total" "DECIMAL"]
       else if String.eqb table "customers"
       then [plain_column "id" "INTEGER"; plain_column "name" "VARCHAR"]
       else [];
     get_foreign_keys := fun _ => [] |}.

(** The analyzer object that [__init__] builds over an inspector whose
    table names split into non-empty words. *)
Definition built (i : inspector) : SchemaAnalyzer.t :=
  {| insp := i;
     relationship_graph := _build_relationship_graph i;
     table_aliases :=
       match _detect_table_aliases i with
       | Some aliases => aliases
       | None => []
       end |}.

Definition shop_schema : SchemaAnalyzer.t := built shop.

(** The [re.findall] scans on a text without quotes and digits. *)
Definition no_quoted (query : string) : list (string * string) := [].
Definition no_numbers (query : string) : list string := [].

(** The same tables, with a declared foreign key from [orders.buyer] to
    [customers.id] next to the column [customer_id]. *)
Definition shop_with_key : inspector :=
  {| get_table_names := ["orders"; "customers"];
     get_columns := fun table =>
       if String.eqb table "orders"
       then [plain_column "id" "INTEGER"; plain_column "buyer" "INTEGER";
             plain_column "customer_id" "INTEGER"]
       else if String.eqb table "customers"
       then [plain_column "id" "INTEGER"; plain_column "name" "VARCHAR"]
       else [];
     get_foreign_keys := fun table =>
       if String.eqb table "orders"
       then [ {| constrained_columns := ["buyer"];
                 referred_table := "customers";
                 referred_columns := ["id"] |} ]
       else [] |}.

(** One table [orders] with the columns [id] and [c1] .. [c12], and a
    question that names all twelve. *)
Definition wide : inspector :=
  {| get_table_names := ["orders"];
     get_columns := fun table =>
       if String.eqb table "orders"
       then plain_column "id" "INTEGER"
            :: map (fun n => plain_column
                               ("c" +:+ NilEmpty.string_of_uint (Nat.to_uint n))
                               "VARCHAR")
                   (seq 1 12)
       else [];
     get_foreign_keys := fun _ => [] |}.

Definition wide_schema : SchemaAnalyzer.t := built wide.

Definition wide_analysis : analysis :=
  _analyze_natural_query no_quoted no_numbers wide_schema
    "show c1 c2 c3 c4 c5 c6 c7 c8 c9 c10 c11 c12 of orders".

(** Orders refer to customers and to warehouses, and both of these refer
    to regions. *)
Definition reference (column table : string) : foreign_key :=
  {| constrained_columns := [column];
     referred_table := table;
     referred_columns := ["id"] |}.

Definition depots : inspector :=
  {| get_table_names := ["orders"; "customers"; "warehouses"; "regions"];
     get_columns := fun _ => [plain_column "id" "INTEGER"];
     get_foreign_keys := fun table =>
       if String.eqb table "orders"
       then [reference "buyer" "customers"; reference "depot" "warehouses"]
       else if String.eqb table "customers" then [reference "area" "regions"]
       else if String.eqb table "warehouses" then [reference "area" "regions"]
       else [] |}.

(** One table [logs] whose column [host] is declared as a foreign key to
    a table [hosts] that the inspector does not list. *)
Definition logs : inspector :=
  {| get_table_names := ["logs"];
     get_columns := fun table =>
       if String.eqb table "logs"
       then [plain_column "id" "INTEGER"; plain_column "host" "INTEGER"]
       else [];
     get_foreign_keys := fun table =>
       if String.eqb table "logs" then [reference "host" "hosts"] else [] |}.

Definition logs_schema : SchemaAnalyzer.t := built logs.

(** A graph search that finds no path, and a [list(set(l))] that keeps
    the order of [l]. *)
Definition no_path (g : graph) (table1 table2 : string) : path_result := NoPath.
Definition in_order (l : list string) : list string := l.

(** A [Decimal('9.50')] cell: its [str] is 9.50, and it compares with
    integers by value. *)
Definition price : object :=
  {| obj_str := "9.50"; obj_gt := fun n => Some (n <? 10)%Z |}.

(** [n] cached questions, "query 1" the oldest and first written. *)
Definition numbered_cache (n : nat) : query_cache :=
  map numbered_entry (seq 1 n).

End Samples.

(** * Properties *)

(** ** Strings *)

Section StringFacts.
Import PyStr.

Lemma startswith_nil s : startswith s "" = true.
Proof. destruct s; reflexivity. Qed.

Lemma startswith_cons s c k :
  startswith s (String c k) = true ->
  exists s', s = String c s' /\ startswith s' k = true.
Proof.
  destruct s as [|b s']; simpl; [discriminate|].
  destruct (Ascii.eqb c b) eqn:E; [|discriminate].
  apply Ascii.eqb_eq in E. subst b. intros H. eauto.
Qed.

Lemma startswith_cons_same c s k :
  startswith (String c s) (String c k) = startswith s k.
Proof. simpl. now rewrite Ascii.eqb_refl. Qed.

Lemma str_in_here k s : startswith s k = true -> str_in k s = true.
Proof. intros H. destruct s; simpl in *; rewrite H; reflexivity. Qed.

Lemma str_in_later k c s : str_in k s = true -> str_in k (String c s) = true.
Proof. intros H. simpl. rewrite H. apply orb_true_r. Qed.

Lemma str_in_cons k c s :
  str_in k (String c s) = true ->
  startswith (String c s) k = true \/ str_in k s = true.
Proof. simpl. intros H. apply orb_true_iff in H. exact H. Qed.

Lemma str_in_empty k : str_in k "" = true -> k = "".
Proof. destruct k; simpl; [reflexivity | discriminate]. Qed.

(** Stripping on the left keeps an occurrence that starts with a
    non-blank character. *)
Lemma str_in_lstrip c k s :
  is_space c = false ->
  str_in (String c k) s = true -> str_in (String c k) (lstrip s) = true.
Proof.
  intros Hc. induction s as [|b s IH]; intros H; [exact H|].
  simpl lstrip. destruct (is_space b) eqn:Hb; [|exact H].
  apply str_in_cons in H. destruct H as [H|H]; [|auto].
  apply startswith_cons in H. destruct H as (s' & E & _).
  inversion E; subst. congruence.
Qed.

Lemma rstrip_cons_nonspace c s :
  is_space c = false -> rstrip (String c s) = String c (rstrip s).
Proof. intros H. simpl. rewrite H. destruct (rstrip s); reflexivity. Qed.

Lemma rstrip_cons_nonempty c s :
  rstrip s <> "" -> rstrip (String c s) = String c (rstrip s).
Proof. intros H. simpl. destruct (rstrip s); [congruence | reflexivity]. Qed.

Lemma startswith_rstrip k : forall s,
  no_space k = true -> startswith s k = true -> startswith (rstrip s) k = true.
Proof.
  induction k as [|c k IH]; intros s Hk H; [apply startswith_nil|].
  simpl in Hk. apply andb_true_iff in Hk. destruct Hk as [Hc Hk].
  apply negb_true_iff in Hc.
  apply startswith_cons in H. destruct H as (s' & -> & H).
  rewrite rstrip_cons_nonspace by exact Hc.
  rewrite startswith_cons_same. auto.
Qed.

Lemma str_in_rstrip c k s :
  no_space (String c k) = true ->
  str_in (String c k) s = true -> str_in (String c k) (rstrip s) = true.
Proof.
  intros Hk. induction s as [|b s IH]; intros H; [exact H|].
  apply str_in_cons in H. destruct H as [H|H].
  - apply str_in_here. apply startswith_rstrip; assumption.
  - specialize (IH H).
    assert (Hne : rstrip s <> "").
    { intros E. rewrite E in IH. apply str_in_empty in IH. discriminate. }
    rewrite rstrip_cons_nonempty by exact Hne.
    apply str_in_later. exact IH.
Qed.

(** [strip] never removes an occurrence of a blank-free, non-empty word. *)
Lemma str_in_strip k s :
  k <> "" -> no_space k = true ->
  str_in k s = true -> str_in k (strip s) = true.
Proof.
  intros Hne Hk H. destruct k as [|c k]; [congruence|].
  unfold strip. apply str_in_lstrip.
  - simpl in Hk. apply andb_true_iff in Hk. destruct Hk as [Hc _].
    now apply negb_true_iff in Hc.
  - now apply str_in_rstrip.
Qed.

(** Case mapping keeps occurrences. *)
Lemma startswith_map f k : forall s,
  startswith s k = true -> startswith (map_str f s) (map_str f k) = true.
Proof.
  induction k as [|c k IH]; intros s H; [apply startswith_nil|].
  apply startswith_cons in H. destruct H as (s' & -> & H).
  simpl map_str. rewrite startswith_cons_same. auto.
Qed.

Lemma str_in_map f k s :
  str_in k s = true -> str_in (map_str f k) (map_str f s) = true.
Proof.
  induction s as [|b s IH]; intros H.
  - apply str_in_empty in H. subst k. reflexivity.
  - apply str_in_cons in H. destruct H as [H|H].
    + apply str_in_here. now apply (startswith_map f) in H.
    + simpl map_str. apply str_in_later. auto.
Qed.

Lemma append_cons c (a b : string) : String c a +:+ b = String c (a +:+ b).
Proof. reflexivity. Qed.

Lemma append_nil_l (b : string) : "" +:+ b = b.
Proof. reflexivity. Qed.

Lemma append_nil_r (s : string) : s +:+ "" = s.
Proof.
  induction s as [|c s IH]; [reflexivity|].
  rewrite append_cons, IH. reflexivity.
Qed.

Lemma append_assoc (a b c : string) : (a +:+ b) +:+ c = a +:+ (b +:+ c).
Proof.
  induction a as [|x a IH]; [reflexivity|].
  rewrite !append_cons, IH. reflexivity.
Qed.

Lemma append_length (a b : string) :
  String.length (a +:+ b) = (String.length a + String.length b)%nat.
Proof.
  induction a as [|c a IH]; [reflexivity|].
  rewrite append_cons. simpl. rewrite IH. reflexivity.
Qed.

Lemma drop_app (a b : string) : drop (String.length a) (a +:+ b) = b.
Proof.
  induction a as [|c a IH]; [destruct b; reflexivity|].
  rewrite append_cons. simpl. exact IH.
Qed.

Lemma endswith_app (a b : string) : endswith (a +:+ b) b = true.
Proof.
  unfold endswith. rewrite append_length.
  replace (String.length a + String.length b - String.length b)%nat
    with (String.length a) by lia.
  rewrite drop_app, String.eqb_refl, andb_true_r.
  apply Nat.leb_le. lia.
Qed.

(** A text whose tail is already stripped on the right is unchanged by
    [rstrip]. *)
Lemma rstrip_app (a b : string) :
  b <> "" -> rstrip b = b -> rstrip (a +:+ b) = a +:+ b.
Proof.
  intros Hne Hb. induction a as [|c a IH]; [exact Hb|].
  rewrite append_cons.
  rewrite rstrip_cons_nonempty; rewrite IH; [reflexivity|].
  destruct a; [exact Hne | rewrite append_cons; discriminate].
Qed.

End StringFacts.

(** ** The safety gate *)

Section SafetyGate.
Import PyStr AdvancedQueryBuilder.

Lemma dangerous_keywords_plain :
  Forall (fun k => k <> "" /\ no_space k = true) dangerous_keywords.
Proof. repeat constructor; discriminate. Qed.

Lemma dangerous_keyword_blocks sql k :
  In k dangerous_keywords ->
  str_in k (upper sql) = true -> _is_safe_query sql = false.
Proof.
  intros Hin Hk. unfold _is_safe_query.
  assert (E : existsb (fun keyword => str_in keyword (strip (upper sql)))
                      dangerous_keywords = true).
  { apply existsb_exists. exists k. split; [exact Hin|].
    pose proof dangerous_keywords_plain as F.
    rewrite List.Forall_forall in F. destruct (F k Hin) as [Hne Hns].
    now apply str_in_strip. }
  rewrite E. reflexivity.
Qed.

Lemma not_select_blocks sql :
  startswith (strip (upper sql)) "SELECT" = false -> _is_safe_query sql = false.
Proof.
  intros H. unfold _is_safe_query. rewrite H.
  destruct (existsb _ _); reflexivity.
Qed.

Lemma unsafe_is_not_executed db sql tables log :
  _is_safe_query sql = false ->
  execute_generated_sql db sql tables log
  = (Failure "Query contains potentially unsafe operations" None, log).
Proof. intros H. unfold execute_generated_sql. rewrite H. reflexivity. Qed.

End SafetyGate.

(** C1. A statement whose upper-cased text contains one of DROP, DELETE,
    UPDATE, INSERT, ALTER, CREATE, TRUNCATE, GRANT, REVOKE, or whose
    upper-cased trimmed text does not begin with SELECT, is refused by
    [_is_safe_query], and [execute_generated_sql] answers with a failure
    while the list of issued statements stays as it was: nothing reaches
    the database. The gate refuses
    "SELECT * FROM users; DROP TABLE users" and accepts
    "SELECT * FROM users". *)
Theorem safety_gate_rejects_unsafe_statements :
  (forall sql : string,
      (exists k, In k AdvancedQueryBuilder.dangerous_keywords
                 /\ PyStr.str_in k (PyStr.upper sql) = true)
      \/ PyStr.startswith (PyStr.strip (PyStr.upper sql)) "SELECT" = false ->
      AdvancedQueryBuilder._is_safe_query sql = false
      /\ forall db tables log,
          AdvancedQueryBuilder.execute_generated_sql db sql tables log
          = (AdvancedQueryBuilder.Failure
               "Query contains potentially unsafe operations" None, log))
  /\ AdvancedQueryBuilder._is_safe_query "SELECT * FROM users; DROP TABLE users" = false
  /\ AdvancedQueryBuilder._is_safe_query "SELECT * FROM users" = true.
Proof.
  split; [|split; reflexivity].
  intros sql H.
  assert (U : AdvancedQueryBuilder._is_safe_query sql = false).
  { destruct H as [(k & Hin & Hk) | H].
    - eapply dangerous_keyword_blocks; eassumption.
    - now apply not_select_blocks. }
  split; [exact U|].
  intros db tables log.
  now apply unsafe_is_not_executed.
Qed.

Lemma safety_gate_rejects_unsafe_statements_witness :
  AdvancedQueryBuilder._is_safe_query "SELECT * FROM users; DROP TABLE users" = false
  /\ AdvancedQueryBuilder.execute_generated_sql
       (fun _ => inl "no database") "SELECT * FROM users; DROP TABLE users" ["users"] []
     = (AdvancedQueryBuilder.Failure
          "Query contains potentially unsafe operations" None, []).
Proof.
  destruct (proj1 safety_gate_rejects_unsafe_statements
              "SELECT * FROM users; DROP TABLE users") as [U E].
  - left. exists "DROP". split; [simpl; tauto | reflexivity].
  - split; [exact U | apply E].
Defined.

(** ** Dictionaries *)

Section DictFacts.
Context {V : Type}.
Implicit Types (d : PyDict.t V) (k : string) (v : V).

Lemma get_set d k v k' :
  PyDict.get (PyDict.set d k v) k'
  = if String.eqb k k' then Some v else PyDict.get d k'.
Proof.
  induction d as [|[k0 v0] d IH]; simpl.
  - destruct (String.eqb k k'); reflexivity.
  - destruct (String.eqb_spec k0 k) as [->|Hne]; simpl.
    + destruct (String.eqb k k'); reflexivity.
    + rewrite IH. destruct (String.eqb_spec k0 k') as [->|Hne'].
      * destruct (String.eqb_spec k k'); [congruence | reflexivity].
      * reflexivity.
Qed.

Lemma get_set_eq d k v : PyDict.get (PyDict.set d k v) k = Some v.
Proof. rewrite get_set, String.eqb_refl. reflexivity. Qed.

Lemma get_set_ne d k v k' :
  k <> k' -> PyDict.get (PyDict.set d k v) k' = PyDict.get d k'.
Proof.
  intros H. rewrite get_set.
  destruct (String.eqb_spec k k'); [contradiction | reflexivity].
Qed.

Lemma get_some_in d k v : PyDict.get d k = Some v -> In (k, v) d.
Proof.
  induction d as [|[k0 v0] d IH]; simpl; [discriminate|].
  destruct (String.eqb_spec k0 k) as [->|Hne]; intros H.
  - left. congruence.
  - right. auto.
Qed.

Lemma get_some_key d k v : PyDict.get d k = Some v -> In k (PyDict.keys d).
Proof.
  intros H. apply get_some_in in H.
  unfold PyDict.keys. apply in_map_iff. exists (k, v). auto.
Qed.

Lemma get_none_key d k : PyDict.get d k = None -> ~ In k (PyDict.keys d).
Proof.
  induction d as [|[k0 v0] d IH]; simpl; [tauto|].
  destruct (String.eqb_spec k0 k) as [->|Hne]; [discriminate|].
  intros H [E|Hin]; [congruence | now apply IH].
Qed.

Lemma key_get_some d k : In k (PyDict.keys d) -> exists v, PyDict.get d k = Some v.
Proof.
  intros Hin. destruct (PyDict.get d k) eqn:E; [eauto|].
  now apply get_none_key in E.
Qed.

(** Writing a new key appends it. *)
Lemma set_absent d k v :
  PyDict.get d k = None -> PyDict.set d k v = d ++ [(k, v)].
Proof.
  induction d as [|[k0 v0] d IH]; simpl; [reflexivity|].
  destruct (String.eqb k0 k); [discriminate|].
  intros H. now rewrite IH.
Qed.

(** Writing an existing key keeps the keys and their order. *)
Lemma keys_set_present d k v :
  In k (PyDict.keys d) -> PyDict.keys (PyDict.set d k v) = PyDict.keys d.
Proof.
  induction d as [|[k0 v0] d IH]; simpl; [tauto|].
  destruct (String.eqb_spec k0 k) as [->|Hne]; [reflexivity|].
  intros [E|Hin]; [congruence|]. simpl. now rewrite IH.
Qed.

Lemma len_keys d : PyDict.len d = length (PyDict.keys d).
Proof. unfold PyDict.len, PyDict.keys. now rewrite length_map. Qed.

Lemma get_del_ne d k k' :
  k <> k' -> PyDict.get (PyDict.del d k) k' = PyDict.get d k'.
Proof.
  intros Hne. induction d as [|[k0 v0] d IH]; simpl; [reflexivity|].
  destruct (String.eqb_spec k0 k) as [->|Hne0].
  - destruct (String.eqb_spec k k'); [contradiction | reflexivity].
  - simpl. now rewrite IH.
Qed.

Lemma get_del_eq d k : PyDict.wf d -> PyDict.get (PyDict.del d k) k = None.
Proof.
  unfold PyDict.wf. induction d as [|[k0 v0] d IH]; simpl; [reflexivity|].
  intros W. apply NoDup_cons in W. destruct W as [Hnin W].
  rewrite list_elem_of_In in Hnin.
  destruct (String.eqb_spec k0 k) as [->|Hne0].
  - destruct (PyDict.get d k) eqn:E; [|reflexivity].
    apply get_some_key in E. contradiction.
  - simpl. destruct (String.eqb_spec k0 k); [contradiction | auto].
Qed.

Lemma len_del d k :
  In k (PyDict.keys d) -> S (PyDict.len (PyDict.del d k)) = PyDict.len d.
Proof.
  induction d as [|[k0 v0] d IH]; simpl; [tauto|].
  destruct (String.eqb_spec k0 k) as [->|Hne0]; [reflexivity|].
  intros [E|Hin]; [congruence|]. simpl. f_equal. now apply IH.
Qed.

End DictFacts.

(** ** The bounded cache *)

Section CacheFacts.
Import AdvancedQueryBuilder.

Lemma min_from_keep f best l :
  (forall x, In x l -> (f best <= f x)%Z) -> min_from f best l = best.
Proof.
  induction l as [|x l IH]; simpl; intros H; [reflexivity|].
  destruct (Z.ltb_spec (f x) (f best)) as [Hlt|_].
  - specialize (H x (or_introl eq_refl)). lia.
  - apply IH. intros y Hy. apply H. now right.
Qed.

Lemma min_from_reach f k0 l2 : forall l1 best,
  (forall x, In x (best :: l1) -> (f k0 < f x)%Z) ->
  (forall x, In x l2 -> (f k0 <= f x)%Z) ->
  min_from f best (l1 ++ k0 :: l2) = k0.
Proof.
  induction l1 as [|x l1 IH]; intros best H1 H2; simpl.
  - destruct (Z.ltb_spec (f k0) (f best)) as [_|Hge].
    + now apply min_from_keep.
    + specialize (H1 best (or_introl eq_refl)). lia.
  - destruct (f x <? f best)%Z; apply IH; try assumption;
      intros y [<-|Hy]; apply H1; simpl; auto.
Qed.

(** [min] returns the first key carrying the least value. *)
Lemma py_min_first f k0 l1 l2 :
  (forall x, In x l1 -> (f k0 < f x)%Z) ->
  (forall x, In x l2 -> (f k0 <= f x)%Z) ->
  py_min f (l1 ++ k0 :: l2) = Some k0.
Proof.
  intros H1 H2. destruct l1 as [|b l1]; simpl; f_equal.
  - now apply min_from_keep.
  - now apply min_from_reach.
Qed.

Lemma NoDup_map_injective {A B} (g : A -> B) (l : list A) x y :
  NoDup (map g l) -> In x l -> In y l -> g x = g y -> x = y.
Proof.
  induction l as [|a l IH]; simpl; [tauto|].
  intros W Hx Hy E. apply NoDup_cons in W. destruct W as [Hnin W].
  rewrite list_elem_of_In in Hnin.
  destruct Hx as [->|Hx], Hy as [->|Hy]; auto.
  - exfalso. apply Hnin. rewrite E. now apply in_map.
  - exfalso. apply Hnin. rewrite <- E. now apply in_map.
Qed.

Lemma distinct_timestamps_keys cache a b ea eb :
  distinct_timestamps cache ->
  PyDict.get cache a = Some ea -> PyDict.get cache b = Some eb ->
  timestamp ea = timestamp eb -> a = b.
Proof.
  intros D Ha Hb E. apply get_some_in in Ha, Hb.
  assert (P : (a, ea) = (b, eb)).
  { eapply (NoDup_map_injective (fun kv => timestamp (snd kv))); eauto. }
  congruence.
Qed.

Lemma wf_append_fresh (cache : query_cache) k e :
  PyDict.wf cache -> PyDict.get cache k = None -> PyDict.wf (cache ++ [(k, e)]).
Proof.
  unfold PyDict.wf, PyDict.keys. intros W Hk. rewrite map_app. simpl.
  apply NoDup_app. split; [exact W|]. split.
  - intros x Hx Hx'. apply list_elem_of_In in Hx.
    apply list_elem_of_singleton in Hx'. subst x.
    now apply get_none_key in Hk.
  - apply NoDup_singleton.
Qed.

(** With the new entry appended, the least timestamp is still found at
    the previously oldest key, provided the clock has not gone back
    behind it. *)
Lemma oldest_after_append cache key new k0 :
  PyDict.wf cache -> distinct_timestamps cache ->
  PyDict.get cache key = None -> oldest cache k0 ->
  (timestamp_of cache k0 <= timestamp new)%Z ->
  py_min (timestamp_of (cache ++ [(key, new)]))
         (PyDict.keys (cache ++ [(key, new)])) = Some k0.
Proof.
  intros W D Hkey (e0 & H0 & Hmin) Hnow.
  unfold timestamp_of in Hnow. rewrite H0 in Hnow.
  rewrite <- (set_absent cache key new Hkey).
  set (cache1 := PyDict.set cache key new).
  assert (Hf : forall x e, PyDict.get cache x = Some e ->
                           timestamp_of cache1 x = timestamp e).
  { intros x e Hx. unfold timestamp_of, cache1.
    rewrite get_set_ne; [now rewrite Hx | congruence]. }
  assert (Hfk : timestamp_of cache1 key = timestamp new).
  { unfold timestamp_of, cache1. now rewrite get_set_eq. }
  assert (K : PyDict.keys cache1 = PyDict.keys cache ++ [key]).
  { unfold cache1. rewrite (set_absent cache key new Hkey).
    unfold PyDict.keys. now rewrite map_app. }
  rewrite K.
  destruct (in_split k0 (PyDict.keys cache) (get_some_key _ _ _ H0)) as (l1 & l2 & Hsplit).
  rewrite Hsplit, <- app_assoc. simpl.
  assert (Hother : forall x, In x (l1 ++ l2) ->
                             (timestamp_of cache1 k0 < timestamp_of cache1 x)%Z).
  { intros x Hx.
    assert (Hin : In x (PyDict.keys cache)).
    { rewrite Hsplit. apply in_app_iff. apply in_app_iff in Hx. simpl. tauto. }
    assert (Hne : x <> k0).
    { intros ->. unfold PyDict.wf in W. rewrite Hsplit in W.
      apply NoDup_app in W. destruct W as (_ & Hdisj & W2).
      apply NoDup_cons in W2. destruct W2 as [Hn2 _].
      apply in_app_iff in Hx. destruct Hx as [Hx|Hx].
      - apply (Hdisj k0); [now apply list_elem_of_In | left].
      - apply Hn2. now apply list_elem_of_In. }
    destruct (key_get_some _ _ Hin) as (e & He).
    rewrite (Hf _ _ H0), (Hf _ _ He).
    pose proof (Hmin _ _ He) as Hle.
    assert (timestamp e0 <> timestamp e).
    { intros E. apply Hne. symmetry.
      eapply distinct_timestamps_keys; eauto. }
    lia. }
  apply py_min_first.
  - intros x Hx. apply Hother. apply in_app_iff. now left.
  - intros x Hx. apply in_app_iff in Hx. destruct Hx as [Hx|[<-|[]]].
    + apply Z.lt_le_incl, Hother. apply in_app_iff. now right.
    + rewrite Hfk, (Hf _ _ H0). exact Hnow.
Qed.

End CacheFacts.

Section CacheRecording.
Import AdvancedQueryBuilder.

Lemma cache_query_fresh cache q text now k0 :
  PyDict.wf cache -> PyDict.len cache = 100%nat -> distinct_timestamps cache ->
  PyDict.get cache (cache_key q) = None ->
  oldest cache k0 -> (timestamp_of cache k0 <= now)%Z ->
  _cache_query q text now cache
  = PyDict.del (cache ++ [(cache_key q,
                           {| sql := text; timestamp := now; success_count := 1 |})])
               k0.
Proof.
  intros W L D Hkey Hold Hnow. unfold _cache_query.
  rewrite Hkey. change (0 + 1)%Z with 1%Z.
  rewrite (set_absent cache _ _ Hkey).
  replace (PyDict.len (cache ++ _)) with 101%nat
    by (unfold PyDict.len in *; rewrite length_app, L; reflexivity).
  change (100 <? 101)%nat with true. cbv iota.
  rewrite (oldest_after_append cache (cache_key q)
             {| sql := text; timestamp := now; success_count := 1 |}
             k0 W D Hkey Hold Hnow).
  reflexivity.
Qed.

Lemma cache_query_known cache q text now e :
  PyDict.len cache = 100%nat ->
  PyDict.get cache (cache_key q) = Some e ->
  _cache_query q text now cache
  = PyDict.set cache (cache_key q)
      {| sql := text; timestamp := now; success_count := success_count e + 1 |}.
Proof.
  intros L Hkey. unfold _cache_query. rewrite Hkey.
  rewrite len_keys, keys_set_present, <- len_keys, L by (eapply get_some_key; eauto).
  reflexivity.
Qed.

End CacheRecording.

(** C3 (as amended). Take a cache of exactly 100 entries with pairwise
    distinct timestamps. Recording a successful translation under a key
    that is not in the cache, at a clock reading that is not earlier than
    the oldest stored timestamp, leaves exactly 100 entries: the entry that
    had the oldest timestamp is gone, the new one is there with counter 1,
    every other entry is untouched. Recording under a key that is in the
    cache overwrites that entry with the new statement and clock reading,
    adds one to its success counter, and removes nothing: the keys and
    their order stay the same. *)
Theorem cache_full_recording :
  forall (cache : AdvancedQueryBuilder.query_cache) (q text : string) (now : Z),
    PyDict.wf cache -> PyDict.len cache = 100%nat -> distinct_timestamps cache ->
    (PyDict.get cache (AdvancedQueryBuilder.cache_key q) = None ->
     forall k0,
       oldest cache k0 ->
       (AdvancedQueryBuilder.timestamp_of cache k0 <= now)%Z ->
       let cache' := AdvancedQueryBuilder._cache_query q text now cache in
       PyDict.len cache' = 100%nat
       /\ PyDict.get cache' k0 = None
       /\ PyDict.get cache' (AdvancedQueryBuilder.cache_key q)
          = Some {| AdvancedQueryBuilder.sql := text;
                    AdvancedQueryBuilder.timestamp := now;
                    AdvancedQueryBuilder.success_count := 1 |}
       /\ forall k, k <> k0 -> k <> AdvancedQueryBuilder.cache_key q ->
                    PyDict.get cache' k = PyDict.get cache k)
    /\
    (forall e,
       PyDict.get cache (AdvancedQueryBuilder.cache_key q) = Some e ->
       let cache' := AdvancedQueryBuilder._cache_query q text now cache in
       PyDict.len cache' = 100%nat
       /\ PyDict.keys cache' = PyDict.keys cache
       /\ PyDict.get cache' (AdvancedQueryBuilder.cache_key q)
          = Some {| AdvancedQueryBuilder.sql := text;
                    AdvancedQueryBuilder.timestamp := now;
                    AdvancedQueryBuilder.success_count :=
                      AdvancedQueryBuilder.success_count e + 1 |}
       /\ forall k, k <> AdvancedQueryBuilder.cache_key q ->
                    PyDict.get cache' k = PyDict.get cache k).
Proof.
  intros cache q text now W L D. split.
  - intros Hkey k0 Hold Hnow cache'. subst cache'.
    rewrite (cache_query_fresh cache q text now k0 W L D Hkey Hold Hnow).
    set (key := AdvancedQueryBuilder.cache_key q) in *.
    set (new := AdvancedQueryBuilder.Build_cache_entry text now 1).
    assert (W1 : PyDict.wf (cache ++ [(key, new)])) by now apply wf_append_fresh.
    assert (E1 : cache ++ [(key, new)] = PyDict.set cache key new)
      by (symmetry; now apply set_absent).
    destruct Hold as (e0 & H0 & _).
    assert (Hne : key <> k0) by congruence.
    repeat split.
    + assert (In k0 (PyDict.keys (cache ++ [(key, new)]))).
      { rewrite E1. eapply get_some_key. rewrite get_set_ne; eauto. }
      pose proof (len_del (cache ++ [(key, new)]) k0 H) as Hl.
      unfold PyDict.len in *. rewrite length_app, L in Hl. simpl in Hl. lia.
    + now apply get_del_eq.
    + rewrite get_del_ne by congruence. rewrite E1. apply get_set_eq.
    + intros k Hk0 Hk. rewrite get_del_ne by congruence.
      rewrite E1. apply get_set_ne. congruence.
  - intros e Hkey cache'. subst cache'.
    rewrite (cache_query_known cache q text now e L Hkey).
    assert (K : PyDict.keys (PyDict.set cache (AdvancedQueryBuilder.cache_key q)
                  (AdvancedQueryBuilder.Build_cache_entry text now
                     (AdvancedQueryBuilder.success_count e + 1)))
                = PyDict.keys cache)
      by (apply keys_set_present; eapply get_some_key; eauto).
    repeat split.
    + now rewrite len_keys, K, <- len_keys.
    + exact K.
    + apply get_set_eq.
    + intros k Hk. now apply get_set_ne.
Qed.

Section CacheSamples.
Import AdvancedQueryBuilder Samples.

Lemma oldest_by_check (cache : query_cache) k e :
  PyDict.get cache k = Some e ->
  forallb (fun kv => (timestamp e <=? timestamp (snd kv))%Z) cache = true ->
  oldest cache k.
Proof.
  intros Hk Hall. exists e. split; [exact Hk|].
  intros k' e' H'. apply get_some_in in H'.
  rewrite forallb_forall in Hall. specialize (Hall _ H').
  now apply Z.leb_le in Hall.
Qed.

Lemma numbered_cache_wf : PyDict.wf (numbered_cache 100).
Proof. unfold PyDict.wf. apply (bool_decide_unpack _). vm_compute. exact I. Qed.

Lemma numbered_cache_len : PyDict.len (numbered_cache 100) = 100%nat.
Proof. reflexivity. Qed.

Lemma numbered_cache_distinct : distinct_timestamps (numbered_cache 100).
Proof.
  unfold distinct_timestamps. apply (bool_decide_unpack _). vm_compute. exact I.
Qed.

Lemma numbered_cache_oldest : oldest (numbered_cache 100) "query 1".
Proof. eapply oldest_by_check; vm_compute; reflexivity. Qed.

End CacheSamples.

Lemma cache_full_recording_witness :
  PyDict.len (AdvancedQueryBuilder._cache_query
                " Show Orders " "SELECT orders.id FROM orders LIMIT 10" 2000
                (Samples.numbered_cache 100)) = 100%nat
  /\ PyDict.get (AdvancedQueryBuilder._cache_query
                   " Show Orders " "SELECT orders.id FROM orders LIMIT 10" 2000
                   (Samples.numbered_cache 100)) "query 1" = None.
Proof.
  destruct (cache_full_recording (Samples.numbered_cache 100)
              " Show Orders " "SELECT orders.id FROM orders LIMIT 10" 2000%Z
              numbered_cache_wf numbered_cache_len numbered_cache_distinct)
    as [Fresh _].
  destruct (Fresh eq_refl "query 1" numbered_cache_oldest) as (L & G & _).
  - vm_compute. discriminate.
  - split; [exact L | exact G].
Defined.

(** C3, the claim as first stated, fails on a cache whose stored
    timestamps all lie after the clock reading of the new entry: the cache
    of 100 entries stamped 1001..1100 receives a new key at reading 5, and
    it is the new entry that is removed; "query 1", the oldest, stays. *)
Lemma cache_clock_set_back :
  PyDict.wf (Samples.numbered_cache 100)
  /\ PyDict.len (Samples.numbered_cache 100) = 100%nat
  /\ distinct_timestamps (Samples.numbered_cache 100)
  /\ PyDict.get (Samples.numbered_cache 100)
                (AdvancedQueryBuilder.cache_key "new question") = None
  /\ oldest (Samples.numbered_cache 100) "query 1"
  /\ AdvancedQueryBuilder._cache_query "new question" "SELECT 1" 5
       (Samples.numbered_cache 100) = Samples.numbered_cache 100
  /\ PyDict.get (AdvancedQueryBuilder._cache_query "new question" "SELECT 1" 5
                   (Samples.numbered_cache 100)) "query 1" <> None.
Proof.
  split; [exact numbered_cache_wf|].
  split; [exact numbered_cache_len|].
  split; [exact numbered_cache_distinct|].
  split; [reflexivity|].
  split; [exact numbered_cache_oldest|].
  split; [vm_compute; reflexivity | vm_compute; discriminate].
Qed.

(** ** The relationship graph *)

Section GraphFacts.
Import SchemaAnalyzer.

Lemma get_adj g n v : PyDict.get (adj g n) v = get_edge_data g n v.
Proof. unfold adj, get_edge_data. destruct (PyDict.get g n); reflexivity. Qed.

Lemma has_edge_data g u v :
  has_edge g u v = match get_edge_data g u v with Some _ => true | None => false end.
Proof.
  unfold has_edge, get_edge_data, PyDict.contains.
  destruct (PyDict.get g u); reflexivity.
Qed.

Lemma edge_add_node g n u v :
  get_edge_data (add_node g n) u v = get_edge_data g u v.
Proof.
  unfold add_node, PyDict.contains.
  destruct (PyDict.get g n) eqn:E; [reflexivity|].
  unfold get_edge_data. rewrite get_set.
  destruct (String.eqb_spec n u) as [->|_]; [|reflexivity].
  rewrite E. reflexivity.
Qed.

(** Writing [a] under the entry [u0] of the adjacency. *)
Lemma edge_write g u0 v0 a u v :
  get_edge_data (PyDict.set g u0 (PyDict.set (adj g u0) v0 a)) u v
  = if String.eqb u0 u && String.eqb v0 v then Some a else get_edge_data g u v.
Proof.
  unfold get_edge_data at 1. rewrite get_set.
  destruct (String.eqb_spec u0 u) as [->|_]; simpl; [|reflexivity].
  rewrite get_set, get_adj. reflexivity.
Qed.

(** What [add_edge] changes: the edge between its two endpoints, read
    from either side, and nothing else. *)
Lemma edge_add_edge g a b d u v :
  get_edge_data (add_edge g a b d) u v
  = if (String.eqb b u && String.eqb a v) || (String.eqb a u && String.eqb b v)
    then Some d else get_edge_data g u v.
Proof.
  unfold add_edge. rewrite edge_write, edge_write, !edge_add_node.
  destruct (String.eqb b u && String.eqb a v),
           (String.eqb a u && String.eqb b v); reflexivity.
Qed.

Lemma symmetric_empty : symmetric empty_graph.
Proof. intros u v. reflexivity. Qed.

Lemma symmetric_add_node g n : symmetric g -> symmetric (add_node g n).
Proof. intros S u v. rewrite !edge_add_node. apply S. Qed.

Lemma symmetric_add_edge g a b d : symmetric g -> symmetric (add_edge g a b d).
Proof.
  intros S u v. rewrite !edge_add_edge, (S v u).
  rewrite (andb_comm (String.eqb b v)), (andb_comm (String.eqb a v)).
  rewrite (orb_comm (String.eqb a u && String.eqb b v)).
  reflexivity.
Qed.

(** An edge added between two tables that had none leaves every
    existing edge as it was. *)
Lemma add_edge_keeps g a b d u v x :
  symmetric g -> has_edge g a b = false ->
  get_edge_data g u v = Some x ->
  get_edge_data (add_edge g a b d) u v = Some x.
Proof.
  intros S Hnone Huv. rewrite edge_add_edge.
  rewrite has_edge_data in Hnone.
  destruct (String.eqb b u && String.eqb a v) eqn:E1.
  - apply andb_true_iff in E1. destruct E1 as [Eb Ea].
    apply String.eqb_eq in Eb, Ea. subst u v.
    rewrite (S a b), Huv in Hnone. discriminate.
  - destruct (String.eqb a u && String.eqb b v) eqn:E2; [|exact Huv].
    apply andb_true_iff in E2. destruct E2 as [Ea Eb].
    apply String.eqb_eq in Eb, Ea. subst u v.
    rewrite Huv in Hnone. discriminate.
Qed.

(** Folding a step that preserves a property preserves it. *)
Lemma fold_left_preserves {A B} (P : A -> Prop) (f : A -> B -> A) l :
  (forall a b, P a -> P (f a b)) -> forall a, P a -> P (fold_left f l a).
Proof. intros H. induction l as [|b l IH]; simpl; auto. Qed.

(** A property that one step establishes and every step preserves holds
    after the fold. *)
Lemma fold_left_reaches {A B} (P : A -> Prop) (f : A -> B -> A) w l :
  In w l ->
  (forall a b, P a -> P (f a b)) -> (forall a, P (f a w)) ->
  forall a, P (fold_left f l a).
Proof.
  intros Hin Hkeep Hset. induction l as [|b l IH]; intros a; [destruct Hin|].
  simpl. destruct Hin as [->|Hin]; [|now apply IH].
  apply fold_left_preserves; auto.
Qed.

Lemma foreign_key_graph_symmetric insp : symmetric (foreign_key_graph insp).
Proof.
  unfold foreign_key_graph.
  apply fold_left_preserves.
  - intros g table S. unfold add_foreign_keys.
    apply fold_left_preserves; [|exact S].
    intros g' fk S'. now apply symmetric_add_edge.
  - apply fold_left_preserves; [|exact symmetric_empty].
    intros g n S. now apply symmetric_add_node.
Qed.

Lemma keeps_link_first_match g0 tables table col_name cands : forall g,
  keeps g0 g -> keeps g0 (link_first_match tables table col_name cands g).
Proof.
  induction cands as [|[pot|] cands IH]; intros g K; simpl; auto.
  destruct (negb (String.eqb pot "") && PyStr.mem pot tables); [|auto].
  destruct (has_edge g table pot) eqn:E; [exact K|].
  destruct K as [S K]. split.
  - now apply symmetric_add_edge.
  - intros u v x H. apply add_edge_keeps; auto.
Qed.

Lemma keeps_detect_implicit insp g0 g :
  keeps g0 g -> keeps g0 (_detect_implicit_relationships insp g).
Proof.
  unfold _detect_implicit_relationships.
  apply fold_left_preserves. clear g.
  intros g table K. unfold detect_table.
  apply fold_left_preserves; [|exact K]. clear g K.
  intros g col K. unfold detect_column.
  destruct (PyStr.endswith _ _); [|exact K].
  now apply keeps_link_first_match.
Qed.

Lemma build_keeps_foreign_keys insp :
  keeps (foreign_key_graph insp) (_build_relationship_graph insp).
Proof.
  unfold _build_relationship_graph. apply keeps_detect_implicit.
  split; [apply foreign_key_graph_symmetric | auto].
Qed.

Lemma implicit_link_first_match g0 tables table col_name cands : forall g,
  adds_only_implicit g0 g ->
  adds_only_implicit g0 (link_first_match tables table col_name cands g).
Proof.
  induction cands as [|[pot|] cands IH]; intros g K; simpl; auto.
  destruct (negb (String.eqb pot "") && PyStr.mem pot tables); [|auto].
  destruct (has_edge g table pot); [exact K|].
  intros u v x. rewrite edge_add_edge.
  destruct (_ || _); [|apply K].
  intros H. injection H as <-. now right.
Qed.

Lemma implicit_detect insp g0 g :
  adds_only_implicit g0 g ->
  adds_only_implicit g0 (_detect_implicit_relationships insp g).
Proof.
  unfold _detect_implicit_relationships.
  apply fold_left_preserves. clear g.
  intros g table K. unfold detect_table.
  apply fold_left_preserves; [|exact K]. clear g K.
  intros g col K. unfold detect_column.
  destruct (PyStr.endswith _ _); [|exact K].
  now apply implicit_link_first_match.
Qed.

Lemma edge_between_unique g u v d1 d2 :
  symmetric g -> edge_between g u v d1 -> edge_between g u v d2 -> d1 = d2.
Proof.
  intros S [H1|H1] [H2|H2]; try rewrite (S v u) in H1; try rewrite (S v u) in H2;
    congruence.
Qed.

End GraphFacts.

(** C2. In the graph that schema analysis builds, two tables are joined
    by at most one relationship edge, whichever side it is read from; an
    edge made from a declared foreign key is still there, with the same
    attributes, after the naming patterns have been applied, and every edge
    that was not made from a foreign key is an inferred one. On the schema
    with tables orders and customers, where orders has a column
    customer_id and no foreign key is declared, the graph holds the
    inferred edge orders-customers with local column customer_id and
    foreign column id. *)
Theorem relationship_graph_edges :
  (forall insp u v d1 d2,
      edge_between (SchemaAnalyzer._build_relationship_graph insp) u v d1 ->
      edge_between (SchemaAnalyzer._build_relationship_graph insp) u v d2 ->
      d1 = d2)
  /\ (forall insp u v d,
        SchemaAnalyzer.get_edge_data (SchemaAnalyzer.foreign_key_graph insp) u v = Some d ->
        SchemaAnalyzer.get_edge_data (SchemaAnalyzer._build_relationship_graph insp) u v
        = Some d)
  /\ (forall insp u v d,
        SchemaAnalyzer.get_edge_data (SchemaAnalyzer._build_relationship_graph insp) u v
        = Some d ->
        SchemaAnalyzer.get_edge_data (SchemaAnalyzer.foreign_key_graph insp) u v = Some d
        \/ SchemaAnalyzer.relationship_type d = "implicit")
  /\ SchemaAnalyzer.get_foreign_keys Samples.shop "orders" = []
  /\ SchemaAnalyzer.get_foreign_keys Samples.shop "customers" = []
  /\ SchemaAnalyzer.get_edge_data
       (SchemaAnalyzer._build_relationship_graph Samples.shop) "orders" "customers"
     = Some {| SchemaAnalyzer.relationship_type := "implicit";
               SchemaAnalyzer.local_columns := ["customer_id"];
               SchemaAnalyzer.foreign_columns := ["id"] |}
  /\ SchemaAnalyzer.get_edge_data
       (SchemaAnalyzer._build_relationship_graph Samples.shop) "customers" "orders"
     = Some {| SchemaAnalyzer.relationship_type := "implicit";
               SchemaAnalyzer.local_columns := ["customer_id"];
               SchemaAnalyzer.foreign_columns := ["id"] |}.
Proof.
  split; [|split; [|split]].
  - intros insp u v d1 d2. apply edge_between_unique.
    apply (build_keeps_foreign_keys insp).
  - intros insp. apply (build_keeps_foreign_keys insp).
  - intros insp. unfold SchemaAnalyzer._build_relationship_graph.
    apply implicit_detect. intros u v x H. now left.
  - repeat split; vm_compute; reflexivity.
Qed.

Lemma relationship_graph_edges_witness :
  SchemaAnalyzer.get_edge_data
    (SchemaAnalyzer._build_relationship_graph Samples.shop_with_key) "orders" "customers"
  = Some {| SchemaAnalyzer.relationship_type := "foreign_key";
            SchemaAnalyzer.local_columns := ["buyer"];
            SchemaAnalyzer.foreign_columns := ["id"] |}.
Proof.
  apply (proj1 (proj2 relationship_graph_edges) Samples.shop_with_key).
  vm_compute. reflexivity.
Defined.

(** ** The analyzer *)

Section AnalyzerFacts.
Import AIQueryGenerator.

Lemma confidence_keywords i ql kws : forall a,
  confidence (fold_left (fun a keyword =>
                           if PyStr.str_in keyword ql
                           then record_match i keyword a else a) kws a)
  = Nat.iter (length (List.filter (fun keyword => PyStr.str_in keyword ql) kws))
             bump (confidence a).
Proof.
  induction kws as [|k kws IH]; intros a; simpl; [reflexivity|].
  destruct (PyStr.str_in k ql); rewrite IH; [|reflexivity].
  simpl length. rewrite Nat.iter_succ_r. reflexivity.
Qed.

Lemma confidence_patterns ql ps : forall a,
  confidence (fold_left (detect_pattern ql) ps a)
  = Nat.iter (length (flat_map (fun p : string * list string =>
                                  map (pair (fst p))
                                      (List.filter (fun keyword => PyStr.str_in keyword ql)
                                                   (snd p))) ps))
             bump (confidence a).
Proof.
  induction ps as [|p ps IH]; intros a; simpl; [reflexivity|].
  rewrite IH. unfold detect_pattern at 1. rewrite confidence_keywords.
  rewrite length_app, length_map, Nat.add_comm, Nat.iter_add. reflexivity.
Qed.

(** No question matches more pairs than the pattern table holds. *)
Lemma matched_pairs_bounded q : (length (matched_pairs q) <= pattern_pairs)%nat.
Proof.
  unfold matched_pairs, pattern_pairs.
  induction query_patterns as [|p ps IH]; simpl; [lia|].
  rewrite !length_app, !length_map.
  pose proof (List.filter_length_le
                (fun keyword => PyStr.str_in keyword (PyStr.lower q)) (snd p)).
  lia.
Qed.

(** From the third addition on the running sum is above 1, up to the
    last pair of the pattern table. *)
Lemma bump_exceeds_one n :
  (3 <= n <= pattern_pairs)%nat ->
  PrimFloat.ltb 1%float (Nat.iter n bump 0.5%float) = true.
Proof.
  intros Hn.
  assert (A : forallb (fun n => PrimFloat.ltb 1%float (Nat.iter n bump 0.5%float))
                      (seq 3 (pattern_pairs - 2)) = true)
    by (vm_compute; reflexivity).
  rewrite forallb_forall in A. apply A. apply in_seq.
  change pattern_pairs with 22%nat in *. lia.
Qed.

Lemma confidence_detect_aggregation ql a :
  confidence (detect_aggregation ql a) = confidence a.
Proof.
  unfold detect_aggregation.
  apply (fold_left_preserves (fun x => confidence x = confidence a)); [|reflexivity].
  intros x f Hx. destruct (PyStr.str_in f ql); [|exact Hx].
  destruct (PyStr.mem f _); exact Hx.
Qed.

Lemma confidence_detect_grouping ql a :
  confidence (detect_grouping ql a) = confidence a.
Proof. unfold detect_grouping. destruct (existsb _ _); reflexivity. Qed.

Lemma confidence_analysis fq fn schema q :
  confidence (_analyze_natural_query fq fn schema q)
  = Nat.iter (length (matched_pairs q)) bump 0.5%float.
Proof.
  unfold _analyze_natural_query, aggregation_stage.
  rewrite confidence_detect_grouping, confidence_detect_aggregation.
  change (confidence (with_entities ?es ?a)) with (confidence a).
  unfold detect_intent. rewrite confidence_patterns. reflexivity.
Qed.

(** The aggregation loop leaves intent [aggregate] as soon as one of the
    five words is met. *)
Lemma aggregation_forces ql w a :
  In w aggregation_words -> PyStr.str_in w ql = true ->
  intent (detect_aggregation ql a) = "aggregate".
Proof.
  intros Hw Hin. unfold detect_aggregation.
  assert (Hl : In w agg_functions).
  { unfold aggregation_words in Hw. simpl in Hw. unfold agg_functions. simpl.
    intuition. }
  assert (Hm : PyStr.mem w ["sum"; "avg"; "average"; "max"; "min"] = true).
  { unfold aggregation_words in Hw. simpl in Hw.
    destruct Hw as [<-|[<-|[<-|[<-|[<-|[]]]]]]; reflexivity. }
  apply (fold_left_reaches (fun x => intent x = "aggregate") _ w); [exact Hl | |].
  - intros x g Hx. destruct (PyStr.str_in g ql); [|exact Hx].
    destruct (PyStr.mem g _); [reflexivity | exact Hx].
  - intros x. rewrite Hin, Hm. reflexivity.
Qed.

Lemma grouping_forces ql w a :
  In w grouping_words -> PyStr.str_in w ql = true ->
  intent (detect_grouping ql a) = "group_by".
Proof.
  intros Hw Hin. unfold detect_grouping.
  assert (E : existsb (fun word => PyStr.str_in word ql) ["by"; "group"; "each"; "per"]
              = true).
  { apply existsb_exists. exists w. split; [exact Hw | exact Hin]. }
  rewrite E. reflexivity.
Qed.

(** A lower-case word that occurs in the text occurs in the lowered
    text. *)
Lemma occurs_lower w q :
  PyStr.lower w = w -> occurs w q -> PyStr.str_in w (PyStr.lower q) = true.
Proof.
  intros Hw [H|H]; [|exact H].
  rewrite <- Hw. now apply str_in_map.
Qed.

End AnalyzerFacts.

(** C4. When the input contains one of the aggregation words sum, avg,
    max, min, average and also one of the words by, group, each, per
    (as written or ignoring case), the analysis stands at intent
    [aggregate] after the aggregation test, and the grouping test, which
    comes after it, overrides that: the returned intent is [group_by]. *)
Theorem grouping_overrides_aggregation :
  forall fq fn schema (q : string),
    (exists w, In w aggregation_words /\ occurs w q) ->
    (exists w, In w grouping_words /\ occurs w q) ->
    AIQueryGenerator.intent (AIQueryGenerator.aggregation_stage fq fn schema q)
    = "aggregate"
    /\ AIQueryGenerator.intent (AIQueryGenerator._analyze_natural_query fq fn schema q)
       = "group_by".
Proof.
  intros fq fn schema q (wa & Ha & Oa) (wg & Hg & Og). split.
  - unfold AIQueryGenerator.aggregation_stage.
    apply (aggregation_forces _ wa); [exact Ha|].
    apply occurs_lower; [|exact Oa].
    unfold aggregation_words in Ha. simpl in Ha.
    destruct Ha as [<-|[<-|[<-|[<-|[<-|[]]]]]]; reflexivity.
  - unfold AIQueryGenerator._analyze_natural_query.
    apply (grouping_forces _ wg); [exact Hg|].
    apply occurs_lower; [|exact Og].
    unfold grouping_words in Hg. simpl in Hg.
    destruct Hg as [<-|[<-|[<-|[<-|[]]]]]; reflexivity.
Qed.

Lemma grouping_overrides_aggregation_witness :
  AIQueryGenerator.intent
    (AIQueryGenerator._analyze_natural_query Samples.no_quoted Samples.no_numbers
       Samples.shop_schema "Sum of total per customer")
  = "group_by".
Proof.
  apply (grouping_overrides_aggregation Samples.no_quoted Samples.no_numbers
           Samples.shop_schema "Sum of total per customer").
  - exists "sum". split; [simpl; tauto | right; reflexivity].
  - exists "per". split; [simpl; tauto | left; reflexivity].
Defined.

(** C5. The confidence the analyzer returns is 0.5 plus 0.2 for every
    (intent, keyword) pair whose keyword occurs in the input ignoring
    case: it starts at 0.5 and 0.2 is added once per pair, each addition
    being the binary64 addition of Python. Nothing caps the sum: every
    input that matches at least three pairs is given a confidence above
    1.0, and "show list get", which matches three, is given
    1.0999999999999999. *)
Theorem confidence_is_uncapped :
  forall fq fn schema,
    (forall q : string,
        AIQueryGenerator.confidence (AIQueryGenerator._analyze_natural_query fq fn schema q)
        = Nat.iter (length (matched_pairs q)) bump 0.5%float)
    /\ (forall q : string,
          (3 <= length (matched_pairs q))%nat ->
          PrimFloat.ltb 1%float
            (AIQueryGenerator.confidence
               (AIQueryGenerator._analyze_natural_query fq fn schema q)) = true)
    /\ (exists q : string,
          (3 <= length (matched_pairs q))%nat
          /\ AIQueryGenerator.confidence
               (AIQueryGenerator._analyze_natural_query fq fn schema q)
             = 1.0999999999999999%float
          /\ PrimFloat.ltb 1%float
               (AIQueryGenerator.confidence
                  (AIQueryGenerator._analyze_natural_query fq fn schema q)) = true).
Proof.
  intros fq fn schema. split; [|split].
  - intros q. apply confidence_analysis.
  - intros q Hq. rewrite confidence_analysis. apply bump_exceeds_one.
    split; [exact Hq | apply matched_pairs_bounded].
  - exists "show list get". split.
    + vm_compute. lia.
    + rewrite confidence_analysis. split; vm_compute; reflexivity.
Qed.

Lemma confidence_is_uncapped_witness :
  PrimFloat.ltb 1%float
    (AIQueryGenerator.confidence
       (AIQueryGenerator._analyze_natural_query Samples.no_quoted Samples.no_numbers
          Samples.shop_schema "count the total number of orders")) = true.
Proof.
  apply (proj1 (proj2 (confidence_is_uncapped Samples.no_quoted Samples.no_numbers
                         Samples.shop_schema))).
  vm_compute. lia.
Defined.

(** ** The synthesizer *)

Section SynthesizerFacts.
Import AIQueryGenerator.

Lemma select_clause_head schema intent tables columns a :
  exists r, select_clause schema intent tables columns a = String "S" r.
Proof.
  unfold select_clause.
  destruct (String.eqb intent "count"); [eexists; reflexivity|].
  destruct (String.eqb intent "aggregate"), (aggregation a);
    try destruct (_find_numeric_columns schema tables);
    try destruct columns; eexists; reflexivity.
Qed.

Lemma limit_clause_list a :
  limit_clause "list" a
  = if PyStr.str_in "all" (PyStr.lower (original_query a)) then "" else " LIMIT 10".
Proof.
  unfold limit_clause. simpl.
  destruct (PyStr.str_in "all" _); reflexivity.
Qed.

(** A statement that carries the limit clause is left as it is by the
    final [strip]. *)
Lemma strip_limited schema intent tables columns a rest :
  PyStr.strip (select_clause schema intent tables columns a +:+ rest +:+ " LIMIT 10")
  = select_clause schema intent tables columns a +:+ rest +:+ " LIMIT 10".
Proof.
  unfold PyStr.strip. rewrite <- append_assoc.
  rewrite rstrip_app by (discriminate || reflexivity).
  destruct (select_clause_head schema intent tables columns a) as (r & ->).
  reflexivity.
Qed.

End SynthesizerFacts.

(** C6 (as amended). For a synthesis over at least one table whose intent
    is [list]: when "all" does not occur in the lower-cased input, the
    statement is the select, from, join and where clauses followed by
    " LIMIT 10", and so ends with it; when "all" occurs, the limit clause
    is empty and the statement is those four clauses alone. *)
Theorem list_queries_are_limited :
  forall schema (tables columns joins conditions : list string)
         (a : AIQueryGenerator.analysis),
    tables <> [] ->
    (PyStr.str_in "all" (PyStr.lower (AIQueryGenerator.original_query a)) = false ->
     AIQueryGenerator._construct_sql schema "list" tables columns joins conditions a
     = AIQueryGenerator.select_clause schema "list" tables columns a +:+ " "
       +:+ AIQueryGenerator.from_clause tables +:+ AIQueryGenerator.join_clause joins
       +:+ AIQueryGenerator.where_clause conditions +:+ " LIMIT 10"
     /\ PyStr.endswith
          (AIQueryGenerator._construct_sql schema "list" tables columns joins conditions a)
          " LIMIT 10" = true)
    /\
    (PyStr.str_in "all" (PyStr.lower (AIQueryGenerator.original_query a)) = true ->
     AIQueryGenerator.limit_clause "list" a = ""
     /\ AIQueryGenerator._construct_sql schema "list" tables columns joins conditions a
        = PyStr.strip
            (AIQueryGenerator.select_clause schema "list" tables columns a +:+ " "
             +:+ AIQueryGenerator.from_clause tables +:+ AIQueryGenerator.join_clause joins
             +:+ AIQueryGenerator.where_clause conditions)).
Proof.
  intros schema tables columns joins conditions a Hne.
  assert (E : AIQueryGenerator._construct_sql schema "list" tables columns joins conditions a
              = PyStr.strip
                  (AIQueryGenerator.select_clause schema "list" tables columns a +:+ " "
                   +:+ AIQueryGenerator.from_clause tables
                   +:+ AIQueryGenerator.join_clause joins
                   +:+ AIQueryGenerator.where_clause conditions
                   +:+ AIQueryGenerator.limit_clause "list" a)).
  { unfold AIQueryGenerator._construct_sql. destruct tables; [congruence | reflexivity]. }
  split; intros Hall; rewrite E, limit_clause_list, Hall.
  - assert (S : forall x y z w v : string,
               x +:+ y +:+ z +:+ w +:+ v +:+ " LIMIT 10"
               = x +:+ (y +:+ z +:+ w +:+ v) +:+ " LIMIT 10").
    { intros. now rewrite !append_assoc. }
    rewrite S, strip_limited. split; [reflexivity|].
    rewrite <- append_assoc. apply endswith_app.
  - split; [reflexivity|]. now rewrite append_nil_r.
Qed.

Lemma list_queries_are_limited_witness :
  AIQueryGenerator._construct_sql Samples.shop_schema "list" ["orders"]
    ["orders.id"; "orders.total"] [] []
    (AIQueryGenerator._analyze_natural_query Samples.no_quoted Samples.no_numbers
       Samples.shop_schema "show orders")
  = "SELECT orders.id, orders.total FROM orders LIMIT 10".
Proof.
  destruct (list_queries_are_limited Samples.shop_schema ["orders"]
              ["orders.id"; "orders.total"] [] []
              (AIQueryGenerator._analyze_natural_query Samples.no_quoted
                 Samples.no_numbers Samples.shop_schema "show orders"))
    as [Limited _].
  - discriminate.
  - destruct Limited as [E _]; [reflexivity | exact E].
Defined.

(** C6, the claim as first stated, fails when no table was resolved: the
    intent is [list], "all" does not occur in the input, and the statement
    is the placeholder "SELECT 1", which carries no limit. *)
Lemma list_query_without_tables_is_not_limited :
  AIQueryGenerator.intent
    (AIQueryGenerator._analyze_natural_query Samples.no_quoted Samples.no_numbers
       Samples.shop_schema "hello") = "list"
  /\ PyStr.str_in "all" (PyStr.lower "hello") = false
  /\ AIQueryGenerator._construct_sql Samples.shop_schema "list" [] [] [] []
       (AIQueryGenerator._analyze_natural_query Samples.no_quoted Samples.no_numbers
          Samples.shop_schema "hello")
     = "SELECT 1"
  /\ PyStr.endswith "SELECT 1" " LIMIT 10" = false.
Proof. repeat split; vm_compute; reflexivity. Qed.

(** ** Table aliases *)

Section AliasFacts.
Import SchemaAnalyzer.

Lemma initials_total words :
  Forall (fun w => w <> "") words -> exists i, initials words = Some i.
Proof.
  induction 1 as [|w words Hw _ IH]; simpl; [eauto|].
  destruct w as [|c w]; [congruence|].
  destruct IH as (i & ->). eauto.
Qed.

Lemma take_length n : forall s, (String.length (PyStr.take n s) <= n)%nat.
Proof.
  induction n as [|n IH]; intros [|c s]; simpl; try lia.
  specialize (IH s). lia.
Qed.

Lemma take_drop n : forall s, PyStr.take n s +:+ PyStr.drop n s = s.
Proof.
  induction n as [|n IH]; intros [|c s]; try reflexivity.
  simpl PyStr.take. simpl PyStr.drop. rewrite append_cons, IH. reflexivity.
Qed.

Lemma startswith_split p : forall s,
  PyStr.startswith s p = true -> s = p +:+ PyStr.drop (String.length p) s.
Proof.
  induction p as [|a p IH]; intros s H; [reflexivity|].
  destruct (startswith_cons _ _ _ H) as (s' & -> & H').
  simpl String.length. simpl PyStr.drop. rewrite append_cons. f_equal. now apply IH.
Qed.

Lemma endswith_split s p :
  PyStr.endswith s p = true -> s = PyStr.drop_last (String.length p) s +:+ p.
Proof.
  unfold PyStr.endswith, PyStr.drop_last. intros H.
  apply andb_true_iff in H. destruct H as [_ H]. apply String.eqb_eq in H.
  rewrite <- H at 2. symmetry. apply take_drop.
Qed.

(** What the stripping takes away from the lower-cased name. *)
Lemma clean_name_strips table : has_affix table -> strips_to table (clean_name table).
Proof.
  unfold has_affix, strips_to, clean_name. intros H.
  destruct (PyStr.startswith (PyStr.lower table) "tbl_") eqn:S.
  - pose proof (startswith_split _ _ S) as P. simpl String.length in P.
    destruct (PyStr.endswith (PyStr.drop 4 (PyStr.lower table)) "_table") eqn:E.
    + right. right. pose proof (endswith_split _ _ E) as Q.
      simpl String.length in Q. rewrite <- Q. exact P.
    + left. exact P.
  - destruct H as [H|H]; [discriminate|]. rewrite H.
    right. left. exact (endswith_split _ _ H).
Qed.

Lemma no_separator_app a b :
  no_separator (a +:+ b) = no_separator a && no_separator b.
Proof.
  induction a as [|c a IH]; [reflexivity|].
  rewrite append_cons. simpl. rewrite IH. now rewrite andb_assoc.
Qed.

(** A text without separators is one word. *)
Lemma split_words_plain s : forall w r,
  no_separator s = true -> split_words s w r = [w +:+ s].
Proof.
  induction s as [|c s IH]; intros w r H; simpl.
  - now rewrite append_nil_r.
  - simpl in H. apply andb_true_iff in H. destruct H as [C H].
    apply negb_true_iff in C. rewrite C, (IH _ _ H), append_assoc. reflexivity.
Qed.

(** No word holds a separator. *)
Lemma split_words_no_separator s : forall w r,
  no_separator w = true ->
  Forall (fun x => no_separator x = true) (split_words s w r).
Proof.
  induction s as [|c s IH]; intros w r H; simpl.
  - repeat constructor. exact H.
  - destruct (is_separator c) eqn:C.
    + destruct r; [now apply IH|]. constructor; [exact H | now apply IH].
    + apply IH. rewrite no_separator_app, H. simpl. now rewrite C.
Qed.

Lemma initials_no_separator words : forall i,
  Forall (fun x => no_separator x = true) words ->
  initials words = Some i -> no_separator i = true.
Proof.
  induction words as [|w words IH]; intros i F H; simpl in H.
  - injection H as <-. reflexivity.
  - destruct w as [|c w]; [discriminate|].
    destruct (initials words) as [r|]; [|discriminate]. injection H as <-.
    apply Forall_cons in F. destruct F as [Fw F]. simpl in Fw.
    apply andb_true_iff in Fw. destruct Fw as [C _]. simpl. rewrite C.
    now apply IH.
Qed.

(** The initials of a name of several words are not the name. *)
Lemma initials_differ s i :
  (1 < length (re_split s))%nat -> initials (re_split s) = Some i -> i <> s.
Proof.
  intros L H ->. unfold re_split in *.
  assert (N : no_separator s = true).
  { apply (initials_no_separator _ _ (split_words_no_separator s "" false eq_refl) H). }
  rewrite (split_words_plain s "" false N) in L. simpl in L. lia.
Qed.

(** The abbreviations of a name never hold the name itself. *)
Lemma abbreviations_exclude clean a :
  abbreviations clean = Some a -> ~ In clean a.
Proof.
  unfold abbreviations.
  destruct (4 <? String.length clean)%nat eqn:L4;
    [|intros H; injection H as <-; intros []].
  apply Nat.ltb_lt in L4.
  assert (T : PyStr.take 4 clean <> clean).
  { intros E. pose proof (take_length 4 clean) as B. rewrite E in B. lia. }
  destruct (1 <? length (re_split clean))%nat eqn:L1.
  - apply Nat.ltb_lt in L1.
    destruct (initials (re_split clean)) as [i|] eqn:I; [|discriminate].
    intros H. injection H as <-. intros [E|[E|[]]]; [now apply T|].
    now apply (initials_differ clean i).
  - intros H. injection H as <-. intros [E|[]]. now apply T.
Qed.

(** The business aliases hold the name itself only when it is one of
    the aliases that are part of their own table name. *)
Lemma business_self clean : In clean (business clean) -> In clean self_named_aliases.
Proof.
  unfold business. intros H. apply in_flat_map in H.
  destruct H as ([full_name alias_list] & Hp & H).
  unfold business_aliases in Hp. simpl in Hp.
  repeat (destruct Hp as [Hp|Hp];
          [ injection Hp as <- <-;
            destruct (PyStr.str_in _ clean || PyStr.str_in clean _) eqn:E;
            [|destruct H];
            simpl in H;
            repeat (destruct H as [H|H];
                    [ subst clean;
                      first [ vm_compute in E; discriminate E
                            | simpl; repeat (first [left; reflexivity | right]) ]
                    | ]);
            destruct H
          | ]).
  destruct Hp.
Qed.

Lemma self_named_listed clean :
  In clean self_named_aliases ->
  exists a, abbreviations clean = Some a /\ In clean (business clean).
Proof.
  unfold self_named_aliases. simpl. intros H.
  repeat (destruct H as [H|H];
          [ subst clean; eexists; split;
            [ vm_compute; reflexivity
            | vm_compute; repeat (first [left; reflexivity | right]) ]
          | ]).
  destruct H.
Qed.

Lemma alias_set_members table A :
  alias_set table = Some A ->
  exists a, abbreviations (clean_name table) = Some a
            /\ forall x, elem_of x A <-> In x (a ++ business (clean_name table)).
Proof.
  unfold alias_set, collect_aliases.
  destruct (abbreviations (clean_name table)) as [a|]; [|discriminate].
  intros H. injection H as <-. exists a. split; [reflexivity|].
  intros x. now rewrite elem_of_list_to_set, list_elem_of_In.
Qed.

End AliasFacts.

(** C7 (as amended). For a table name with a [tbl_] prefix or a [_table]
    suffix the cleaned form is what is left of the lower-cased name
    without the affix, and the alias set derived for the name holds the
    cleaned form exactly when the cleaned form is one of the business
    aliases that are part of the table name they are listed under: cust,
    customer, prod, product, ord, order, emp, employee, trans,
    transaction, inv, invoice, pay, payment, addr, address. For every
    other cleaned form the set, if one is derived, does not hold it. *)
Theorem alias_set_holds_cleaned_name :
  forall T : string,
    has_affix T ->
    strips_to T (SchemaAnalyzer.clean_name T)
    /\ ((exists A : gset string,
           SchemaAnalyzer.alias_set T = Some A
           /\ elem_of (SchemaAnalyzer.clean_name T) A)
        <-> In (SchemaAnalyzer.clean_name T) self_named_aliases).
Proof.
  intros T Affix. split; [now apply clean_name_strips|]. split.
  - intros (A & HA & Hin).
    destruct (alias_set_members T A HA) as (a & Ha & M).
    apply M in Hin. apply in_app_iff in Hin. destruct Hin as [Hin|Hin].
    + exfalso. exact (abbreviations_exclude _ _ Ha Hin).
    + now apply business_self.
  - intros H. destruct (self_named_listed _ H) as (a & Ha & Hb).
    unfold SchemaAnalyzer.alias_set, SchemaAnalyzer.collect_aliases. rewrite Ha.
    eexists. split; [reflexivity|].
    rewrite elem_of_list_to_set, list_elem_of_In. apply in_or_app. now right.
Qed.

Lemma alias_set_holds_cleaned_name_witness :
  exists A : gset string,
    SchemaAnalyzer.alias_set "tbl_customer" = Some A /\ elem_of "customer" A.
Proof.
  apply (proj2 (proj2 (alias_set_holds_cleaned_name "tbl_customer"
                         (or_introl eq_refl)))).
  simpl. tauto.
Defined.

(** C7, the claim as first stated, fails on [tbl_orders]: the cleaned form
    is [orders], and the alias set is {orde, ord, order, purchase}. *)
Lemma alias_set_lacks_cleaned_name :
  PyStr.startswith "tbl_orders" "tbl_" = true
  /\ SchemaAnalyzer.clean_name "tbl_orders" = "orders"
  /\ SchemaAnalyzer.alias_set "tbl_orders"
     = Some (list_to_set ["orde"; "ord"; "order"; "purchase"])
  /\ ~ elem_of "orders" (list_to_set ["orde"; "ord"; "order"; "purchase"] : gset string).
Proof.
  split; [reflexivity|]. split; [reflexivity|]. split; [reflexivity|].
  rewrite elem_of_list_to_set, list_elem_of_In. simpl.
  intuition discriminate.
Qed.

(** ** The join resolver *)

Section JoinFacts.
Import SchemaAnalyzer AIQueryGenerator.

(** The sample analyzers are what [__init__] builds. *)
Lemma shop_schema_init : init Samples.shop = Some Samples.shop_schema.
Proof. reflexivity. Qed.

Lemma wide_schema_init : init Samples.wide = Some Samples.wide_schema.
Proof. reflexivity. Qed.

Lemma left_join_rendered table main_table local_col foreign_col :
  PyStr.startswith (left_join table main_table local_col foreign_col) "LEFT JOIN " = true.
Proof. reflexivity. Qed.

Lemma edge_join_left from_table to_table d clause :
  edge_join from_table to_table d = Some clause ->
  PyStr.startswith clause "LEFT JOIN " = true.
Proof.
  unfold edge_join.
  destruct (local_columns d), (foreign_columns d); try discriminate.
  intros H. injection H as <-. apply left_join_rendered.
Qed.

Lemma indirect_joins_left path : forall infos out,
  indirect_joins path infos = Some out ->
  Forall (fun j => PyStr.startswith j "LEFT JOIN " = true) out.
Proof.
  induction path as [|from_table path IH]; intros infos out; simpl.
  - intros H. injection H as <-. constructor.
  - destruct path as [|to_table rest].
    + intros H. injection H as <-. constructor.
    + destruct infos as [|info infos']; [discriminate|].
      destruct (edge_join from_table to_table (join_condition info)) as [clause|] eqn:E;
        [|discriminate].
      destruct (indirect_joins (to_table :: rest) infos') as [more|] eqn:M;
        [|discriminate].
      intros H. injection H as <-. constructor.
      * eapply edge_join_left; eauto.
      * eapply IH; eauto.
Qed.

Lemma joins_for_left sp schema main_table table js :
  joins_for sp schema main_table table = Some js ->
  Forall (fun j => PyStr.startswith j "LEFT JOIN " = true) js.
Proof.
  unfold joins_for.
  destruct (find_relationships sp _ main_table table) as [|[path d|path infos] _].
  - intros H. injection H as <-. constructor.
  - destruct (edge_join main_table table d) as [clause|] eqn:E; [|discriminate].
    intros H. injection H as <-. constructor; [|constructor].
    eapply edge_join_left; eauto.
  - apply indirect_joins_left.
Qed.

Lemma joins_loop_left sp schema main_table rest : forall joins out,
  Forall (fun j => PyStr.startswith j "LEFT JOIN " = true) joins ->
  joins_loop sp schema main_table rest joins = Some out ->
  Forall (fun j => PyStr.startswith j "LEFT JOIN " = true) out.
Proof.
  induction rest as [|table rest IH]; intros joins out F; simpl.
  - intros H. injection H as <-. exact F.
  - destruct (joins_for sp schema main_table table) as [js|] eqn:E; [|discriminate].
    apply IH. apply Forall_app. split; [exact F|].
    eapply joins_for_left; eauto.
Qed.

(** Over the orders/customers graph the first relationship found between
    the two tables is the direct, inferred one, whatever the path search
    returns. *)
Lemma shop_relationship sp :
  exists more,
    find_relationships sp (relationship_graph Samples.shop_schema) "orders" "customers"
    = Direct ["orders"; "customers"] (implicit_attrs "customer_id") :: more.
Proof.
  unfold find_relationships.
  replace (has_edge (relationship_graph Samples.shop_schema) "orders" "customers")
    with true by (vm_compute; reflexivity).
  replace (get_edge_data (relationship_graph Samples.shop_schema) "orders" "customers")
    with (Some (implicit_attrs "customer_id")) by (vm_compute; reflexivity).
  destruct (sp _ _ _) as [path| |]; [destruct (2 <? length path)%nat| |];
    eexists; reflexivity.
Qed.

End JoinFacts.

(** C8. For a list of zero or one table the join resolver returns the
    empty plan; every clause of a plan it returns starts with
    "LEFT JOIN ", a left-outer join; over the orders/customers graph with
    its inferred (customer_id, id) edge, resolving ["orders"] gives the
    empty plan and resolving ["orders"; "customers"] gives exactly one
    step, the left-outer join of customers on
    orders.customer_id = customers.id. The path search of the graph
    library may answer anything. *)
Theorem join_resolver_plans :
  forall sp,
    (forall schema tables,
        (length tables <= 1)%nat ->
        AIQueryGenerator._build_joins sp schema tables = Some [])
    /\ (forall schema tables joins,
          AIQueryGenerator._build_joins sp schema tables = Some joins ->
          Forall (fun j => PyStr.startswith j "LEFT JOIN " = true) joins)
    /\ SchemaAnalyzer.get_edge_data
         (SchemaAnalyzer.relationship_graph Samples.shop_schema) "orders" "customers"
       = Some {| SchemaAnalyzer.relationship_type := "implicit";
                 SchemaAnalyzer.local_columns := ["customer_id"];
                 SchemaAnalyzer.foreign_columns := ["id"] |}
    /\ AIQueryGenerator._build_joins sp Samples.shop_schema ["orders"] = Some []
    /\ AIQueryGenerator._build_joins sp Samples.shop_schema ["orders"; "customers"]
       = Some ["LEFT JOIN customers ON orders.customer_id = customers.id"].
Proof.
  intros sp. split; [|split; [|split; [|split]]].
  - intros schema tables H. unfold AIQueryGenerator._build_joins.
    apply Nat.leb_le in H. rewrite H. reflexivity.
  - intros schema tables joins. unfold AIQueryGenerator._build_joins.
    destruct (length tables <=? 1)%nat.
    + intros H. injection H as <-. constructor.
    + destruct tables as [|main_table rest].
      * intros H. injection H as <-. constructor.
      * apply joins_loop_left. constructor.
  - vm_compute. reflexivity.
  - reflexivity.
  - unfold AIQueryGenerator._build_joins. simpl.
    unfold AIQueryGenerator.joins_for.
    destruct (shop_relationship sp) as (more & ->). reflexivity.
Qed.

Lemma join_resolver_plans_witness :
  Forall (fun j => PyStr.startswith j "LEFT JOIN " = true)
         ["LEFT JOIN customers ON orders.customer_id = customers.id"]
  /\ AIQueryGenerator._build_joins (fun _ _ _ => SchemaAnalyzer.NoPath)
       Samples.shop_schema ["customers"] = Some [].
Proof.
  pose proof (join_resolver_plans (fun _ _ _ => SchemaAnalyzer.NoPath))
    as (Short & Left & _ & _ & Two).
  split.
  - apply (Left Samples.shop_schema ["orders"; "customers"]). exact Two.
  - apply Short. simpl. lia.
Defined.

(** C9. Whatever the analysis and the table list (so in particular for
    every non-empty table list), column extraction returns the first ten
    entries of the list it has assembled from the extracted column
    entities or the intent-based suggestions and the primary keys: never
    more than ten, the rest is dropped without an error. For a question
    that names twelve columns of the table orders, twelve column entities
    are extracted, thirteen columns are assembled and ten are returned. *)
Theorem projected_columns_are_capped :
  (forall schema (a : AIQueryGenerator.analysis) (tables : list string),
      AIQueryGenerator._extract_columns schema a tables
      = firstn 10 (AIQueryGenerator.all_columns schema a tables)
      /\ length (AIQueryGenerator._extract_columns schema a tables)
         = Nat.min 10 (length (AIQueryGenerator.all_columns schema a tables))
      /\ (length (AIQueryGenerator._extract_columns schema a tables) <= 10)%nat)
  /\ length (List.filter (fun e => String.eqb (AIQueryGenerator.e_type e) "column")
                         (AIQueryGenerator.entities Samples.wide_analysis)) = 12%nat
  /\ length (AIQueryGenerator.all_columns Samples.wide_schema Samples.wide_analysis
               ["orders"]) = 13%nat
  /\ AIQueryGenerator._extract_columns Samples.wide_schema Samples.wide_analysis ["orders"]
     = ["orders.id"; "orders.c1"; "orders.c2"; "orders.c3"; "orders.c4"; "orders.c5";
        "orders.c6"; "orders.c7"; "orders.c8"; "orders.c9"].
Proof.
  split; [|repeat split; vm_compute; reflexivity].
  intros schema a tables. unfold AIQueryGenerator._extract_columns.
  split; [reflexivity|]. rewrite length_firstn. split; [reflexivity | lia].
Qed.

(** C10. The indirect list of [get_related_tables] is not deduplicated.
    In the graph built for orders, customers, warehouses and regions,
    where orders refers to customers and warehouses and each of these
    refers to regions, the direct neighbours of orders are customers and
    warehouses; regions is a neighbour of both, is not orders and is not
    a direct neighbour; for every max_depth above 1 the indirect list is
    [regions; regions]: regions is listed twice. *)
Theorem indirect_tables_repeat :
  forall max_depth : Z,
    (1 < max_depth)%Z ->
    SchemaAnalyzer.direct
      (SchemaAnalyzer.get_related_tables
         (SchemaAnalyzer._build_relationship_graph Samples.depots) "orders" max_depth)
    = ["customers"; "warehouses"]
    /\ SchemaAnalyzer.has_edge (SchemaAnalyzer._build_relationship_graph Samples.depots)
         "customers" "regions" = true
    /\ SchemaAnalyzer.has_edge (SchemaAnalyzer._build_relationship_graph Samples.depots)
         "warehouses" "regions" = true
    /\ SchemaAnalyzer.indirect
         (SchemaAnalyzer.get_related_tables
            (SchemaAnalyzer._build_relationship_graph Samples.depots) "orders" max_depth)
       = ["regions"; "regions"]
    /\ count_occ string_dec
         (SchemaAnalyzer.indirect
            (SchemaAnalyzer.get_related_tables
               (SchemaAnalyzer._build_relationship_graph Samples.depots) "orders" max_depth))
         "regions" = 2%nat.
Proof.
  intros max_depth H. apply Z.ltb_lt in H.
  assert (N : SchemaAnalyzer.neighbors
                (SchemaAnalyzer._build_relationship_graph Samples.depots) "orders"
              = Some ["customers"; "warehouses"]) by (vm_compute; reflexivity).
  unfold SchemaAnalyzer.get_related_tables. rewrite N, H.
  repeat split; vm_compute; reflexivity.
Qed.

Lemma indirect_tables_repeat_witness :
  SchemaAnalyzer.indirect
    (SchemaAnalyzer.get_related_tables
       (SchemaAnalyzer._build_relationship_graph Samples.depots) "orders" 2)
  = ["regions"; "regions"].
Proof.
  apply (indirect_tables_repeat 2). lia.
Defined.


(** * Further properties of the code *)

(** ** Case mapping and stripping *)

Section CaseFacts.
Import PyStr.

Lemma is_space_upper c : is_space (upper_char c) = is_space c.
Proof. destruct c as [[] [] [] [] [] [] [] []]; reflexivity. Qed.

Lemma is_space_lower c : is_space (lower_char c) = is_space c.
Proof. destruct c as [[] [] [] [] [] [] [] []]; reflexivity. Qed.

Lemma lower_upper_char c : lower_char (upper_char c) = lower_char c.
Proof. destruct c as [[] [] [] [] [] [] [] []]; reflexivity. Qed.

Lemma lower_lower_char c : lower_char (lower_char c) = lower_char c.
Proof. destruct c as [[] [] [] [] [] [] [] []]; reflexivity. Qed.

Lemma map_str_app f (a b : string) :
  map_str f (a +:+ b) = map_str f a +:+ map_str f b.
Proof.
  induction a as [|c a IH]; [reflexivity|].
  rewrite append_cons. simpl. rewrite IH, append_cons. reflexivity.
Qed.

Lemma map_str_empty f s : map_str f s = "" -> s = "".
Proof. destruct s; [reflexivity | discriminate]. Qed.

Section BlankPreserving.
Variable f : ascii -> ascii.
Hypothesis f_space : forall c, is_space (f c) = is_space c.

Lemma lstrip_map s : lstrip (map_str f s) = map_str f (lstrip s).
Proof.
  induction s as [|c s IH]; [reflexivity|].
  simpl. rewrite f_space. destruct (is_space c); [exact IH | reflexivity].
Qed.

Lemma rstrip_map s : rstrip (map_str f s) = map_str f (rstrip s).
Proof.
  induction s as [|c s IH]; [reflexivity|].
  simpl. rewrite IH, f_space.
  destruct (rstrip s); simpl; [destruct (is_space c)|]; reflexivity.
Qed.

Lemma strip_map s : strip (map_str f s) = map_str f (strip s).
Proof. unfold strip. now rewrite rstrip_map, lstrip_map. Qed.
End BlankPreserving.

Lemma strip_upper s : strip (upper s) = upper (strip s).
Proof. apply strip_map, is_space_upper. Qed.

Lemma strip_lower s : strip (lower s) = lower (strip s).
Proof. apply strip_map, is_space_lower. Qed.

Lemma map_str_compose f g h s :
  (forall c, f (g c) = h c) -> map_str f (map_str g s) = map_str h s.
Proof.
  intros H. induction s as [|c s IH]; [reflexivity|].
  cbn [map_str]. now rewrite IH, H.
Qed.

Lemma lower_lower s : lower (lower s) = lower s.
Proof. apply map_str_compose, lower_lower_char. Qed.

Lemma lower_upper s : lower (upper s) = lower s.
Proof. apply map_str_compose, lower_upper_char. Qed.

(** What [rstrip] removes is a tail of the text. *)
Lemma rstrip_tail s : exists w, s = rstrip s +:+ w.
Proof.
  induction s as [|c s (w & IH)]; [exists ""; reflexivity|].
  simpl. destruct (rstrip s) eqn:E.
  - destruct (is_space c).
    + exists (String c s). reflexivity.
    + exists s. reflexivity.
  - exists w. rewrite append_cons. now rewrite <- IH.
Qed.

Lemma lstrip_app a b : lstrip a <> "" -> lstrip (a +:+ b) = lstrip a +:+ b.
Proof.
  induction a as [|c a IH]; [intros H; exfalso; apply H; reflexivity|].
  rewrite append_cons. simpl. destruct (is_space c); [exact IH | reflexivity].
Qed.

Lemma lstrip_lstrip s : lstrip (lstrip s) = lstrip s.
Proof.
  induction s as [|c s IH]; [reflexivity|].
  simpl. destruct (is_space c) eqn:E; [exact IH|]. simpl. now rewrite E.
Qed.

Lemma rstrip_rstrip s : rstrip (rstrip s) = rstrip s.
Proof.
  induction s as [|c s IH]; [reflexivity|].
  simpl. destruct (rstrip s) eqn:E.
  - destruct (is_space c) eqn:Ec; [reflexivity|]. simpl. now rewrite Ec.
  - rewrite rstrip_cons_nonempty; [now rewrite IH|]. rewrite IH. discriminate.
Qed.

(** Stripping on the left does not disturb a text already stripped on the
    right. *)
Lemma rstrip_lstrip_stable r : rstrip r = r -> rstrip (lstrip r) = lstrip r.
Proof.
  induction r as [|c r IH]; [reflexivity|].
  intros H. simpl lstrip. destruct (is_space c) eqn:Ec; [|exact H].
  apply IH. simpl in H. rewrite Ec in H.
  destruct (rstrip r) eqn:E; [discriminate | congruence].
Qed.

Lemma strip_strip s : strip (strip s) = strip s.
Proof.
  unfold strip.
  rewrite (rstrip_lstrip_stable (rstrip s)) by apply rstrip_rstrip.
  apply lstrip_lstrip.
Qed.

Lemma startswith_app s t p :
  startswith s p = true -> startswith (s +:+ t) p = true.
Proof.
  revert s. induction p as [|c p IH]; intros s H; [reflexivity|].
  apply startswith_cons in H. destruct H as (s' & -> & H).
  rewrite append_cons, startswith_cons_same. auto.
Qed.

Lemma startswith_nonempty s c p : startswith s (String c p) = true -> s <> "".
Proof. destruct s; [discriminate | discriminate]. Qed.

(** A substring of the stripped text is a substring of the text. *)
Lemma str_in_of_lstrip k s : str_in k (lstrip s) = true -> str_in k s = true.
Proof.
  induction s as [|c s IH]; [auto|].
  simpl lstrip. destruct (is_space c); [|auto].
  intros H. apply str_in_later. auto.
Qed.

Lemma startswith_of_rstrip k : forall s,
  startswith (rstrip s) k = true -> startswith s k = true.
Proof.
  induction k as [|c k IH]; intros s H; [reflexivity|].
  destruct s as [|b s]; [discriminate|].
  simpl rstrip in H. destruct (rstrip s) eqn:E.
  - destruct (is_space b); [discriminate|].
    apply startswith_cons in H. destruct H as (s' & Es & H).
    injection Es as -> <-. rewrite startswith_cons_same.
    destruct k; [reflexivity | discriminate].
  - apply startswith_cons in H. destruct H as (s' & Es & H).
    injection Es as -> <-. rewrite startswith_cons_same.
    apply IH. now rewrite E.
Qed.

Lemma str_in_of_rstrip k s : str_in k (rstrip s) = true -> str_in k s = true.
Proof.
  induction s as [|c s IH]; [auto|].
  intros H. destruct (rstrip (String c s)) as [|b r] eqn:E.
  - apply str_in_empty in H. subst k. reflexivity.
  - rewrite <- E in H. clear E b r.
    assert (C : startswith (rstrip (String c s)) k = true
                \/ str_in k (rstrip s) = true).
    { simpl rstrip in *. destruct (rstrip s) eqn:E.
      - destruct (is_space c).
        + apply str_in_empty in H. subst k. now left.
        + apply str_in_cons in H. destruct H as [H|H]; [now left|].
          apply str_in_empty in H. subst k. now left.
      - apply str_in_cons in H. exact H. }
    destruct C as [C|C].
    + apply str_in_here. now apply startswith_of_rstrip.
    + apply str_in_later. auto.
Qed.

Lemma str_in_of_strip k s : str_in k (strip s) = true -> str_in k s = true.
Proof. unfold strip. intros H. now apply str_in_of_rstrip, str_in_of_lstrip. Qed.

Lemma str_in_app_l k a b : str_in k a = true -> str_in k (a +:+ b) = true.
Proof.
  induction a as [|c a IH]; intros H.
  - apply str_in_empty in H. subst k. destruct b; reflexivity.
  - rewrite append_cons. apply str_in_cons in H. destruct H as [H|H].
    + apply str_in_here. rewrite <- append_cons. now apply startswith_app.
    + apply str_in_later. auto.
Qed.

Lemma str_in_app_r k a b : str_in k b = true -> str_in k (a +:+ b) = true.
Proof.
  intros H. induction a as [|c a IH]; [exact H|].
  rewrite append_cons. now apply str_in_later.
Qed.

Lemma str_in_join k sep c l :
  In c l -> str_in k c = true -> str_in k (join sep l) = true.
Proof.
  intros Hin Hk. induction l as [|x l IH]; [destruct Hin|].
  simpl. destruct l as [|y l].
  - destruct Hin as [->|[]]. exact Hk.
  - destruct Hin as [->|Hin].
    + now apply str_in_app_l.
    + apply str_in_app_r, str_in_app_r. now apply IH.
Qed.

End CaseFacts.

(** ** What the builder sends to the database *)

Section ExecutionFacts.
Import PyStr AdvancedQueryBuilder.

Lemma strip_keeps_select s :
  startswith s "SELECT" = true -> strip s = lstrip (rstrip s) /\ startswith (strip s) "SELECT" = true.
Proof.
  intros H. split; [reflexivity|]. unfold strip.
  assert (R : startswith (rstrip s) "SELECT" = true)
    by (apply startswith_rstrip; [reflexivity | exact H]).
  apply startswith_cons in R. destruct R as (r & E & R).
  rewrite E. simpl lstrip. rewrite startswith_cons_same. exact R.
Qed.

Lemma select_prefix_is_select s : startswith s "SELECT" = true -> is_select s.
Proof.
  intros H. unfold is_select.
  apply strip_keeps_select in H. destruct H as [_ H].
  apply (startswith_map upper_char) in H. exact H.
Qed.

Lemma safe_is_select sql : _is_safe_query sql = true -> is_select sql.
Proof.
  unfold _is_safe_query, is_select. rewrite <- strip_upper.
  destruct (existsb _ _); [discriminate|].
  destruct (startswith (strip (upper sql)) "SELECT"); [reflexivity | discriminate].
Qed.

(** Appending the row limit keeps a SELECT a SELECT. *)
Lemma is_select_limited s : is_select s -> is_select (s +:+ " LIMIT 100").
Proof.
  unfold is_select. intros H.
  assert (Hne : strip s <> "").
  { intros E. rewrite E in H. discriminate. }
  destruct (rstrip_tail s) as (w & Hs).
  assert (L : lstrip s = strip s +:+ w).
  { rewrite Hs at 1. now apply lstrip_app. }
  unfold strip at 1. rewrite rstrip_app by (discriminate || reflexivity).
  rewrite lstrip_app, L by (rewrite L; destruct (strip s); [congruence | discriminate]).
  rewrite append_assoc. unfold upper. rewrite map_str_app.
  now apply startswith_app.
Qed.

Lemma probe_is_select table : is_select (count_probe table).
Proof. apply select_prefix_is_select. reflexivity. Qed.

(** [_identify_large_tables] probes every table once, in order, and keeps
    the tables for which the probe reported more than 10000 rows. *)
Lemma identify_large_tables_eq db tables : forall log,
  _identify_large_tables db tables log
  = (List.filter (reported_large db) tables, log ++ map count_probe tables).
Proof.
  induction tables as [|table rest IH]; intros log.
  - simpl. now rewrite app_nil_r.
  - cbn [_identify_large_tables]. unfold session_execute.
    rewrite IH. cbn [List.filter map]. rewrite <- app_assoc. cbn [app].
    change ("SELECT COUNT(*) FROM " +:+ table) with (count_probe table).
    destruct (db (count_probe table)) as [e|result] eqn:E.
    + assert (R : reported_large db table = false)
        by (unfold reported_large; now rewrite E).
      rewrite R. reflexivity.
    + destruct (exceeds_10000 (scalar result)) as [[]|] eqn:X.
      * assert (R : reported_large db table = true)
          by (unfold reported_large; now rewrite E, X).
        rewrite R. reflexivity.
      * assert (R : reported_large db table = false)
          by (unfold reported_large; now rewrite E, X).
        rewrite R. reflexivity.
      * assert (R : reported_large db table = false)
          by (unfold reported_large; now rewrite E, X).
        rewrite R. reflexivity.
Qed.

Lemma filter_empty_existsb {A B} (f : A -> bool) (l : list A) (x y : B) :
  match List.filter f l with [] => x | _ :: _ => y end
  = if existsb f l then y else x.
Proof.
  induction l as [|a l IH]; [reflexivity|].
  simpl. destruct (f a); [reflexivity | exact IH].
Qed.

Lemma optimize_query_eq db sql tables log :
  _optimize_query db sql tables log
  = if negb (str_in "LIMIT" (upper sql)) && negb (str_in "COUNT(" (upper sql))
    then (if existsb (reported_large db) tables then sql +:+ " LIMIT 100" else sql,
          log ++ map count_probe tables)
    else (sql, log).
Proof.
  unfold _optimize_query, _add_index_hints.
  destruct (negb _ && negb _); [|reflexivity].
  rewrite identify_large_tables_eq.
  pose proof (filter_empty_existsb (reported_large db) tables false true) as F.
  destruct (List.filter (reported_large db) tables);
    destruct (existsb (reported_large db) tables);
    try discriminate F; reflexivity.
Qed.

End ExecutionFacts.

Section ExecutionResults.
Import PyStr AdvancedQueryBuilder.

(** The statement a safe query is executed as, and the log after its
    probes. *)
Lemma execute_safe db sql tables log :
  _is_safe_query sql = true ->
  exists optimized probes,
    is_select optimized
    /\ Forall is_select probes
    /\ execute_generated_sql db sql tables log
       = match db optimized with
         | inl e => (Failure e (Some sql), log ++ probes ++ [optimized])
         | inr result =>
             (Data (fetchall result) (cursor_keys result)
                   (length (fetchall result)) optimized,
              log ++ probes ++ [optimized])
         end.
Proof.
  intros S. pose proof (safe_is_select sql S) as Sel.
  unfold execute_generated_sql. rewrite S. cbn [negb].
  rewrite optimize_query_eq.
  assert (P : Forall is_select (map count_probe tables)).
  { apply List.Forall_forall. intros x Hx. apply in_map_iff in Hx.
    destruct Hx as (t & <- & _). apply probe_is_select. }
  destruct (negb _ && negb _).
  - destruct (existsb (reported_large db) tables).
    + exists (sql +:+ " LIMIT 100"), (map count_probe tables).
      pose proof (is_select_limited sql Sel) as Sel'.
      split; [exact Sel'|]. split; [exact P|].
      unfold session_execute. rewrite <- app_assoc.
      destruct (db (sql +:+ " LIMIT 100")); [reflexivity|].
      unfold is_select in Sel'. rewrite Sel'. reflexivity.
    + exists sql, (map count_probe tables).
      split; [exact Sel|]. split; [exact P|].
      unfold session_execute. rewrite <- app_assoc.
      destruct (db sql); [reflexivity|].
      unfold is_select in Sel. rewrite Sel. reflexivity.
  - exists sql, []. split; [exact Sel|]. split; [constructor|].
    unfold session_execute. cbn [app].
    destruct (db sql); [reflexivity|].
    unfold is_select in Sel. rewrite Sel. reflexivity.
Qed.

End ExecutionResults.

(** X1. Whatever statement [execute_generated_sql] is given and whatever
    the database answers, every statement it sends to the database (the
    size probes and the statement itself, possibly with LIMIT 100
    appended) is a SELECT by the builder's own test: stripped and
    upper-cased it begins with SELECT. *)
Theorem executed_statements_are_selects :
  forall db sql tables log,
  exists sent,
    snd (AdvancedQueryBuilder.execute_generated_sql db sql tables log) = log ++ sent
    /\ Forall is_select sent.
Proof.
  intros db sql tables log.
  destruct (AdvancedQueryBuilder._is_safe_query sql) eqn:S.
  - destruct (execute_safe db sql tables log S) as (opt & probes & Ho & Hp & E).
    exists (probes ++ [opt]). rewrite E. split.
    + destruct (db opt); reflexivity.
    + apply Forall_app. split; [exact Hp | repeat constructor; exact Ho].
  - exists []. rewrite (unsafe_is_not_executed db sql tables log S).
    split; [simpl; now rewrite app_nil_r | constructor].
Qed.

(** X2. [execute_generated_sql] never answers with a modification result:
    the branch that commits and reports affected rows cannot be reached,
    because a statement that passed the gate is a SELECT. The answer is a
    failure or the fetched rows, and the reported row count is the number
    of rows. *)
Theorem execution_never_modifies :
  forall db sql tables log,
    match fst (AdvancedQueryBuilder.execute_generated_sql db sql tables log) with
    | AdvancedQueryBuilder.Modification _ _ => False
    | AdvancedQueryBuilder.Data data _ row_count _ => row_count = length data
    | AdvancedQueryBuilder.Failure _ _ => True
    end.
Proof.
  intros db sql tables log.
  destruct (AdvancedQueryBuilder._is_safe_query sql) eqn:S.
  - destruct (execute_safe db sql tables log S) as (opt & probes & _ & _ & E).
    rewrite E. destruct (db opt); simpl; auto.
  - rewrite (unsafe_is_not_executed db sql tables log S). exact I.
Qed.

(** ** Constructed statements and the gate *)

Section ConstructedFacts.
Import PyStr AIQueryGenerator AdvancedQueryBuilder.

Lemma select_clause_select schema intent tables columns a :
  startswith (select_clause schema intent tables columns a) "SELECT" = true.
Proof.
  unfold select_clause.
  destruct (String.eqb intent "count"); [reflexivity|].
  destruct (String.eqb intent "aggregate"), (aggregation a);
    try destruct (_find_numeric_columns schema tables);
    try destruct columns; reflexivity.
Qed.

Lemma construct_sql_select schema intent tables columns joins conditions a :
  startswith (_construct_sql schema intent tables columns joins conditions a) "SELECT"
  = true.
Proof.
  unfold _construct_sql. destruct tables as [|t0 rest]; [reflexivity|].
  apply strip_keeps_select, startswith_app, select_clause_select.
Qed.

Lemma existsb_agree {A} (f g : A -> bool) l :
  (forall x, In x l -> f x = g x) -> existsb f l = existsb g l.
Proof.
  induction l as [|x l IH]; intros H; [reflexivity|].
  simpl. rewrite (H x (or_introl eq_refl)), IH; [reflexivity|].
  intros y Hy. apply H. now right.
Qed.

(** For the gate, looking for a keyword in the stripped text and in the
    text itself is the same. *)
Lemma keyword_scan_strip s :
  existsb (fun keyword => str_in keyword (strip s)) dangerous_keywords
  = existsb (fun keyword => str_in keyword s) dangerous_keywords.
Proof.
  apply existsb_agree. intros k Hk.
  pose proof dangerous_keywords_plain as F.
  rewrite List.Forall_forall in F. destruct (F k Hk) as [Hne Hns].
  destruct (str_in k s) eqn:E.
  - now apply str_in_strip.
  - destruct (str_in k (strip s)) eqn:E'; [|reflexivity].
    apply str_in_of_strip in E'. congruence.
Qed.

Lemma str_in_mapped_join f k sep c l :
  In c l -> str_in k (map_str f c) = true ->
  str_in k (map_str f (join sep l)) = true.
Proof.
  intros Hin Hk. induction l as [|x l IH]; [destruct Hin|].
  simpl join. destruct l as [|y l].
  - destruct Hin as [->|[]]. exact Hk.
  - rewrite map_str_app. destruct Hin as [->|Hin].
    + now apply str_in_app_l.
    + apply str_in_app_r. rewrite map_str_app. apply str_in_app_r. now apply IH.
Qed.

End ConstructedFacts.

(** X3. For a statement built by [_construct_sql] the safety gate decides
    by the keywords alone: the statement always begins with SELECT, so it
    is accepted exactly when none of the nine keywords occurs in its
    upper-cased text. *)
Theorem gate_on_constructed_statements :
  forall schema intent tables columns joins conditions a,
    PyStr.startswith
      (AIQueryGenerator._construct_sql schema intent tables columns joins conditions a)
      "SELECT" = true
    /\ AdvancedQueryBuilder._is_safe_query
         (AIQueryGenerator._construct_sql schema intent tables columns joins conditions a)
       = negb (existsb
                 (fun keyword =>
                    PyStr.str_in keyword
                      (PyStr.upper
                         (AIQueryGenerator._construct_sql schema intent tables columns
                            joins conditions a)))
                 AdvancedQueryBuilder.dangerous_keywords).
Proof.
  intros schema intent tables columns joins conditions a.
  pose proof (construct_sql_select schema intent tables columns joins conditions a) as H.
  split; [exact H|].
  unfold AdvancedQueryBuilder._is_safe_query.
  rewrite keyword_scan_strip.
  apply select_prefix_is_select in H. unfold is_select in H.
  rewrite strip_upper, H.
  destruct (existsb _ _); reflexivity.
Qed.

(** X4. A projected column whose name contains one of the gate's keywords
    in any case (created_at contains CREATE, updated_at contains UPDATE)
    makes the statement unexecutable: when the intent is neither count
    nor an aggregate with a detected function, the statement built over a
    non-empty table list is refused by the gate and
    [execute_generated_sql] sends nothing to the database. *)
Theorem keyword_in_column_blocks_statement :
  forall schema db log intent tables columns joins conditions a c k,
    tables <> [] ->
    intent <> "count" ->
    intent <> "aggregate" \/ AIQueryGenerator.aggregation a = None ->
    In c columns ->
    In k AdvancedQueryBuilder.dangerous_keywords ->
    PyStr.str_in k (PyStr.upper c) = true ->
    AdvancedQueryBuilder._is_safe_query
      (AIQueryGenerator._construct_sql schema intent tables columns joins conditions a)
    = false
    /\ snd (AdvancedQueryBuilder.execute_generated_sql db
              (AIQueryGenerator._construct_sql schema intent tables columns joins
                 conditions a) tables log) = log.
Proof.
  intros schema db log intent tables columns joins conditions a c k
         Ht Hcount Hagg Hc Hk Hin.
  assert (U : AdvancedQueryBuilder._is_safe_query
                (AIQueryGenerator._construct_sql schema intent tables columns joins
                   conditions a) = false).
  { apply (dangerous_keyword_blocks _ k Hk).
    unfold AIQueryGenerator._construct_sql.
    destruct tables as [|t0 rest]; [congruence|].
    rewrite <- strip_upper. apply str_in_strip.
    - pose proof dangerous_keywords_plain as F.
      rewrite List.Forall_forall in F. apply (F k Hk).
    - pose proof dangerous_keywords_plain as F.
      rewrite List.Forall_forall in F. apply (F k Hk).
    - unfold PyStr.upper. rewrite map_str_app. apply str_in_app_l.
      assert (S : AIQueryGenerator.select_clause schema intent (t0 :: rest) columns a
                  = "SELECT " +:+ PyStr.join ", " columns).
      { unfold AIQueryGenerator.select_clause.
        destruct (String.eqb_spec intent "count") as [E|_]; [contradiction|].
        destruct columns as [|c0 cs]; [destruct Hc|].
        destruct (String.eqb_spec intent "aggregate") as [E|_]; [|reflexivity].
        destruct Hagg as [Hagg|Hagg]; [contradiction|].
        rewrite Hagg. reflexivity. }
      rewrite S, map_str_app. apply str_in_app_r.
      now apply (str_in_mapped_join PyStr.upper_char k ", " c). }
  split; [exact U|].
  now rewrite (unsafe_is_not_executed db _ tables log U).
Qed.

Lemma keyword_in_column_blocks_statement_witness :
  AdvancedQueryBuilder._is_safe_query
    (AIQueryGenerator._construct_sql Samples.shop_schema "list" ["orders"]
       ["orders.id"; "orders.created_at"] [] []
       (AIQueryGenerator._analyze_natural_query Samples.no_quoted Samples.no_numbers
          Samples.shop_schema "show orders"))
  = false
  /\ snd (AdvancedQueryBuilder.execute_generated_sql (fun _ => inl "no database")
            (AIQueryGenerator._construct_sql Samples.shop_schema "list" ["orders"]
               ["orders.id"; "orders.created_at"] [] []
               (AIQueryGenerator._analyze_natural_query Samples.no_quoted
                  Samples.no_numbers Samples.shop_schema "show orders"))
            ["orders"] []) = [].
Proof.
  apply (keyword_in_column_blocks_statement Samples.shop_schema
           (fun _ => inl "no database") [] "list" ["orders"]
           ["orders.id"; "orders.created_at"] [] []
           (AIQueryGenerator._analyze_natural_query Samples.no_quoted
              Samples.no_numbers Samples.shop_schema "show orders")
           "orders.created_at" "CREATE").
  - discriminate.
  - discriminate.
  - left. discriminate.
  - simpl. tauto.
  - simpl. tauto.
  - reflexivity.
Defined.

(** ** The cache below and at its bound *)

Section CacheInvariant.
Import AdvancedQueryBuilder.

Lemma min_from_in f best l : In (min_from f best l) (best :: l).
Proof.
  revert best. induction l as [|x l IH]; intros best; simpl; [auto|].
  destruct (f x <? f best)%Z.
  - destruct (IH x) as [E|H]; [right; left; exact E | right; right; exact H].
  - destruct (IH best) as [E|H]; [left; exact E | right; right; exact H].
Qed.

Lemma py_min_in f l k : py_min f l = Some k -> In k l.
Proof.
  destruct l as [|b l]; [discriminate|].
  simpl. intros H. injection H as <-. apply min_from_in.
Qed.

Lemma keys_del_subset {V} (d : PyDict.t V) k x :
  In x (PyDict.keys (PyDict.del d k)) -> In x (PyDict.keys d).
Proof.
  induction d as [|[k0 v0] d IH]; simpl; [tauto|].
  destruct (String.eqb k0 k); simpl; [tauto|].
  intros [E|H]; [left; exact E | right; auto].
Qed.

Lemma wf_del {V} (d : PyDict.t V) k : PyDict.wf d -> PyDict.wf (PyDict.del d k).
Proof.
  unfold PyDict.wf. induction d as [|[k0 v0] d IH]; simpl; [auto|].
  intros W. apply NoDup_cons in W. destruct W as [Hn W].
  destruct (String.eqb k0 k); [exact W|].
  simpl. apply NoDup_cons. split; [|auto].
  rewrite list_elem_of_In in *. intros H. apply Hn.
  eapply keys_del_subset; eauto.
Qed.

Lemma wf_set {V} (d : PyDict.t V) k v : PyDict.wf d -> PyDict.wf (PyDict.set d k v).
Proof.
  intros W. destruct (PyDict.get d k) eqn:E.
  - unfold PyDict.wf. rewrite keys_set_present; [exact W|].
    eapply get_some_key; eauto.
  - rewrite set_absent by exact E.
    unfold PyDict.wf, PyDict.keys. rewrite map_app. simpl.
    apply NoDup_app. split; [exact W|]. split; [|apply NoDup_singleton].
    intros x Hx Hx'. apply list_elem_of_In in Hx.
    apply list_elem_of_singleton in Hx'. subst x.
    now apply get_none_key in E.
Qed.

Lemma len_set {V} (d : PyDict.t V) k v :
  PyDict.len (PyDict.set d k v)
  = match PyDict.get d k with
    | Some _ => PyDict.len d
    | None => S (PyDict.len d)
    end.
Proof.
  destruct (PyDict.get d k) eqn:E.
  - rewrite !len_keys, keys_set_present; [reflexivity|].
    eapply get_some_key; eauto.
  - rewrite set_absent by exact E. unfold PyDict.len.
    rewrite length_app. simpl. lia.
Qed.

(** One recording keeps the dictionary well formed and within the bound. *)
Lemma cache_query_bounded q text now cache :
  PyDict.wf cache -> (PyDict.len cache <= 100)%nat ->
  PyDict.wf (_cache_query q text now cache)
  /\ (PyDict.len (_cache_query q text now cache) <= 100)%nat.
Proof.
  intros W L. unfold _cache_query.
  set (entry := Build_cache_entry text now _).
  set (cache1 := PyDict.set cache (cache_key q) entry).
  assert (W1 : PyDict.wf cache1) by now apply wf_set.
  assert (L1 : (PyDict.len cache1 <= 101)%nat).
  { unfold cache1. rewrite len_set. destruct (PyDict.get cache (cache_key q)); lia. }
  destruct (Nat.ltb_spec 100 (PyDict.len cache1)) as [Hover|Hfit].
  - destruct (py_min (timestamp_of cache1) (PyDict.keys cache1)) as [oldest_key|] eqn:M.
    + split; [now apply wf_del|].
      pose proof (len_del cache1 oldest_key (py_min_in _ _ _ M)). lia.
    + destruct cache1; [simpl in Hover; lia | discriminate].
  - split; [exact W1 | exact Hfit].
Qed.

(** Below the bound nothing is removed. *)
Lemma cache_query_below q text now cache :
  (PyDict.len cache < 100)%nat ->
  _cache_query q text now cache
  = PyDict.set cache (cache_key q)
      {| sql := text; timestamp := now;
         success_count :=
           match PyDict.get cache (cache_key q) with
           | Some e => success_count e
           | None => 0
           end + 1 |}.
Proof.
  intros L. unfold _cache_query.
  set (entry := Build_cache_entry text now _).
  assert (L1 : (PyDict.len (PyDict.set cache (cache_key q) entry) <= 100)%nat).
  { rewrite len_set. destruct (PyDict.get cache (cache_key q)); lia. }
  apply Nat.ltb_ge in L1. rewrite L1. reflexivity.
Qed.

End CacheInvariant.

(** X5. The cache never grows beyond its bound and stays a dictionary: if
    it holds each key once and at most 100 entries before a recording, it
    does so after it, whatever the question, the statement and the clock
    reading. *)
Theorem cache_stays_bounded :
  forall (cache : AdvancedQueryBuilder.query_cache) (q text : string) (now : Z),
    PyDict.wf cache -> (PyDict.len cache <= 100)%nat ->
    PyDict.wf (AdvancedQueryBuilder._cache_query q text now cache)
    /\ (PyDict.len (AdvancedQueryBuilder._cache_query q text now cache) <= 100)%nat.
Proof. intros. now apply cache_query_bounded. Qed.

Lemma cache_stays_bounded_witness :
  PyDict.wf (AdvancedQueryBuilder._cache_query "show orders" "SELECT 1" 7
               (Samples.numbered_cache 100))
  /\ (PyDict.len (AdvancedQueryBuilder._cache_query "show orders" "SELECT 1" 7
                    (Samples.numbered_cache 100)) <= 100)%nat.
Proof.
  apply (cache_stays_bounded (Samples.numbered_cache 100) "show orders" "SELECT 1" 7).
  - exact numbered_cache_wf.
  - rewrite numbered_cache_len. lia.
Defined.

(** X6. Below the bound a recording removes nothing and can be read back:
    in a cache of fewer than 100 entries the question's key then holds
    the new statement and clock reading with a success counter one above
    the stored one (1 for a new key), and every other key holds what it
    held. *)
Theorem cache_recording_reads_back :
  forall (cache : AdvancedQueryBuilder.query_cache) (q text : string) (now : Z),
    (PyDict.len cache < 100)%nat ->
    PyDict.get (AdvancedQueryBuilder._cache_query q text now cache)
               (AdvancedQueryBuilder.cache_key q)
    = Some {| AdvancedQueryBuilder.sql := text;
              AdvancedQueryBuilder.timestamp := now;
              AdvancedQueryBuilder.success_count :=
                match PyDict.get cache (AdvancedQueryBuilder.cache_key q) with
                | Some e => AdvancedQueryBuilder.success_count e
                | None => 0
                end + 1 |}
    /\ forall k, k <> AdvancedQueryBuilder.cache_key q ->
                 PyDict.get (AdvancedQueryBuilder._cache_query q text now cache) k
                 = PyDict.get cache k.
Proof.
  intros cache q text now L. rewrite (cache_query_below q text now cache L).
  split; [apply get_set_eq|].
  intros k Hk. apply get_set_ne. congruence.
Qed.

Lemma cache_recording_reads_back_witness :
  PyDict.get (AdvancedQueryBuilder._cache_query "query 3" "SELECT 2" 2000
                (Samples.numbered_cache 5)) "query 3"
  = Some {| AdvancedQueryBuilder.sql := "SELECT 2";
            AdvancedQueryBuilder.timestamp := 2000;
            AdvancedQueryBuilder.success_count := 2 |}.
Proof.
  destruct (cache_recording_reads_back (Samples.numbered_cache 5) "query 3" "SELECT 2"
              2000) as [E _].
  - simpl. lia.
  - exact E.
Defined.

(** X7. The cache key does not depend on the case of the question or on
    blanks around it, and normalising twice changes nothing; so a question
    repeated in capitals is recorded under the entry of the original. *)
Theorem cache_key_normalises :
  forall q : string,
    AdvancedQueryBuilder.cache_key (AdvancedQueryBuilder.cache_key q)
    = AdvancedQueryBuilder.cache_key q
    /\ AdvancedQueryBuilder.cache_key (PyStr.upper q) = AdvancedQueryBuilder.cache_key q
    /\ AdvancedQueryBuilder.cache_key (PyStr.strip q) = AdvancedQueryBuilder.cache_key q
    /\ forall text now cache,
         AdvancedQueryBuilder._cache_query (PyStr.upper q) text now cache
         = AdvancedQueryBuilder._cache_query q text now cache.
Proof.
  intros q. unfold AdvancedQueryBuilder.cache_key.
  assert (U : PyStr.strip (PyStr.lower (PyStr.upper q)) = PyStr.strip (PyStr.lower q))
    by now rewrite lower_upper.
  repeat split.
  - rewrite (strip_lower q), lower_lower, strip_lower, strip_strip. reflexivity.
  - exact U.
  - rewrite !strip_lower, strip_strip. reflexivity.
  - intros text now cache. unfold AdvancedQueryBuilder._cache_query,
      AdvancedQueryBuilder.cache_key. now rewrite U.
Qed.

(** ** Nodes and neighbours of the relationship graph *)

Section GraphNodes.
Import SchemaAnalyzer.

Lemma contains_set {V} (d : PyDict.t V) k v x :
  PyDict.contains (PyDict.set d k v) x = String.eqb k x || PyDict.contains d x.
Proof.
  unfold PyDict.contains. rewrite get_set.
  destruct (String.eqb k x); [reflexivity|]. reflexivity.
Qed.

Lemma contains_add_node g n x :
  PyDict.contains (add_node g n) x = String.eqb n x || PyDict.contains g x.
Proof.
  unfold add_node. destruct (PyDict.contains g n) eqn:E.
  - destruct (String.eqb_spec n x) as [<-|_]; [now rewrite E | reflexivity].
  - apply contains_set.
Qed.

Lemma contains_add_edge g a b d x :
  PyDict.contains (add_edge g a b d) x
  = String.eqb a x || String.eqb b x || PyDict.contains g x.
Proof.
  unfold add_edge. rewrite !contains_set, !contains_add_node.
  destruct (String.eqb a x), (String.eqb b x), (PyDict.contains g x); reflexivity.
Qed.

Lemma has_edge_add_node g n u v : has_edge (add_node g n) u v = has_edge g u v.
Proof. now rewrite !has_edge_data, edge_add_node. Qed.

Lemma has_edge_add_edge g a b d u v :
  has_edge (add_edge g a b d) u v
  = (String.eqb b u && String.eqb a v) || (String.eqb a u && String.eqb b v)
    || has_edge g u v.
Proof.
  rewrite !has_edge_data, edge_add_edge.
  destruct (_ || _); reflexivity.
Qed.

Lemma closed_add_node g n : closed g -> closed (add_node g n).
Proof.
  intros C u v. rewrite has_edge_add_node, contains_add_node.
  intros H. rewrite (C u v H). apply orb_true_r.
Qed.

Lemma closed_add_edge g a b d : closed g -> closed (add_edge g a b d).
Proof.
  intros C u v. rewrite has_edge_add_edge, contains_add_edge.
  intros H. apply orb_true_iff in H. destruct H as [H|H].
  - apply orb_true_iff in H. destruct H as [H|H];
      apply andb_true_iff in H; destruct H as [H1 H2]; rewrite H2;
      rewrite ?orb_true_r; reflexivity.
  - rewrite (C u v H). apply orb_true_r.
Qed.

Lemma closed_link_first_match tables table col_name cands : forall g,
  closed g -> closed (link_first_match tables table col_name cands g).
Proof.
  induction cands as [|[pot|] cands IH]; intros g C; simpl; auto.
  destruct (negb (String.eqb pot "") && PyStr.mem pot tables); [|auto].
  destruct (has_edge g table pot); [exact C | now apply closed_add_edge].
Qed.

Lemma node_link_first_match x tables table col_name cands : forall g,
  PyDict.contains g x = true ->
  PyDict.contains (link_first_match tables table col_name cands g) x = true.
Proof.
  induction cands as [|[pot|] cands IH]; intros g C; simpl; auto.
  destruct (negb (String.eqb pot "") && PyStr.mem pot tables); [|auto].
  destruct (has_edge g table pot); [exact C|].
  rewrite contains_add_edge, C. apply orb_true_r.
Qed.

Lemma nodes_after_add_node x tables : forall g,
  In x tables \/ PyDict.contains g x = true ->
  PyDict.contains (fold_left add_node tables g) x = true.
Proof.
  induction tables as [|t rest IH]; intros g H; simpl.
  - destruct H as [[]|H]; exact H.
  - apply IH. rewrite contains_add_node.
    destruct H as [[->|H]|H]; [right | left; exact H | right].
    + now rewrite String.eqb_refl.
    + rewrite H. apply orb_true_r.
Qed.

(** The built graph is closed, and holds every table as a node. *)
Lemma build_closed insp : closed (_build_relationship_graph insp).
Proof.
  unfold _build_relationship_graph, _detect_implicit_relationships.
  apply fold_left_preserves.
  - intros g table C. unfold detect_table. apply fold_left_preserves; [|exact C].
    intros g' col C'. unfold detect_column.
    destruct (PyStr.endswith _ _); [|exact C'].
    now apply closed_link_first_match.
  - unfold foreign_key_graph. apply fold_left_preserves.
    + intros g table C. unfold add_foreign_keys.
      apply fold_left_preserves; [|exact C].
      intros g' fk C'. now apply closed_add_edge.
    + apply fold_left_preserves.
      * intros g n C. now apply closed_add_node.
      * intros u v H. discriminate.
Qed.

Lemma build_nodes insp x :
  In x (get_table_names insp) ->
  PyDict.contains (_build_relationship_graph insp) x = true.
Proof.
  intros Hx.
  unfold _build_relationship_graph, _detect_implicit_relationships.
  apply (fold_left_preserves (fun g => PyDict.contains g x = true)).
  - intros g table C. unfold detect_table.
    apply (fold_left_preserves (fun g => PyDict.contains g x = true)); [|exact C].
    intros g' col C'. unfold detect_column.
    destruct (PyStr.endswith _ _); [|exact C'].
    now apply node_link_first_match.
  - unfold foreign_key_graph.
    apply (fold_left_preserves (fun g => PyDict.contains g x = true)).
    + intros g table C. unfold add_foreign_keys.
      apply (fold_left_preserves (fun g => PyDict.contains g x = true)); [|exact C].
      intros g' fk C'. rewrite contains_add_edge, C'. apply orb_true_r.
    + apply nodes_after_add_node. now left.
Qed.

Lemma node_neighbors g n :
  PyDict.contains g n = true -> exists nbs, neighbors g n = Some nbs.
Proof.
  unfold PyDict.contains, neighbors.
  destruct (PyDict.get g n); [eauto | discriminate].
Qed.

Lemma neighbor_has_edge g n nbs v :
  neighbors g n = Some nbs -> In v nbs -> has_edge g n v = true.
Proof.
  unfold neighbors, has_edge, PyDict.contains.
  destruct (PyDict.get g n) as [nb|]; [|discriminate].
  intros H Hv. injection H as <-.
  destruct (key_get_some _ _ Hv) as (d & ->). reflexivity.
Qed.

(** When every neighbour on the list is a node, the loop of
    [get_related_tables] runs to its end. *)
Lemma second_level_complete g table direct_tables todo : forall acc,
  (forall nb, In nb todo -> PyDict.contains g nb = true) ->
  second_level g table direct_tables todo acc
  = acc ++ flat_map (fun nb => List.filter (is_indirect table direct_tables)
                                           (PyDict.keys (adj g nb)))
                    todo.
Proof.
  induction todo as [|nb rest IH]; intros acc H; simpl.
  - now rewrite app_nil_r.
  - assert (C : PyDict.contains g nb = true) by (apply H; now left).
    unfold neighbors, adj. unfold PyDict.contains in C.
    destruct (PyDict.get g nb) as [d|]; [|discriminate].
    rewrite IH by (intros x Hx; apply H; now right).
    now rewrite <- app_assoc.
Qed.

(** Whatever the graph, nothing on the indirect list is the origin or a
    direct neighbour. *)
Lemma second_level_filtered g table direct_tables todo : forall acc,
  Forall (fun s => is_indirect table direct_tables s = true) acc ->
  Forall (fun s => is_indirect table direct_tables s = true)
         (second_level g table direct_tables todo acc).
Proof.
  induction todo as [|nb rest IH]; intros acc F; simpl; [exact F|].
  destruct (neighbors g nb) as [second|]; [|exact F].
  apply IH. apply Forall_app. split; [exact F|].
  apply List.Forall_forall. intros x Hx. apply filter_In in Hx. apply Hx.
Qed.

End GraphNodes.

(** X8. In the graph built from a schema every table is a node, every
    recorded neighbour is a node and edges read the same from both ends.
    So for a table of the schema [get_related_tables] never meets its
    exception path: [direct] is the neighbour list of the table and, for
    max_depth above 1, [indirect] lists for each direct neighbour in turn
    all of its neighbours except the origin and the direct ones. *)
Theorem related_tables_of_schema_table :
  forall insp table max_depth,
    In table (SchemaAnalyzer.get_table_names insp) ->
    exists nbs,
      SchemaAnalyzer.neighbors (SchemaAnalyzer._build_relationship_graph insp) table
      = Some nbs
      /\ (forall nb, In nb nbs ->
            SchemaAnalyzer.has_edge (SchemaAnalyzer._build_relationship_graph insp)
              nb table = true)
      /\ SchemaAnalyzer.get_related_tables
           (SchemaAnalyzer._build_relationship_graph insp) table max_depth
         = {| SchemaAnalyzer.direct := nbs;
              SchemaAnalyzer.indirect :=
                if (1 <? max_depth)%Z
                then flat_map
                       (fun nb =>
                          List.filter (is_indirect table nbs)
                            (PyDict.keys
                               (SchemaAnalyzer.adj
                                  (SchemaAnalyzer._build_relationship_graph insp) nb)))
                       nbs
                else [] |}.
Proof.
  intros insp table max_depth Ht.
  set (g := SchemaAnalyzer._build_relationship_graph insp).
  destruct (node_neighbors g table (build_nodes insp table Ht)) as (nbs & N).
  exists nbs. split; [exact N|].
  assert (E : forall nb, In nb nbs -> SchemaAnalyzer.has_edge g table nb = true)
    by (intros nb; now apply neighbor_has_edge).
  split.
  - intros nb Hnb. rewrite has_edge_data.
    destruct (build_keeps_foreign_keys insp) as [S _]. fold g in S.
    rewrite (S nb table), <- has_edge_data. now apply E.
  - unfold SchemaAnalyzer.get_related_tables. rewrite N.
    destruct (1 <? max_depth)%Z; [|reflexivity].
    rewrite second_level_complete; [reflexivity|].
    intros nb Hnb. apply (build_closed insp table nb). now apply E.
Qed.

Lemma related_tables_of_schema_table_witness :
  exists nbs,
    SchemaAnalyzer.neighbors (SchemaAnalyzer._build_relationship_graph Samples.depots)
      "regions" = Some nbs
    /\ SchemaAnalyzer.direct
         (SchemaAnalyzer.get_related_tables
            (SchemaAnalyzer._build_relationship_graph Samples.depots) "regions" 2)
       = nbs.
Proof.
  destruct (related_tables_of_schema_table Samples.depots "regions" 2)
    as (nbs & N & _ & R).
  - simpl. tauto.
  - exists nbs. split; [exact N|]. rewrite R. reflexivity.
Defined.

(** X9. In any graph, nothing on the indirect list of
    [get_related_tables] is the origin or one of the direct neighbours;
    with max_depth 1 or less the indirect list is empty; for a table that
    is not a node both lists are empty. *)
Theorem related_tables_exclusions :
  forall g table max_depth,
    Forall (fun s =>
              is_indirect table
                (SchemaAnalyzer.direct
                   (SchemaAnalyzer.get_related_tables g table max_depth)) s = true)
           (SchemaAnalyzer.indirect (SchemaAnalyzer.get_related_tables g table max_depth))
    /\ (if (1 <? max_depth)%Z then True
        else SchemaAnalyzer.indirect
               (SchemaAnalyzer.get_related_tables g table max_depth) = [])
    /\ match SchemaAnalyzer.neighbors g table with
       | Some nbs =>
           SchemaAnalyzer.direct (SchemaAnalyzer.get_related_tables g table max_depth)
           = nbs
       | None =>
           SchemaAnalyzer.get_related_tables g table max_depth
           = {| SchemaAnalyzer.direct := []; SchemaAnalyzer.indirect := [] |}
       end.
Proof.
  intros g table max_depth. unfold SchemaAnalyzer.get_related_tables.
  destruct (SchemaAnalyzer.neighbors g table) as [nbs|]; simpl.
  - destruct (1 <? max_depth)%Z; repeat split; try constructor.
    apply second_level_filtered. constructor.
  - destruct (1 <? max_depth)%Z; repeat split; constructor.
Qed.

(** ** Relationships and join direction *)

Section RelationshipFacts.
Import SchemaAnalyzer AIQueryGenerator.

Lemma find_relationships_direct sp g a b d :
  get_edge_data g a b = Some d ->
  exists more,
    find_relationships sp g a b = Direct [a; b] d :: more
    /\ (length more <= 1)%nat.
Proof.
  intros E. unfold find_relationships. rewrite has_edge_data, E.
  destruct (sp g a b) as [path| |]; [destruct (2 <? length path)%nat| |];
    eexists; (split; [reflexivity | simpl; lia]).
Qed.

Lemma find_relationships_indirect sp g a b :
  get_edge_data g a b = None ->
  match find_relationships sp g a b with
  | [] => True
  | [Indirect path infos] =>
      sp g a b = PathFound path /\ (2 < length path)%nat
      /\ infos = _get_path_join_info g path
  | _ => False
  end.
Proof.
  intros E. unfold find_relationships. rewrite has_edge_data, E.
  destruct (sp g a b) as [path| |]; try exact I.
  destruct (Nat.ltb_spec 2 (length path)); simpl; auto.
Qed.

Lemma joins_for_direct sp schema a b d l f ls fs :
  get_edge_data (relationship_graph schema) a b = Some d ->
  local_columns d = l :: ls -> foreign_columns d = f :: fs ->
  joins_for sp schema a b = Some [left_join b a l f].
Proof.
  intros E Hl Hf. unfold joins_for.
  destruct (find_relationships_direct sp _ a b d E) as (more & -> & _).
  unfold edge_join. rewrite Hl, Hf. reflexivity.
Qed.

End RelationshipFacts.

(** X10. [find_relationships] returns at most two relationships. When the
    two tables share an edge the first one is the direct relationship with
    that edge's attributes; when they do not, there is at most one
    relationship, an indirect one along the path the graph search
    returned, and that path has more than two tables. *)
Theorem relationships_found :
  forall sp g a b,
    (length (SchemaAnalyzer.find_relationships sp g a b) <= 2)%nat
    /\ match SchemaAnalyzer.get_edge_data g a b with
       | Some d =>
           hd_error (SchemaAnalyzer.find_relationships sp g a b)
           = Some (SchemaAnalyzer.Direct [a; b] d)
       | None =>
           match SchemaAnalyzer.find_relationships sp g a b with
           | [] => True
           | [SchemaAnalyzer.Indirect path infos] =>
               sp g a b = SchemaAnalyzer.PathFound path
               /\ (2 < length path)%nat
               /\ infos = SchemaAnalyzer._get_path_join_info g path
           | _ => False
           end
       end.
Proof.
  intros sp g a b.
  destruct (SchemaAnalyzer.get_edge_data g a b) as [d|] eqn:E.
  - destruct (find_relationships_direct sp g a b d E) as (more & -> & L).
    split; [simpl; lia | reflexivity].
  - pose proof (find_relationships_indirect sp g a b E) as H.
    destruct (SchemaAnalyzer.find_relationships sp g a b) as [|[p d|p i] [|r rest]];
      try contradiction; split; simpl; auto; lia.
Qed.

(** X11. The join resolver does not look at which of the two tables owns
    the local column of an edge. Over a graph that reads the same from
    both ends, for two tables that share an edge with local column l and
    foreign column f, resolving [a; b] joins b on a.l = b.f and resolving
    [b; a] joins a on b.l = a.f: the local column is always attributed to
    the table named first. *)
Theorem join_direction_follows_table_order :
  forall sp schema a b d l f ls fs,
    symmetric (SchemaAnalyzer.relationship_graph schema) ->
    SchemaAnalyzer.get_edge_data (SchemaAnalyzer.relationship_graph schema) a b = Some d ->
    SchemaAnalyzer.local_columns d = l :: ls ->
    SchemaAnalyzer.foreign_columns d = f :: fs ->
    AIQueryGenerator._build_joins sp schema [a; b]
    = Some [AIQueryGenerator.left_join b a l f]
    /\ AIQueryGenerator._build_joins sp schema [b; a]
       = Some [AIQueryGenerator.left_join a b l f].
Proof.
  intros sp schema a b d l f ls fs S E Hl Hf.
  unfold AIQueryGenerator._build_joins. simpl.
  rewrite (joins_for_direct sp schema a b d l f ls fs E Hl Hf).
  rewrite (S a b) in E.
  rewrite (joins_for_direct sp schema b a d l f ls fs E Hl Hf).
  split; reflexivity.
Qed.

Lemma join_direction_follows_table_order_witness :
  AIQueryGenerator._build_joins (fun _ _ _ => SchemaAnalyzer.NoPath)
    Samples.shop_schema ["customers"; "orders"]
  = Some ["LEFT JOIN orders ON customers.customer_id = orders.id"].
Proof.
  apply (join_direction_follows_table_order (fun _ _ _ => SchemaAnalyzer.NoPath)
           Samples.shop_schema "orders" "customers"
           (SchemaAnalyzer.implicit_attrs "customer_id") "customer_id" "id" [] []).
  - apply (build_keeps_foreign_keys Samples.shop).
  - vm_compute. reflexivity.
  - reflexivity.
  - reflexivity.
Defined.

(** ** Looking a table up by an alias *)

Section AliasLookup.
Import SchemaAnalyzer.

Lemma find_first {A} (f : A -> bool) l x :
  In x l -> f x = true -> exists y, List.find f l = Some y /\ In y l /\ f y = true.
Proof.
  intros Hin Hf. destruct (List.find f l) as [y|] eqn:E.
  - exists y. apply find_some in E. tauto.
  - apply (find_none f l E) in Hin. congruence.
Qed.

Lemma str_in_nil s : PyStr.str_in "" s = true.
Proof. apply str_in_here, startswith_nil. Qed.

Lemma alias_lookup_cases (sa : t) (alias : string) :
  match find_table_by_alias sa alias with
  | Some t =>
      In t (get_table_names (insp sa)) \/ In t (PyDict.keys (table_aliases sa))
  | None =>
      forall t, In t (get_table_names (insp sa)) ->
                PyStr.str_in (normal_alias alias) (PyStr.lower t) = false
                /\ PyStr.str_in (PyStr.lower t) (normal_alias alias) = false
  end.
Proof.
  unfold find_table_by_alias. fold (normal_alias alias).
  destruct (List.find (fun table => String.eqb (PyStr.lower table) (normal_alias alias)) _)
    as [t|] eqn:F1.
  - left. apply find_some in F1. tauto.
  - destruct (List.find (fun entry : string * list string =>
                           alias_listed (normal_alias alias) (snd entry)) _)
      as [entry|] eqn:F2.
    + right. apply find_some in F2. destruct F2 as [F2 _].
      unfold PyDict.keys. apply in_map_iff. exists entry. auto.
    + destruct (List.find (fun table =>
                             PyStr.str_in (normal_alias alias) (PyStr.lower table)
                             || PyStr.str_in (PyStr.lower table) (normal_alias alias)) _)
        as [t|] eqn:F3.
      * left. apply find_some in F3. tauto.
      * intros t Ht. apply (find_none _ _ F3) in Ht.
        apply orb_false_iff in Ht. exact Ht.
Qed.

End AliasLookup.

(** X12. An alias that equals the name of a table, ignoring case and
    surrounding blanks, resolves to a table of that name; the exact match
    is tried first, so neither the alias lists nor a longer table name
    containing the alias can take precedence. *)
Theorem exact_table_name_wins :
  forall (sa : SchemaAnalyzer.t) (alias t : string),
    In t (SchemaAnalyzer.get_table_names (SchemaAnalyzer.insp sa)) ->
    PyStr.lower t = normal_alias alias ->
    exists t',
      SchemaAnalyzer.find_table_by_alias sa alias = Some t'
      /\ In t' (SchemaAnalyzer.get_table_names (SchemaAnalyzer.insp sa))
      /\ PyStr.lower t' = PyStr.lower t.
Proof.
  intros sa alias t Ht E. unfold SchemaAnalyzer.find_table_by_alias.
  fold (normal_alias alias).
  destruct (find_first (fun table => String.eqb (PyStr.lower table) (normal_alias alias))
              _ t Ht) as (y & F & Hy & Ey).
  - rewrite E. apply String.eqb_refl.
  - rewrite F. exists y. apply String.eqb_eq in Ey.
    repeat split; [exact Hy | congruence].
Qed.

Lemma exact_table_name_wins_witness :
  exists t',
    SchemaAnalyzer.find_table_by_alias Samples.shop_schema "  Orders " = Some t'
    /\ In t' ["orders"; "customers"]
    /\ PyStr.lower t' = "orders".
Proof.
  apply (exact_table_name_wins Samples.shop_schema "  Orders " "orders").
  - simpl. tauto.
  - reflexivity.
Defined.

(** X13. What [find_table_by_alias] returns is a table of the schema or a
    key of the alias dictionary; it answers [None] only when the
    normalised alias is no part of any table name and no table name is
    part of it. *)
Theorem alias_lookup_is_sound :
  forall (sa : SchemaAnalyzer.t) (alias : string),
    match SchemaAnalyzer.find_table_by_alias sa alias with
    | Some t =>
        In t (SchemaAnalyzer.get_table_names (SchemaAnalyzer.insp sa))
        \/ In t (PyDict.keys (SchemaAnalyzer.table_aliases sa))
    | None =>
        forall t, In t (SchemaAnalyzer.get_table_names (SchemaAnalyzer.insp sa)) ->
                  PyStr.str_in (normal_alias alias) (PyStr.lower t) = false
                  /\ PyStr.str_in (PyStr.lower t) (normal_alias alias) = false
    end.
Proof. exact alias_lookup_cases. Qed.

(** X14. A blank alias is not rejected: when the schema has a table, an
    alias that is empty after stripping resolves to some table, because
    the empty text is part of every table name. *)
Theorem blank_alias_resolves :
  forall (sa : SchemaAnalyzer.t) (alias : string),
    normal_alias alias = "" ->
    SchemaAnalyzer.get_table_names (SchemaAnalyzer.insp sa) <> [] ->
    exists t, SchemaAnalyzer.find_table_by_alias sa alias = Some t.
Proof.
  intros sa alias E Hne.
  pose proof (alias_lookup_cases sa alias) as H.
  destruct (SchemaAnalyzer.find_table_by_alias sa alias) as [t|]; [eauto|].
  destruct (SchemaAnalyzer.get_table_names (SchemaAnalyzer.insp sa)) as [|t0 rest];
    [congruence|].
  destruct (H t0 (or_introl eq_refl)) as [H1 _].
  rewrite E, str_in_nil in H1. discriminate.
Qed.

Lemma blank_alias_resolves_witness :
  exists t, SchemaAnalyzer.find_table_by_alias Samples.shop_schema "   " = Some t.
Proof.
  apply (blank_alias_resolves Samples.shop_schema "   ").
  - reflexivity.
  - discriminate.
Defined.

(** ** When alias detection fails *)

Section AliasFailure.
Import SchemaAnalyzer.

Lemma split_words_nonempty s : forall w r, split_words s w r <> [].
Proof.
  induction s as [|c s IH]; intros w r; simpl; [discriminate|].
  destruct (is_separator c); [destruct r|]; [apply IH | discriminate | apply IH].
Qed.

Lemma ends_with_separator_cons c s :
  s <> "" -> ends_with_separator (String c s) = ends_with_separator s.
Proof. destruct s; [congruence | reflexivity]. Qed.

(** Which texts split into non-empty words only, from the middle of a
    word and from inside a run of separators. *)
Lemma split_words_all_nonempty s :
  (forall w, w <> "" ->
     (Forall (fun x => x <> "") (split_words s w false)
      <-> ends_with_separator s = false))
  /\ (Forall (fun x => x <> "") (split_words s "" true)
      <-> s <> "" /\ ends_with_separator s = false).
Proof.
  induction s as [|c s [IHw IHr]].
  - split.
    + intros w Hw. simpl. split; [reflexivity|].
      intros _. repeat constructor. exact Hw.
    + simpl. split.
      * intros F. inversion F. congruence.
      * intros [H _]. congruence.
  - assert (App : forall w, w +:+ String c "" <> "").
    { intros w. destruct w; [discriminate | rewrite append_cons; discriminate]. }
    split.
    + intros w Hw. cbn [split_words]. destruct (is_separator c) eqn:Ec.
      * split.
        -- intros F. inversion F as [|x l Hx Hl]; subst.
           apply IHr in Hl. destruct Hl as [Hne Hl].
           now rewrite (ends_with_separator_cons c s Hne).
        -- intros H. destruct s as [|c' s'].
           ++ simpl in H. congruence.
           ++ constructor; [exact Hw|]. apply IHr. split; [discriminate|].
              now rewrite (ends_with_separator_cons c (String c' s')) in H by discriminate.
      * rewrite (IHw _ (App w)). destruct s as [|c' s'].
        -- simpl. rewrite Ec. tauto.
        -- rewrite (ends_with_separator_cons c (String c' s')) by discriminate. tauto.
    + cbn [split_words]. destruct (is_separator c) eqn:Ec.
      * rewrite IHr. destruct s as [|c' s'].
        -- simpl. rewrite Ec. split; [intros [H _]; congruence | intros [_ H]; discriminate].
        -- rewrite (ends_with_separator_cons c (String c' s')) by discriminate.
           split; intros [_ H]; (split; [discriminate | exact H]).
      * change ("" +:+ String c "") with (String c "").
        rewrite (IHw (String c "")) by discriminate.
        destruct s as [|c' s'].
        -- simpl. rewrite Ec. split; [intros _; split; [discriminate | reflexivity] | tauto].
        -- rewrite (ends_with_separator_cons c (String c' s')) by discriminate.
           split; [intros H; split; [discriminate | exact H] | tauto].
Qed.

Lemma re_split_all_nonempty s :
  s <> "" ->
  (Forall (fun x => x <> "") (re_split s)
   <-> starts_with_separator s = false /\ ends_with_separator s = false).
Proof.
  intros Hne. destruct s as [|c s]; [congruence|].
  unfold re_split. cbn [split_words starts_with_separator].
  destruct (is_separator c) eqn:Ec.
  - split; [|intros [H _]; discriminate].
    intros F. inversion F. congruence.
  - change ("" +:+ String c "") with (String c "").
    destruct (split_words_all_nonempty s) as [Hw _].
    rewrite (Hw (String c "")) by discriminate.
    destruct s as [|c' s'].
    + simpl. rewrite Ec. tauto.
    + rewrite (ends_with_separator_cons c (String c' s')) by discriminate. tauto.
Qed.

Lemma split_words_two s : forall w,
  ends_with_separator s = true -> (2 <= length (split_words s w false))%nat.
Proof.
  induction s as [|c s IH]; intros w H; [discriminate|].
  cbn [split_words]. destruct (is_separator c) eqn:Ec.
  - simpl. pose proof (split_words_nonempty s "" true).
    destruct (split_words s "" true); [congruence | simpl; lia].
  - destruct s as [|c' s']; [simpl in H; congruence|].
    apply IH.
    now rewrite (ends_with_separator_cons c (String c' s')) in H by discriminate.
Qed.

Lemma re_split_two s :
  starts_with_separator s || ends_with_separator s = true ->
  (2 <= length (re_split s))%nat.
Proof.
  intros H. destruct s as [|c s]; [discriminate|].
  unfold re_split. cbn [split_words starts_with_separator] in *.
  destruct (is_separator c) eqn:Ec.
  - simpl. pose proof (split_words_nonempty s "" true).
    destruct (split_words s "" true); [congruence | simpl; lia].
  - cbn [orb] in H.
    destruct s as [|c' s']; [simpl in H; congruence|].
    apply split_words_two.
    now rewrite (ends_with_separator_cons c (String c' s')) in H by discriminate.
Qed.

Lemma initials_some_nonempty words i :
  initials words = Some i -> Forall (fun w => w <> "") words.
Proof.
  revert i. induction words as [|w words IH]; intros i H; [constructor|].
  simpl in H. destruct w as [|c w]; [discriminate|].
  destruct (initials words) as [r|]; [|discriminate].
  constructor; [discriminate | eauto].
Qed.

(** The alias list of a table cannot be collected exactly when the cleaned
    name is longer than four characters and begins or ends with a
    separator. *)
Lemma collect_aliases_fails table :
  collect_aliases table = None
  <-> (4 < String.length (clean_name table))%nat
      /\ starts_with_separator (clean_name table)
         || ends_with_separator (clean_name table) = true.
Proof.
  unfold collect_aliases, abbreviations.
  set (clean := clean_name table).
  destruct (Nat.ltb_spec 4 (String.length clean)) as [Hlen|Hlen].
  - assert (Hne : clean <> "") by (intros E; rewrite E in Hlen; simpl in Hlen; lia).
    pose proof (re_split_all_nonempty clean Hne) as All.
    destruct (starts_with_separator clean || ends_with_separator clean) eqn:Sep.
    + pose proof (re_split_two clean Sep) as Two.
      apply Nat.ltb_lt in Two. rewrite Two.
      destruct (initials (re_split clean)) as [i|] eqn:I.
      * apply initials_some_nonempty, All in I.
        destruct I as [I1 I2]. rewrite I1, I2 in Sep. discriminate.
      * tauto.
    + apply orb_false_iff in Sep. apply All in Sep.
      destruct (initials_total _ Sep) as (i & ->).
      destruct (1 <? length (re_split clean))%nat;
        (split; [discriminate | intros [_ H]; discriminate]).
  - split; [discriminate | intros [H _]; lia].
Qed.

Lemma detect_aliases_loop_fails tables table : forall acc,
  In table tables -> alias_set table = None ->
  detect_aliases_loop tables acc = None.
Proof.
  induction tables as [|t rest IH]; intros acc Hin Hnone; [destruct Hin|].
  simpl. destruct Hin as [->|Hin]; [now rewrite Hnone|].
  destruct (alias_set t); [now apply IH | reflexivity].
Qed.

End AliasFailure.

(** X15. Alias detection raises for a table exactly when its cleaned name
    (lower case, [tbl_] and [_table] removed) is longer than four
    characters and begins or ends with an underscore or a blank: the first
    letter of an empty word is asked for. A schema with such a table
    cannot be analysed at all: the constructor of the analyzer fails. *)
Theorem alias_detection_fails_on_edge_separators :
  forall table : string,
    (SchemaAnalyzer.alias_set table = None
     <-> (4 < String.length (SchemaAnalyzer.clean_name table))%nat
         /\ starts_with_separator (SchemaAnalyzer.clean_name table)
            || ends_with_separator (SchemaAnalyzer.clean_name table) = true)
    /\ forall insp,
         In table (SchemaAnalyzer.get_table_names insp) ->
         SchemaAnalyzer.alias_set table = None ->
         SchemaAnalyzer.init insp = None.
Proof.
  intros table. split.
  - rewrite <- collect_aliases_fails. unfold SchemaAnalyzer.alias_set.
    destruct (SchemaAnalyzer.collect_aliases table); split; congruence.
  - intros insp Hin Hnone. unfold SchemaAnalyzer.init, SchemaAnalyzer._detect_table_aliases.
    now rewrite (detect_aliases_loop_fails _ table [] Hin Hnone).
Qed.

Lemma alias_detection_fails_on_edge_separators_witness :
  SchemaAnalyzer.init
    {| SchemaAnalyzer.get_table_names := ["customers"; "tbl_orders_"];
       SchemaAnalyzer.get_columns := fun _ => [];
       SchemaAnalyzer.get_foreign_keys := fun _ => [] |} = None.
Proof.
  apply (proj2 (alias_detection_fails_on_edge_separators "tbl_orders_")).
  - simpl. tauto.
  - apply (proj1 (alias_detection_fails_on_edge_separators "tbl_orders_")).
    split; [vm_compute; lia | reflexivity].
Defined.

(** ** Intent detection and entity extraction *)

Section IntentFacts.
Import AIQueryGenerator SchemaAnalyzer.

Lemma last_same_default {A} (l : list A) d d' :
  l <> [] -> List.last l d = List.last l d'.
Proof.
  induction l as [|x l IH]; [congruence|].
  intros _. destruct l as [|y l]; [reflexivity|].
  change (List.last (y :: l) d = List.last (y :: l) d'). apply IH. discriminate.
Qed.

Lemma last_app_default {A} (l1 l2 : list A) d :
  List.last (l1 ++ l2) d = List.last l2 (List.last l1 d).
Proof.
  revert d. induction l1 as [|x l1 IH]; intros d; [reflexivity|].
  destruct l1 as [|y l1].
  - destruct l2 as [|a l2]; [reflexivity|].
    change (List.last (a :: l2) d = List.last (a :: l2) x).
    apply last_same_default. discriminate.
  - change (List.last ((y :: l1) ++ l2) d
            = List.last l2 (List.last (y :: l1) d)).
    apply IH.
Qed.

Lemma intent_keywords i ql kws : forall a,
  intent (fold_left (fun a keyword =>
                       if PyStr.str_in keyword ql
                       then record_match i keyword a else a) kws a)
  = List.last (map (fun _ => i) (List.filter (fun keyword => PyStr.str_in keyword ql) kws))
         (intent a).
Proof.
  induction kws as [|k kws IH]; intros a; simpl; [reflexivity|].
  destruct (PyStr.str_in k ql); rewrite IH; [|reflexivity].
  simpl map. simpl intent.
  destruct (map (fun _ => i) (List.filter (fun keyword => PyStr.str_in keyword ql) kws))
    as [|x l] eqn:E; [reflexivity|].
  change (List.last (i :: x :: l) (intent a)) with (List.last (x :: l) (intent a)).
  apply last_same_default. discriminate.
Qed.

Lemma intent_patterns ql ps : forall a,
  intent (fold_left (detect_pattern ql) ps a)
  = List.last (map fst
            (flat_map (fun p : string * list string =>
                         map (pair (fst p))
                             (List.filter (fun keyword => PyStr.str_in keyword ql)
                                          (snd p))) ps))
         (intent a).
Proof.
  induction ps as [|p ps IH]; intros a; simpl; [reflexivity|].
  rewrite IH. unfold detect_pattern at 1. rewrite intent_keywords.
  rewrite map_app, last_app_default, map_map. reflexivity.
Qed.

Lemma intent_detect_aggregation ql a :
  (forall w, In w aggregation_words -> PyStr.str_in w ql = false) ->
  intent (detect_aggregation ql a) = intent a.
Proof.
  intros H. unfold detect_aggregation.
  apply (fold_left_preserves (fun x => intent x = intent a)); [|reflexivity].
  intros x f Hx. destruct (PyStr.str_in f ql) eqn:E; [|exact Hx].
  destruct (PyStr.mem f _) eqn:M; [|exact Hx].
  exfalso. unfold PyStr.mem in M. apply existsb_exists in M.
  destruct M as (w & Hw & Ew). apply String.eqb_eq in Ew. subst w.
  rewrite H in E; [discriminate|].
  unfold aggregation_words. simpl in *. tauto.
Qed.

Lemma intent_detect_grouping ql a :
  (forall w, In w grouping_words -> PyStr.str_in w ql = false) ->
  intent (detect_grouping ql a) = intent a.
Proof.
  intros H. unfold detect_grouping.
  destruct (existsb _ _) eqn:E; [|reflexivity].
  apply existsb_exists in E. destruct E as (w & Hw & Ew).
  rewrite (H w Hw) in Ew. discriminate.
Qed.

Lemma entities_grounded fq fn schema q :
  Forall (entity_grounded schema) (_extract_entities fq fn schema q).
Proof.
  unfold _extract_entities. repeat apply Forall_app_2.
  - apply List.Forall_forall. intros e He. apply in_flat_map in He.
    destruct He as (table & Ht & He). left. unfold table_entities in He.
    apply in_app_iff in He. destruct He as [He|He].
    + destruct (PyStr.str_in _ _); [|destruct He].
      destruct He as [<-|[]]. split; [reflexivity | exact Ht].
    + destruct (PyDict.get _ _) as [aliases|]; [|destruct He].
      apply in_flat_map in He. destruct He as (alias & _ & He).
      destruct (PyStr.str_in _ _); [|destruct He].
      destruct He as [<-|[]]. split; [reflexivity | exact Ht].
  - apply List.Forall_forall. intros e He. apply in_flat_map in He.
    destruct He as (table & Ht & He). right. left.
    unfold column_entities in He. apply in_flat_map in He.
    destruct He as (col & Hc & He).
    destruct (PyStr.str_in _ _); [|destruct He].
    destruct He as [<-|[]]. split; [reflexivity|].
    exists table, col. repeat split; assumption.
  - apply List.Forall_forall. intros e He. apply in_map_iff in He.
    destruct He as (m & <- & _). right. right. left. reflexivity.
  - apply List.Forall_forall. intros e He. apply in_map_iff in He.
    destruct He as (m & <- & _). right. right. right. reflexivity.
Qed.

Lemma mentioned_table_extracted fq fn schema q table :
  In table (get_table_names (insp schema)) ->
  PyStr.str_in (PyStr.lower table) (PyStr.lower q) = true ->
  In {| e_type := "table"; e_value := table; e_original := Some table;
        e_table := None; e_confidence := 9 # 10 |}
     (_extract_entities fq fn schema q).
Proof.
  intros Ht Hq. unfold _extract_entities. apply in_app_iff. left.
  apply in_flat_map. exists table. split; [exact Ht|].
  unfold table_entities. apply in_app_iff. left. rewrite Hq. now left.
Qed.

End IntentFacts.

(** X16. When none of the aggregation words sum, avg, max, min, average
    and none of the words by, group, each, per occurs in the lowered
    input, the returned intent is the category of the last matched
    (intent, keyword) pair in the order count, list, aggregate, group_by,
    join: a later category overrides an earlier one however many keywords
    the earlier one matched. Without any match the intent is [list]. *)
Theorem last_matched_category_wins :
  forall fq fn schema (q : string),
    (forall w, In w aggregation_words -> PyStr.str_in w (PyStr.lower q) = false) ->
    (forall w, In w grouping_words -> PyStr.str_in w (PyStr.lower q) = false) ->
    AIQueryGenerator.intent (AIQueryGenerator._analyze_natural_query fq fn schema q)
    = List.last (map fst (matched_pairs q)) "list".
Proof.
  intros fq fn schema q Hagg Hgrp.
  unfold AIQueryGenerator._analyze_natural_query, AIQueryGenerator.aggregation_stage.
  rewrite intent_detect_grouping by exact Hgrp.
  rewrite intent_detect_aggregation by exact Hagg.
  change (AIQueryGenerator.intent (AIQueryGenerator.with_entities ?es ?a))
    with (AIQueryGenerator.intent a).
  unfold AIQueryGenerator.detect_intent. rewrite intent_patterns. reflexivity.
Qed.

Lemma last_matched_category_wins_witness :
  AIQueryGenerator.intent
    (AIQueryGenerator._analyze_natural_query Samples.no_quoted Samples.no_numbers
       Samples.shop_schema "show orders with customers")
  = "join".
Proof.
  rewrite (last_matched_category_wins Samples.no_quoted Samples.no_numbers
             Samples.shop_schema "show orders with customers").
  - reflexivity.
  - intros w Hw. simpl in Hw.
    destruct Hw as [<-|[<-|[<-|[<-|[<-|[]]]]]]; reflexivity.
  - intros w Hw. simpl in Hw.
    destruct Hw as [<-|[<-|[<-|[<-|[]]]]]; reflexivity.
Defined.

(** X17. Entity extraction invents nothing about the schema: every table
    entity names a table of the schema, every column entity carries a
    table of the schema and the name of one of its columns, and all other
    entities are values or numbers. Conversely a table whose lowered name
    occurs in the lowered input is reported as a table entity with
    confidence 0.9. *)
Theorem extracted_entities_are_grounded :
  forall fq fn schema (q : string),
    Forall (entity_grounded schema)
           (AIQueryGenerator._extract_entities fq fn schema q)
    /\ forall table,
         In table (SchemaAnalyzer.get_table_names (SchemaAnalyzer.insp schema)) ->
         PyStr.str_in (PyStr.lower table) (PyStr.lower q) = true ->
         In {| AIQueryGenerator.e_type := "table";
               AIQueryGenerator.e_value := table;
               AIQueryGenerator.e_original := Some table;
               AIQueryGenerator.e_table := None;
               AIQueryGenerator.e_confidence := 9 # 10 |}
            (AIQueryGenerator._extract_entities fq fn schema q).
Proof.
  intros fq fn schema q. split.
  - apply entities_grounded.
  - intros table. apply mentioned_table_extracted.
Qed.

Lemma extracted_entities_are_grounded_witness :
  In {| AIQueryGenerator.e_type := "table";
        AIQueryGenerator.e_value := "customers";
        AIQueryGenerator.e_original := Some "customers";
        AIQueryGenerator.e_table := None;
        AIQueryGenerator.e_confidence := 9 # 10 |}
     (AIQueryGenerator._extract_entities Samples.no_quoted Samples.no_numbers
        Samples.shop_schema "How many CUSTOMERS are there").
Proof.
  apply (proj2 (extracted_entities_are_grounded Samples.no_quoted Samples.no_numbers
                  Samples.shop_schema "How many CUSTOMERS are there")).
  - simpl. tauto.
  - reflexivity.
Defined.

(** ** Projected columns and conditions *)

Section ProjectionFacts.
Import AIQueryGenerator SchemaAnalyzer.

Lemma mem_In x l : PyStr.mem x l = true <-> In x l.
Proof.
  unfold PyStr.mem. rewrite existsb_exists. split.
  - intros (y & Hy & E). apply String.eqb_eq in E. now subst.
  - intros H. exists x. split; [exact H | apply String.eqb_refl].
Qed.

Lemma include_primary_keys_keeps schema tables x : forall columns,
  In x columns -> In x (include_primary_keys schema tables columns).
Proof.
  unfold include_primary_keys.
  induction tables as [|t rest IH]; intros columns H; simpl; [exact H|].
  apply IH. destruct (List.find is_key_column _) as [col|]; [|exact H].
  destruct (PyStr.mem _ columns); [exact H | now right].
Qed.

Lemma include_primary_keys_adds schema tables table col : forall columns,
  In table tables ->
  List.find is_key_column (get_columns (insp schema) table) = Some col ->
  In (qualified table (col_name col)) (include_primary_keys schema tables columns).
Proof.
  induction tables as [|t rest IH]; intros columns Hin Hf; [destruct Hin|].
  destruct Hin as [->|Hin].
  - unfold include_primary_keys. simpl. rewrite Hf.
    apply (include_primary_keys_keeps schema rest).
    destruct (PyStr.mem _ columns) eqn:M; [now apply mem_In | now left].
  - unfold include_primary_keys in *. simpl. now apply IH.
Qed.

Lemma length_flat_map_const {A B} (f : A -> list B) n l :
  (forall x, length (f x) = n) -> length (flat_map f l) = (length l * n)%nat.
Proof.
  intros H. induction l as [|x l IH]; [reflexivity|].
  simpl. rewrite length_app, H, IH. reflexivity.
Qed.

Lemma length_flat_map_singletons {A B} (f : A -> B) l :
  length (flat_map (fun x => [f x]) l) = length l.
Proof. induction l as [|x l IH]; simpl; congruence. Qed.

Lemma length_flat_map_nil {A B} (l : list A) :
  length (flat_map (fun _ => @nil B) l) = 0%nat.
Proof. induction l as [|x l IH]; simpl; congruence. Qed.

End ProjectionFacts.

(** X18. The primary key of every table is put among the columns: for a
    table of the list whose first column that is flagged as primary key
    or is named id or pk is [col], the column [table.col] is in the list
    assembled by column extraction, and it is in the result whenever the
    assembled list has at most ten entries. *)
Theorem primary_keys_are_projected :
  forall schema a tables table col,
    In table tables ->
    List.find AIQueryGenerator.is_key_column
      (SchemaAnalyzer.get_columns (SchemaAnalyzer.insp schema) table) = Some col ->
    In (SchemaAnalyzer.qualified table (SchemaAnalyzer.col_name col))
       (AIQueryGenerator.all_columns schema a tables)
    /\ ((length (AIQueryGenerator.all_columns schema a tables) <= 10)%nat ->
        In (SchemaAnalyzer.qualified table (SchemaAnalyzer.col_name col))
           (AIQueryGenerator._extract_columns schema a tables)).
Proof.
  intros schema a tables table col Hin Hf.
  assert (H : In (SchemaAnalyzer.qualified table (SchemaAnalyzer.col_name col))
                 (AIQueryGenerator.all_columns schema a tables)).
  { unfold AIQueryGenerator.all_columns. now apply include_primary_keys_adds. }
  split; [exact H|].
  intros L. unfold AIQueryGenerator._extract_columns.
  now rewrite firstn_all2.
Qed.

Lemma primary_keys_are_projected_witness :
  In "customers.id"
     (AIQueryGenerator._extract_columns Samples.shop_schema
        (AIQueryGenerator._analyze_natural_query Samples.no_quoted Samples.no_numbers
           Samples.shop_schema "customers by name")
        ["orders"; "customers"]).
Proof.
  apply (primary_keys_are_projected Samples.shop_schema
           (AIQueryGenerator._analyze_natural_query Samples.no_quoted Samples.no_numbers
              Samples.shop_schema "customers by name")
           ["orders"; "customers"] "customers"
           (Samples.plain_column "id" "INTEGER")).
  - simpl. tauto.
  - reflexivity.
  - vm_compute. lia.
Defined.

(** X19. Conditions are formed permissively: every value or number entity
    is paired with every column entity, so there are as many value
    conditions as the product of the two counts; each comparison phrase
    found in the lowered input adds one more condition if the tables have
    a numeric column, and none if they have not. *)
Theorem conditions_are_a_cross_product :
  forall schema (a : AIQueryGenerator.analysis) (tables : list string),
    length (AIQueryGenerator._extract_conditions schema a tables)
    = (length (List.filter
                 (fun e => PyStr.mem (AIQueryGenerator.e_type e) ["value"; "number"])
                 (AIQueryGenerator.entities a))
       * length (List.filter
                   (fun e => String.eqb (AIQueryGenerator.e_type e) "column")
                   (AIQueryGenerator.entities a))
       + match AIQueryGenerator._find_numeric_columns schema tables with
         | [] => 0
         | _ :: _ =>
             length (flat_map
                       (fun pattern =>
                          AIQueryGenerator.scan pattern
                            (PyStr.lower (AIQueryGenerator.original_query a)))
                       AIQueryGenerator.comparison_patterns)
         end)%nat.
Proof.
  intros schema a tables. unfold AIQueryGenerator._extract_conditions.
  rewrite length_app. f_equal.
  - unfold AIQueryGenerator.value_conditions.
    apply length_flat_map_const. intros x. apply length_map.
  - unfold AIQueryGenerator.comparison_conditions.
    destruct (AIQueryGenerator._find_numeric_columns schema tables) as [|c cs].
    + induction AIQueryGenerator.comparison_patterns as [|p ps IH]; [reflexivity|].
      simpl. rewrite length_app, IH, length_flat_map_nil. reflexivity.
    + induction AIQueryGenerator.comparison_patterns as [|p ps IH]; [reflexivity|].
      simpl. rewrite !length_app, IH, length_flat_map_singletons. reflexivity.
Qed.

(** ** Formatting rows *)

Section FormatFacts.
Import AdvancedQueryBuilder.

Lemma format_cell_read_back v : format_cell v = read_back v.
Proof. destruct v; reflexivity. Qed.

Lemma format_cell_plain v : plain (format_cell v).
Proof. destruct v; exact I. Qed.

Lemma nth_error_NoDup {A} (l : list A) i j x :
  NoDup l -> nth_error l i = Some x -> nth_error l j = Some x -> i = j.
Proof.
  revert i j. induction l as [|a l IH]; intros i j W Hi Hj.
  - destruct i; discriminate.
  - apply NoDup_cons in W. destruct W as [Hn W]. rewrite list_elem_of_In in Hn.
    destruct i as [|i], j as [|j]; simpl in *.
    + reflexivity.
    + exfalso. injection Hi as ->. apply Hn. eapply nth_error_In; eauto.
    + exfalso. injection Hj as ->. apply Hn. eapply nth_error_In; eauto.
    + f_equal. eauto.
Qed.

(** What the loop over one row leaves under a column name that occurs
    once among the columns. *)
Lemma fill_row_get columns c j :
  NoDup columns -> nth_error columns j = Some c ->
  forall row i d,
    PyDict.get (fill_row columns i row d) c
    = if (i <=? j)%nat && (j - i <? length row)%nat
      then option_map read_back (nth_error row (j - i))
      else PyDict.get d c.
Proof.
  intros W Hj. induction row as [|v rest IH]; intros i d.
  - simpl. now rewrite andb_false_r.
  - cbn [fill_row]. rewrite IH.
    destruct (Nat.eq_dec i j) as [->|Hne].
    + rewrite Hj, get_set_eq, format_cell_read_back.
      replace (S j <=? j)%nat with false by (symmetry; apply Nat.leb_gt; lia).
      rewrite Nat.leb_refl, Nat.sub_diag. reflexivity.
    + assert (G : PyDict.get
                    (match nth_error columns i with
                     | Some column => PyDict.set d column (format_cell v)
                     | None => d
                     end) c = PyDict.get d c).
      { destruct (nth_error columns i) as [ci|] eqn:Hi; [|reflexivity].
        apply get_set_ne. intros ->. apply Hne.
        eapply nth_error_NoDup; eauto. }
      rewrite G.
      destruct (Nat.leb_spec (S i) j) as [Hlt|Hge].
      * replace (i <=? j)%nat with true by (symmetry; apply Nat.leb_le; lia).
        replace (j - i)%nat with (S (j - S i)) by lia.
        simpl. reflexivity.
      * replace (i <=? j)%nat with false by (symmetry; apply Nat.leb_gt; lia).
        reflexivity.
Qed.

Lemma fill_row_keys columns : forall row i d,
  (forall k, In k (PyDict.keys d) -> In k columns) ->
  forall k, In k (PyDict.keys (fill_row columns i row d)) -> In k columns.
Proof.
  induction row as [|v rest IH]; intros i d H k; simpl; [apply H|].
  apply IH. intros k'. destruct (nth_error columns i) as [ci|] eqn:Hi; [|apply H].
  intros Hk. destruct (key_get_some _ _ Hk) as (x & Hx).
  rewrite get_set in Hx. destruct (String.eqb_spec ci k') as [<-|_].
  - eapply nth_error_In; eauto.
  - apply H. eapply get_some_key; eauto.
Qed.

Lemma fill_row_wf columns : forall row i d,
  PyDict.wf d -> PyDict.wf (fill_row columns i row d).
Proof.
  induction row as [|v rest IH]; intros i d W; simpl; [exact W|].
  apply IH. destruct (nth_error columns i); [now apply wf_set | exact W].
Qed.

(** No object is left in the row dictionary. *)
Lemma fill_row_plain columns : forall row i d,
  (forall k v, PyDict.get d k = Some v -> plain v) ->
  forall k v, PyDict.get (fill_row columns i row d) k = Some v -> plain v.
Proof.
  induction row as [|x rest IH]; intros i d H k v; simpl; [apply H|].
  apply IH. intros k' v'. destruct (nth_error columns i) as [ci|]; [|apply H].
  rewrite get_set. destruct (String.eqb ci k').
  - intros E. injection E as <-. apply format_cell_plain.
  - apply H.
Qed.

End FormatFacts.

(** X20. [_format_data_rows] makes one dictionary per row, each holding
    only column names as keys, each key once, and no object other than
    [None], numbers and texts as values. When the column names are
    distinct, the cell at position i of a row is read back under the i-th
    column name: as it is when it is [None], a number or a text, and as
    the text of its [str] when it is any other object. Cells beyond the
    last column are dropped. *)
Theorem formatted_rows_read_back :
  forall (rows : list (list AdvancedQueryBuilder.value)) (columns : list string),
    length (AdvancedQueryBuilder._format_data_rows rows columns) = length rows
    /\ Forall (fun record =>
                 PyDict.wf record
                 /\ (forall k, In k (PyDict.keys record) -> In k columns)
                 /\ (forall k v, PyDict.get record k = Some v -> plain v))
              (AdvancedQueryBuilder._format_data_rows rows columns)
    /\ (NoDup columns ->
        forall r row i c v,
          nth_error rows r = Some row ->
          nth_error columns i = Some c ->
          nth_error row i = Some v ->
          exists record,
            nth_error (AdvancedQueryBuilder._format_data_rows rows columns) r
            = Some record
            /\ PyDict.get record c = Some (read_back v)).
Proof.
  intros rows columns. unfold AdvancedQueryBuilder._format_data_rows.
  split; [apply length_map|]. split.
  - apply List.Forall_forall. intros record H. apply in_map_iff in H.
    destruct H as (row & <- & _). split; [|split].
    + apply fill_row_wf. unfold PyDict.wf. simpl. apply NoDup_nil_2.
    + apply fill_row_keys. intros k [].
    + apply fill_row_plain. intros k v. discriminate.
  - intros W r row i c v Hr Hc Hv.
    exists (AdvancedQueryBuilder.fill_row columns 0 row []). split.
    + apply (map_nth_error (fun row => AdvancedQueryBuilder.fill_row columns 0 row [])
               r rows Hr).
    + rewrite (fill_row_get columns c i W Hc). simpl.
      rewrite Nat.sub_0_r.
      assert (L : (i < length row)%nat) by (apply nth_error_Some; congruence).
      apply Nat.ltb_lt in L. rewrite L, Hv. reflexivity.
Qed.

Lemma formatted_rows_read_back_witness :
  exists record,
    nth_error
      (AdvancedQueryBuilder._format_data_rows
         [[AdvancedQueryBuilder.VInt 1; AdvancedQueryBuilder.VStr "Ann";
           AdvancedQueryBuilder.VObject Samples.price];
          [AdvancedQueryBuilder.VInt 2; AdvancedQueryBuilder.VNone;
           AdvancedQueryBuilder.VObject Samples.price;
           AdvancedQueryBuilder.VStr "dropped"]]
         ["id"; "name"; "price"]) 1
    = Some record
    /\ PyDict.get record "price" = Some (AdvancedQueryBuilder.VStr "9.50").
Proof.
  apply (proj2 (proj2 (formatted_rows_read_back
                         [[AdvancedQueryBuilder.VInt 1; AdvancedQueryBuilder.VStr "Ann";
                           AdvancedQueryBuilder.VObject Samples.price];
                          [AdvancedQueryBuilder.VInt 2; AdvancedQueryBuilder.VNone;
                           AdvancedQueryBuilder.VObject Samples.price;
                           AdvancedQueryBuilder.VStr "dropped"]]
                         ["id"; "name"; "price"]))
           ltac:(apply (bool_decide_unpack _); vm_compute; exact I)
           1%nat
           [AdvancedQueryBuilder.VInt 2; AdvancedQueryBuilder.VNone;
            AdvancedQueryBuilder.VObject Samples.price;
            AdvancedQueryBuilder.VStr "dropped"]
           2%nat "price" (AdvancedQueryBuilder.VObject Samples.price)); reflexivity.
Defined.

(** ** Processing a question *)

Section ProcessFacts.
Import PyStr AdvancedQueryBuilder.

(** What one execution does, whatever the statement. *)
Lemma execute_summary db sql tables log :
  (exists sent,
      snd (execute_generated_sql db sql tables log) = log ++ sent
      /\ Forall is_select sent)
  /\ match fst (execute_generated_sql db sql tables log) with
     | Modification _ _ => False
     | Data data _ row_count _ => row_count = length data
     | Failure _ _ => True
     end.
Proof.
  destruct (_is_safe_query sql) eqn:S.
  - destruct (execute_safe db sql tables log S) as (opt & probes & Ho & Hp & E).
    rewrite E. split.
    + exists (probes ++ [opt]). split; [destruct (db opt); reflexivity|].
      apply Forall_app. split; [exact Hp | repeat constructor; exact Ho].
    + destruct (db opt); simpl; auto.
  - rewrite (unsafe_is_not_executed db sql tables log S). split; [|exact I].
    exists []. split; [simpl; now rewrite app_nil_r | constructor].
Qed.

Lemma process_summary fq fn sp schema los sem db q now log cache :
  (exists sent,
      fst (snd (process_natural_query fq fn sp schema los sem db q now (log, cache)))
      = log ++ sent
      /\ Forall is_select sent)
  /\ (if formatted_success
           (fst (process_natural_query fq fn sp schema los sem db q now (log, cache)))
      then exists text,
          snd (snd (process_natural_query fq fn sp schema los sem db q now (log, cache)))
          = _cache_query q text now cache
      else
        snd (snd (process_natural_query fq fn sp schema los sem db q now (log, cache)))
        = cache)
  /\ match fst (process_natural_query fq fn sp schema los sem db q now (log, cache)) with
     | FormattedModification _ _ _ _ => False
     | FormattedData _ _ _ row_count _ data _ => length data = row_count
     | _ => True
     end.
Proof.
  assert (Nothing : exists sent : list string, log = log ++ sent /\ Forall is_select sent).
  { exists []. split; [now rewrite app_nil_r | constructor]. }
  unfold process_natural_query.
  destruct (AIQueryGenerator.generate_sql fq fn sp schema los sem q)
    as [text tables a conf|error]; [|simpl; auto].
  destruct (String.eqb text ""); [simpl; auto|].
  destruct (execute_summary db text tables log) as [(sent & Hs & Hf) Hr].
  destruct (execute_generated_sql db text tables log) as [execution log'].
  simpl in Hs, Hr. subst log'.
  destruct execution as [e attempted|data columns row_count executed|n executed];
    simpl; [| |contradiction].
  - repeat split; eauto.
  - repeat split; eauto.
    unfold _format_data_rows. rewrite length_map. congruence.
Qed.

End ProcessFacts.

(** X21. Whatever is asked and whatever the database answers,
    [process_natural_query] sends only SELECT statements to the database,
    never reports a modification, reports as many formatted rows as its
    row count says, and touches the cache only on success: a failed
    request leaves the cache as it was, a successful one records the
    question with [_cache_query]. *)
Theorem processing_is_read_only :
  forall fq fn sp schema los sem db (q : string) (now : Z) log cache,
    (exists sent,
        fst (snd (AdvancedQueryBuilder.process_natural_query fq fn sp schema los sem db
                    q now (log, cache)))
        = log ++ sent
        /\ Forall is_select sent)
    /\ (if AdvancedQueryBuilder.formatted_success
             (fst (AdvancedQueryBuilder.process_natural_query fq fn sp schema los sem db
                     q now (log, cache)))
        then exists text,
            snd (snd (AdvancedQueryBuilder.process_natural_query fq fn sp schema los sem
                        db q now (log, cache)))
            = AdvancedQueryBuilder._cache_query q text now cache
        else
          snd (snd (AdvancedQueryBuilder.process_natural_query fq fn sp schema los sem
                      db q now (log, cache)))
          = cache)
    /\ match fst (AdvancedQueryBuilder.process_natural_query fq fn sp schema los sem db
                    q now (log, cache)) with
       | AdvancedQueryBuilder.FormattedModification _ _ _ _ => False
       | AdvancedQueryBuilder.FormattedData _ _ _ row_count _ data _ =>
           length data = row_count
       | _ => True
       end.
Proof. intros. apply process_summary. Qed.

(** X22. Over a whole session that starts with an empty cache, whatever
    the questions, the clock readings and the answers of the database,
    the cache is a dictionary of at most 100 entries at the end, and
    everything that was sent to the database is a SELECT. *)
Theorem session_keeps_cache_bounded :
  forall fq fn sp schema los sem db (questions : list (string * Z)) log,
    PyDict.wf (snd (session fq fn sp schema los sem db questions (log, [])))
    /\ (PyDict.len (snd (session fq fn sp schema los sem db questions (log, [])))
        <= 100)%nat
    /\ exists sent,
         fst (session fq fn sp schema los sem db questions (log, [])) = log ++ sent
         /\ Forall is_select sent.
Proof.
  intros fq fn sp schema los sem db questions log. unfold session.
  apply (fold_left_preserves
           (fun st : AdvancedQueryBuilder.builder_state =>
              PyDict.wf (snd st) /\ (PyDict.len (snd st) <= 100)%nat
              /\ exists sent, fst st = log ++ sent /\ Forall is_select sent)).
  - intros [log0 cache0] [q now] (W & L & sent & Hs & Hf). simpl in W, L, Hs.
    unfold ask. cbn [fst snd].
    destruct (process_summary fq fn sp schema los sem db q now log0 cache0)
      as ((sent' & Hs' & Hf') & Hc & _).
    destruct (AdvancedQueryBuilder.process_natural_query fq fn sp schema los sem db
                q now (log0, cache0)) as [f [log1 cache1]].
    simpl in *. subst log0 log1.
    assert (B : PyDict.wf cache1 /\ (PyDict.len cache1 <= 100)%nat).
    { destruct (AdvancedQueryBuilder.formatted_success f).
      - destruct Hc as (text & ->). now apply cache_query_bounded.
      - subst cache1. auto. }
    destruct B as [W1 L1]. repeat split; [exact W1 | exact L1|].
    exists (sent ++ sent'). split; [now rewrite app_assoc|].
    apply Forall_app. auto.
  - simpl. repeat split.
    + unfold PyDict.wf. simpl. apply NoDup_nil_2.
    + lia.
    + exists []. split; [now rewrite app_nil_r | constructor].
Qed.

(** ** Size probes and suggestions *)

Section SuggestionFacts.
Import PyStr AdvancedQueryBuilder.

Lemma suggest_tables_eq schema db partial_lower tables : forall log,
  map info_name (fst (suggest_tables schema db partial_lower tables log))
  = List.filter (suggested partial_lower) tables
  /\ snd (suggest_tables schema db partial_lower tables log)
     = log ++ map count_probe (List.filter (suggested partial_lower) tables).
Proof.
  induction tables as [|table rest IH]; intros log.
  - simpl. now rewrite app_nil_r.
  - cbn [suggest_tables List.filter]. fold (suggested partial_lower table).
    destruct (suggested partial_lower table); [|apply IH].
    unfold _get_table_row_count, session_execute.
    change ("SELECT COUNT(*) FROM " +:+ table) with (count_probe table).
    destruct (db (count_probe table)) as [e|result];
      destruct (IH (log ++ [count_probe table])) as [N L];
      destruct (suggest_tables schema db partial_lower rest (log ++ [count_probe table]))
        as [more log'];
      simpl in *; rewrite N, L, <- app_assoc; split; reflexivity.
Qed.

Lemma length_flat_map_le {A B} (f : A -> list B) n l :
  (forall x, (length (f x) <= n)%nat) -> (length (flat_map f l) <= n * length l)%nat.
Proof.
  intros H. induction l as [|x l IH]; simpl; [lia|].
  rewrite length_app. specialize (H x). lia.
Qed.

Lemma filter_all {A} (f : A -> bool) l :
  (forall x, f x = true) -> List.filter f l = l.
Proof.
  intros H. induction l as [|x l IH]; [reflexivity|].
  simpl. now rewrite H, IH.
Qed.

End SuggestionFacts.

(** X23. [_identify_large_tables] sends exactly one size probe per table,
    in the order of the list, whatever the answers are, and returns the
    tables for which the probe answered with a count above 10000; a
    probe that raises, or answers with no row or with something that
    does not compare above 10000, counts as not large. *)
Theorem large_tables_are_probed_once :
  forall db tables log,
    AdvancedQueryBuilder._identify_large_tables db tables log
    = (List.filter (reported_large db) tables, log ++ map count_probe tables).
Proof. intros. apply identify_large_tables_eq. Qed.

(** X24. The row limit is appended exactly when the upper-cased statement
    contains neither LIMIT nor COUNT( and some table is reported large;
    a statement that contains LIMIT or COUNT( is left as it is and costs
    no probe. *)
Theorem row_limit_is_added_for_large_tables :
  forall db sql tables log,
    AdvancedQueryBuilder._optimize_query db sql tables log
    = if negb (PyStr.str_in "LIMIT" (PyStr.upper sql))
         && negb (PyStr.str_in "COUNT(" (PyStr.upper sql))
      then (if existsb (reported_large db) tables then sql +:+ " LIMIT 100" else sql,
            log ++ map count_probe tables)
      else (sql, log).
Proof. intros. apply optimize_query_eq. Qed.

(** X25. [get_schema_suggestions] suggests exactly the tables whose
    lowered name contains the lowered partial query or is contained in
    it, in schema order, and sends one size probe for each of them and
    nothing else; it returns at most five columns per suggested table and
    at most ten sample queries. For the empty partial query every table
    of the schema is suggested. *)
Theorem schema_suggestions_cover_matching_tables :
  forall schema db (partial_query : string) log,
    map AdvancedQueryBuilder.info_name
        (AdvancedQueryBuilder.suggested_tables
           (fst (AdvancedQueryBuilder.get_schema_suggestions schema db partial_query log)))
    = List.filter (suggested (PyStr.lower partial_query))
                  (SchemaAnalyzer.get_table_names (SchemaAnalyzer.insp schema))
    /\ snd (AdvancedQueryBuilder.get_schema_suggestions schema db partial_query log)
       = log ++ map count_probe
                    (List.filter (suggested (PyStr.lower partial_query))
                       (SchemaAnalyzer.get_table_names (SchemaAnalyzer.insp schema)))
    /\ (length (AdvancedQueryBuilder.suggested_columns
                  (fst (AdvancedQueryBuilder.get_schema_suggestions schema db
                          partial_query log)))
        <= 5 * length (AdvancedQueryBuilder.suggested_tables
                         (fst (AdvancedQueryBuilder.get_schema_suggestions schema db
                                 partial_query log))))%nat
    /\ (length (AdvancedQueryBuilder.sample_queries
                  (fst (AdvancedQueryBuilder.get_schema_suggestions schema db
                          partial_query log))) <= 10)%nat
    /\ map AdvancedQueryBuilder.info_name
           (AdvancedQueryBuilder.suggested_tables
              (fst (AdvancedQueryBuilder.get_schema_suggestions schema db "" log)))
       = SchemaAnalyzer.get_table_names (SchemaAnalyzer.insp schema).
Proof.
  intros schema db partial_query log.
  assert (G : forall p,
             map AdvancedQueryBuilder.info_name
                 (AdvancedQueryBuilder.suggested_tables
                    (fst (AdvancedQueryBuilder.get_schema_suggestions schema db p log)))
             = List.filter (suggested (PyStr.lower p))
                           (SchemaAnalyzer.get_table_names (SchemaAnalyzer.insp schema))).
  { intros p. unfold AdvancedQueryBuilder.get_schema_suggestions.
    destruct (suggest_tables_eq schema db (PyStr.lower p)
                (SchemaAnalyzer.get_table_names (SchemaAnalyzer.insp schema)) log)
      as [N _].
    destruct (AdvancedQueryBuilder.suggest_tables schema db (PyStr.lower p) _ log)
      as [tables log']. exact N. }
  split; [apply G|].
  split; [|split; [|split]].
  - unfold AdvancedQueryBuilder.get_schema_suggestions.
    destruct (suggest_tables_eq schema db (PyStr.lower partial_query)
                (SchemaAnalyzer.get_table_names (SchemaAnalyzer.insp schema)) log)
      as [_ L].
    destruct (AdvancedQueryBuilder.suggest_tables schema db (PyStr.lower partial_query)
                _ log) as [tables log']. exact L.
  - unfold AdvancedQueryBuilder.get_schema_suggestions.
    destruct (AdvancedQueryBuilder.suggest_tables schema db (PyStr.lower partial_query)
                _ log) as [tables log'].
    cbn [fst AdvancedQueryBuilder.suggested_columns
         AdvancedQueryBuilder.suggested_tables].
    apply length_flat_map_le. intros info. rewrite length_map, length_firstn. lia.
  - unfold AdvancedQueryBuilder.get_schema_suggestions.
    destruct (AdvancedQueryBuilder.suggest_tables schema db (PyStr.lower partial_query)
                _ log) as [tables log'].
    cbn [fst AdvancedQueryBuilder.sample_queries].
    unfold AdvancedQueryBuilder._generate_sample_queries.
    rewrite length_firstn. lia.
  - rewrite G. apply filter_all. intros table. unfold suggested.
    change (PyStr.lower "") with "". now rewrite str_in_nil.
Qed.

(** ** Inferring tables and generating the statement *)

Section GenerationFacts.
Import AIQueryGenerator SchemaAnalyzer.

Lemma in_firstn {A} (x : A) n l : In x (firstn n l) -> In x l.
Proof.
  intros H. rewrite <- (firstn_skipn n l). apply in_or_app. now left.
Qed.

Lemma first_resolved_in schema tables candidates x :
  In x (first_resolved schema tables candidates) -> In x tables.
Proof.
  induction candidates as [|c rest IH]; simpl; [tauto|].
  destruct (find_table_by_alias schema c) as [actual|]; [|exact IH].
  destruct (negb (String.eqb actual "") && PyStr.mem actual tables) eqn:E; [|exact IH].
  intros [<-|[]]. apply andb_true_iff in E. destruct E as [_ E].
  now apply mem_In.
Qed.

Lemma domain_tables_in schema query_lower tables x :
  In x (domain_tables schema query_lower tables) -> In x tables.
Proof.
  unfold domain_tables. intros H. apply in_flat_map in H.
  destruct H as (m & _ & H).
  destruct (PyStr.str_in (fst m) query_lower); [|destruct H].
  eapply first_resolved_in; eauto.
Qed.

End GenerationFacts.

(** X26. [_infer_tables_from_context] returns at most three tables. What
    it infers from the domain keywords are tables of the schema: without
    a sentence model, every inferred table is one of the inspector's
    table names. *)
Theorem inferred_tables_are_schema_tables :
  forall schema sem (a : AIQueryGenerator.analysis),
    (length (AIQueryGenerator._infer_tables_from_context schema sem a) <= 3)%nat
    /\ Forall (fun t => In t (SchemaAnalyzer.get_table_names (SchemaAnalyzer.insp schema)))
              (AIQueryGenerator._infer_tables_from_context schema None a).
Proof.
  intros schema sem a. split.
  - unfold AIQueryGenerator._infer_tables_from_context. rewrite length_firstn. lia.
  - apply List.Forall_forall. intros x H.
    unfold AIQueryGenerator._infer_tables_from_context in H.
    apply in_firstn in H.
    destruct (AIQueryGenerator.domain_tables schema _ _) eqn:E; [destruct H|].
    rewrite <- E in H. eapply domain_tables_in; eauto.
Qed.

Section GenerationOutcomes.
Import AIQueryGenerator SchemaAnalyzer.

Lemma fold_left_preserves_in {A B} (P : A -> Prop) (f : A -> B -> A) l :
  (forall a b, In b l -> P a -> P (f a b)) -> forall a, P a -> P (fold_left f l a).
Proof.
  induction l as [|b l IH]; intros H a Pa; simpl; [exact Pa|].
  apply IH.
  - intros a' b' Hb. apply H. now right.
  - apply H; [now left | exact Pa].
Qed.

(** The entities of an analysis are those of the extraction. *)
Lemma entities_analysis fq fn schema q :
  entities (_analyze_natural_query fq fn schema q) = _extract_entities fq fn schema q.
Proof.
  unfold _analyze_natural_query, aggregation_stage, detect_grouping.
  assert (E : forall ql a, entities (detect_aggregation ql a) = entities a).
  { intros ql a. unfold detect_aggregation.
    apply (fold_left_preserves (fun x => entities x = entities a)); [|reflexivity].
    intros x f Hx. destruct (PyStr.str_in f ql); [|exact Hx].
    destruct (PyStr.mem f _); exact Hx. }
  destruct (existsb _ _); cbn [with_intent entities]; rewrite E; reflexivity.
Qed.

Lemma mentioned_tables_listed fq fn schema q t :
  In t (mentioned_tables (_analyze_natural_query fq fn schema q)) -> listed schema t.
Proof.
  unfold mentioned_tables. rewrite entities_analysis. intros H.
  apply in_flat_map in H. destruct H as (e & He & H).
  destruct (String.eqb_spec (e_type e) "table") as [T|_]; [|destruct H].
  destruct H as [<-|[]].
  pose proof (entities_grounded fq fn schema q) as G.
  rewrite List.Forall_forall in G. specialize (G e He).
  destruct G as [[_ G]|[[G _]|[G|G]]]; [exact G | | |]; congruence.
Qed.

Lemma inferred_tables_listed schema sem a t :
  picks_given sem -> In t (_infer_tables_from_context schema sem a) -> listed schema t.
Proof.
  intros S H. unfold _infer_tables_from_context in H. apply in_firstn in H.
  destruct (domain_tables schema _ _) eqn:E.
  - destruct sem as [matching|]; [|destruct H].
    eapply (S matching eq_refl); eauto.
  - rewrite <- E in H. eapply domain_tables_in; eauto.
Qed.

(** With foreign keys that stay among the listed tables, the graph has
    no other node than these. *)
Lemma nodes_link_first_match tables table col_name cands : forall g,
  In table tables ->
  (forall x, PyDict.contains g x = true -> In x tables) ->
  forall x, PyDict.contains (link_first_match tables table col_name cands g) x = true ->
            In x tables.
Proof.
  induction cands as [|[pot|] cands IH]; intros g Ht P; simpl.
  - exact P.
  - destruct (negb (String.eqb pot "") && PyStr.mem pot tables) eqn:E;
      [|now apply IH].
    destruct (has_edge g table pot); [exact P|].
    apply andb_true_iff in E. destruct E as [_ E]. apply mem_In in E.
    intros x. rewrite contains_add_edge. intros H.
    apply orb_true_iff in H. destruct H as [H|H]; [|now apply P].
    apply orb_true_iff in H.
    destruct H as [H|H]; apply String.eqb_eq in H; subst x; assumption.
  - now apply IH.
Qed.

Lemma build_nodes_listed i x :
  references_listed i ->
  PyDict.contains (_build_relationship_graph i) x = true ->
  In x (get_table_names i).
Proof.
  intros R. revert x.
  unfold _build_relationship_graph, _detect_implicit_relationships.
  apply (fold_left_preserves_in
           (fun g => forall x, PyDict.contains g x = true -> In x (get_table_names i))).
  - intros g table Ht P. unfold detect_table.
    apply (fold_left_preserves
             (fun g => forall x, PyDict.contains g x = true -> In x (get_table_names i)));
      [|exact P].
    intros g' col P'. unfold detect_column.
    destruct (PyStr.endswith _ _); [|exact P'].
    now apply nodes_link_first_match.
  - unfold foreign_key_graph.
    apply (fold_left_preserves_in
             (fun g => forall x, PyDict.contains g x = true -> In x (get_table_names i))).
    + intros g table Ht P. unfold add_foreign_keys.
      apply (fold_left_preserves_in
               (fun g => forall x, PyDict.contains g x = true -> In x (get_table_names i)));
        [|exact P].
      intros g' fk Hfk P' x. rewrite contains_add_edge. intros H.
      apply orb_true_iff in H. destruct H as [H|H]; [|now apply P'].
      apply orb_true_iff in H. destruct H as [H|H]; apply String.eqb_eq in H; subst x.
      * exact Ht.
      * now apply (R table fk).
    + apply (fold_left_preserves_in
               (fun g => forall x, PyDict.contains g x = true -> In x (get_table_names i))).
      * intros g t Ht P x. rewrite contains_add_node. intros H.
        apply orb_true_iff in H. destruct H as [H|H]; [|now apply P].
        apply String.eqb_eq in H. now subst.
      * intros x H. discriminate.
Qed.

Lemma direct_related_listed i table max_depth t :
  references_listed i ->
  In t (direct (get_related_tables (_build_relationship_graph i) table max_depth)) ->
  In t (get_table_names i).
Proof.
  intros R. unfold get_related_tables.
  destruct (neighbors (_build_relationship_graph i) table) as [nbs|] eqn:N;
    simpl; [|tauto].
  intros H. apply build_nodes_listed; [exact R|].
  apply (build_closed i table t). eapply neighbor_has_edge; eauto.
Qed.

Lemma identified_tables_listed fq fn i schema los sem q t :
  init i = Some schema -> references_listed i -> lists_members los -> picks_given sem ->
  In t (_identify_tables schema los sem (_analyze_natural_query fq fn schema q)) ->
  listed schema t.
Proof.
  intros I R L S H. unfold _identify_tables in H. cbv zeta in H.
  apply (proj1 (L _ _)) in H.
  assert (G : relationship_graph schema = _build_relationship_graph i
              /\ insp schema = i).
  { unfold init in I. destruct (_detect_table_aliases i); [|discriminate].
    injection I as <-. split; reflexivity. }
  destruct G as [G Hi].
  set (a := _analyze_natural_query fq fn schema q) in *.
  assert (B : forall x,
             In x match mentioned_tables a with
                  | [] => _infer_tables_from_context schema sem a
                  | _ => mentioned_tables a
                  end -> listed schema x).
  { intros x Hx. destruct (mentioned_tables a) eqn:M.
    - eapply inferred_tables_listed; eauto.
    - rewrite <- M in Hx. eapply mentioned_tables_listed; eauto. }
  destruct (match mentioned_tables a with
            | [] => _infer_tables_from_context schema sem a
            | _ => mentioned_tables a
            end) as [|only [|second rest]]; cbn iota in H;
    [destruct H | | now apply B].
  destruct (existsb _ _); [|now apply B].
  apply in_app_iff in H. destruct H as [H|H]; [now apply B|].
  apply in_firstn in H. rewrite G in H. unfold listed. rewrite Hi.
  eapply direct_related_listed; eauto.
Qed.

Lemma unknown_table_none schema tables :
  unknown_table schema tables = None -> Forall (listed schema) tables.
Proof.
  intros H. apply List.Forall_forall. intros t Ht.
  pose proof (List.find_none _ _ H t Ht) as N.
  unfold no_such_table in N. apply negb_false_iff in N. now apply mem_In.
Qed.

Lemma unknown_table_some schema tables t :
  unknown_table schema tables = Some t -> In t tables /\ ~ listed schema t.
Proof.
  intros H. apply List.find_some in H. destruct H as [Ht N]. split; [exact Ht|].
  unfold no_such_table in N. apply negb_true_iff in N.
  intros L. apply mem_In in L. unfold listed in L. congruence.
Qed.

End GenerationOutcomes.

(** X27. [generate_sql] has two ways to fail. Either the join resolver
    raised, which needs more than one identified table; or an identified
    table is unknown to the inspector, and then the message is the name
    of such a table. A statement that is returned begins with SELECT and
    its tables are the identified ones, all of them tables of the
    inspector; an identified table that is not, makes generation fail.
    Such tables come from foreign keys only: for an analyzer that
    [__init__] built over an inspector whose foreign keys all refer to
    listed tables, every identified table is listed and generation fails
    in the join resolver or not at all. *)
Theorem generation_outcomes :
  forall fq fn sp schema los sem (q : string),
    let a := AIQueryGenerator._analyze_natural_query fq fn schema q in
    let tables := AIQueryGenerator._identify_tables schema los sem a in
    match AIQueryGenerator.generate_sql fq fn sp schema los sem q with
    | AIQueryGenerator.Generated text tables' a' conf =>
        a' = a /\ conf = AIQueryGenerator.confidence a /\ tables' = tables
        /\ Forall (listed schema) tables
        /\ PyStr.startswith text "SELECT" = true
    | AIQueryGenerator.GenerationError error =>
        (AIQueryGenerator._build_joins sp schema tables = None
         /\ (1 < length tables)%nat)
        \/ (In error tables /\ ~ listed schema error)
    end
    /\ ((exists table, In table tables /\ ~ listed schema table) ->
        exists error,
          AIQueryGenerator.generate_sql fq fn sp schema los sem q
          = AIQueryGenerator.GenerationError error)
    /\ (forall i,
          SchemaAnalyzer.init i = Some schema ->
          references_listed i -> lists_members los -> picks_given sem ->
          Forall (listed schema) tables
          /\ forall error,
               AIQueryGenerator.generate_sql fq fn sp schema los sem q
               = AIQueryGenerator.GenerationError error ->
               AIQueryGenerator._build_joins sp schema tables = None).
Proof.
  intros fq fn sp schema los sem q a tables.
  assert (Outcome :
            match AIQueryGenerator.generate_sql fq fn sp schema los sem q with
            | AIQueryGenerator.Generated text tables' a' conf =>
                a' = a /\ conf = AIQueryGenerator.confidence a /\ tables' = tables
                /\ Forall (listed schema) tables
                /\ PyStr.startswith text "SELECT" = true
            | AIQueryGenerator.GenerationError error =>
                (AIQueryGenerator._build_joins sp schema tables = None
                 /\ (1 < length tables)%nat)
                \/ (In error tables /\ ~ listed schema error)
            end).
  { unfold AIQueryGenerator.generate_sql. fold a. fold tables.
    destruct (AIQueryGenerator._build_joins sp schema tables) as [joins|] eqn:J.
    - destruct (AIQueryGenerator.unknown_table schema tables) as [t|] eqn:U.
      + right. now apply unknown_table_some.
      + repeat split; [now apply unknown_table_none | apply construct_sql_select].
    - left. split; [reflexivity|].
      unfold AIQueryGenerator._build_joins in J.
      destruct (Nat.leb_spec (length tables) 1); [discriminate | assumption]. }
  split; [exact Outcome|]. split.
  - intros (t & Ht & Hn).
    destruct (AIQueryGenerator.generate_sql fq fn sp schema los sem q)
      as [text tables' a' conf|error]; [|eauto].
    destruct Outcome as (_ & _ & _ & F & _). exfalso. apply Hn.
    rewrite List.Forall_forall in F. now apply F.
  - intros i I R L S.
    assert (F : Forall (listed schema) tables).
    { apply List.Forall_forall. intros t Ht.
      eapply identified_tables_listed; eauto. }
    split; [exact F|]. intros error E. rewrite E in Outcome.
    destruct Outcome as [[J _]|[Ht Hn]]; [exact J|].
    exfalso. apply Hn. rewrite List.Forall_forall in F. now apply F.
Qed.

Lemma generation_outcomes_witness :
  Forall (listed Samples.shop_schema)
         (AIQueryGenerator._identify_tables Samples.shop_schema Samples.in_order None
            (AIQueryGenerator._analyze_natural_query Samples.no_quoted
               Samples.no_numbers Samples.shop_schema "show orders with customers"))
  /\ exists error,
       AIQueryGenerator.generate_sql Samples.no_quoted Samples.no_numbers
         Samples.no_path Samples.logs_schema Samples.in_order None "logs with hosts"
       = AIQueryGenerator.GenerationError error.
Proof.
  split.
  - apply (proj2 (proj2 (generation_outcomes Samples.no_quoted Samples.no_numbers
                           Samples.no_path Samples.shop_schema Samples.in_order None
                           "show orders with customers"))
             Samples.shop).
    + reflexivity.
    + intros table fk _ H. destruct H.
    + intros l x. reflexivity.
    + intros matching H. discriminate H.
  - apply (proj1 (proj2 (generation_outcomes Samples.no_quoted Samples.no_numbers
                           Samples.no_path Samples.logs_schema Samples.in_order None
                           "logs with hosts"))).
    exists "hosts". split.
    + vm_compute. tauto.
    + intros [H|[]]. discriminate H.
Defined.
